(** * code_trm_python_mcp: the iteration engine, embedded and verified

    A shallow embedding of the Python sources of the TRM server:

    - [src/utils/parser.py]      (test and benchmark output parsers),
    - [src/utils/scoring.py]     (weighted score, EMA, halting policy),
    - [src/utils/command.py]     (availability probe),
    - [src/tools/param_translator.py] (short to long argument names),
    - [src/tools/handlers/lib/evaluation.py] (evaluation pipeline),
    - [src/shared/sessions.py], [src/server.py] (registry, read handler).

    Conventions of the embedding.

    - A Python [str] is a Rocq [string]; a character is a code point in
      0..255.  Python [int] is [Z].  In the model of a session a Python
      [float] is an exact rational [Q]; what is proved there rests on
      comparisons of scores and on how the fields are written, not on
      the value of a sum or a product.  Module [Binary64] gives the two
      arithmetic functions of [scoring.py] with the IEEE 754 operations
      of the interpreter, for what depends on rounding.
    - A call that can raise returns an [outcome]: [Returns v] or
      [Raises e].  A third result, [OutOfModel], marks the few places where
      the Python code leaves what the embedding represents (floats that are
      not rationals, code points above 255, records whose fields are not of
      their declared type).
    - External effects (subprocesses, the file system) are explicit oracle
      arguments. *)

From Stdlib Require Import ZArith QArith Qminmax Bool List String Ascii Lia Lqa.
From Stdlib Require Floats Uint63.
Import ListNotations.

Local Open Scope Z_scope.
Local Open Scope string_scope.

(** ** Outcomes of calls that may raise *)

Inductive exn : Type :=
| JSONDecodeError
| KeyError
| ValueError
| TypeError
| AttributeError
| IndexError
| TimeoutExpired
| OSError.

Inductive outcome (A : Type) : Type :=
| Returns (a : A)
| Raises (e : exn)
| OutOfModel.

Arguments Returns {A} a.
Arguments Raises {A} e.
Arguments OutOfModel {A}.

Definition obind {A B : Type} (c : outcome A) (f : A -> outcome B) : outcome B :=
  match c with
  | Returns a => f a
  | Raises e => Raises e
  | OutOfModel => OutOfModel
  end.

Declare Scope outcome_scope.
Delimit Scope outcome_scope with outcome.
Notation "x <- c ;; k" := (obind c (fun x => k))
  (at level 61, c at next level, right associativity) : outcome_scope.

Definition exn_eqb (a b : exn) : bool :=
  match a, b with
  | JSONDecodeError, JSONDecodeError | KeyError, KeyError
  | ValueError, ValueError | TypeError, TypeError
  | AttributeError, AttributeError | IndexError, IndexError
  | TimeoutExpired, TimeoutExpired | OSError, OSError => true
  | _, _ => false
  end.

(** [try: c  except (e1, e2, ...): handler] *)
Definition try_except {A : Type} (c : outcome A) (caught : list exn)
    (handler : outcome A) : outcome A :=
  match c with
  | Raises e => if existsb (exn_eqb e) caught then handler else Raises e
  | other => other
  end.

(** ** Characters and strings as Python sees them *)

Module PyStr.

Definition code (c : ascii) : N := N_of_ascii c.

Definition in_range (lo hi : N) (c : ascii) : bool :=
  (N.leb lo (code c) && N.leb (code c) hi)%bool.

(** [\d] on code points below 256: the decimal digits. *)
Definition is_digit (c : ascii) : bool := in_range 48 57 c.

(** [str.isspace] and the regex class [\s] on code points below 256. *)
Definition is_space (c : ascii) : bool :=
  (in_range 9 13 c || in_range 28 32 c
   || N.eqb (code c) 133 || N.eqb (code c) 160)%bool.

(** [str.lower] on code points below 256. *)
Definition lower_char (c : ascii) : ascii :=
  if (in_range 65 90 c || in_range 192 214 c || in_range 216 222 c)%bool
  then ascii_of_N (code c + 32) else c.

Fixpoint lower (s : string) : string :=
  match s with
  | EmptyString => EmptyString
  | String c s' => String (lower_char c) (lower s')
  end.

Definition chars (s : string) : list ascii := list_ascii_of_string s.
Definition of_chars (l : list ascii) : string := string_of_list_ascii l.

Fixpoint starts_with (p s : list ascii) : bool :=
  match p, s with
  | [], _ => true
  | a :: p', b :: s' => (Ascii.eqb a b && starts_with p' s')%bool
  | _ :: _, [] => false
  end.

(** [sub in s] for two strings. *)
Fixpoint contains_chars (sub s : list ascii) : bool :=
  (starts_with sub s ||
   match s with
   | [] => false
   | _ :: s' => contains_chars sub s'
   end)%bool.

Definition contains (sub s : string) : bool :=
  contains_chars (chars sub) (chars s).

(** [s.split()]: the maximal runs of non-whitespace characters. *)
Fixpoint split_ws_aux (cur : list ascii) (s : list ascii) : list string :=
  match s with
  | [] => match cur with [] => [] | _ => [of_chars (rev cur)] end
  | c :: s' =>
      if is_space c
      then match cur with
           | [] => split_ws_aux [] s'
           | _ => of_chars (rev cur) :: split_ws_aux [] s'
           end
      else split_ws_aux (c :: cur) s'
  end.

Definition split_ws (s : string) : list string := split_ws_aux [] (chars s).

(** [s.split(sep)] for a non-empty separator. *)
Fixpoint split_on_aux (sep : list ascii) (cur : list ascii) (s : list ascii)
    (skip : nat) : list string :=
  match s with
  | [] => [of_chars (rev cur)]
  | c :: s' =>
      match skip with
      | S n => split_on_aux sep cur s' n
      | O =>
          if starts_with sep s
          then of_chars (rev cur)
               :: split_on_aux sep [] s' (Nat.pred (List.length sep))
          else split_on_aux sep (c :: cur) s' O
      end
  end.

Definition split_on (sep s : string) : list string :=
  split_on_aux (chars sep) [] (chars s) O.

(** [s[:n]] *)
Fixpoint take (n : nat) (s : string) : string :=
  match n, s with
  | O, _ => EmptyString
  | S _, EmptyString => EmptyString
  | S n', String c s' => String c (take n' s')
  end.

(** The value of a run of decimal digits, as [int(...)] reads it. *)
Definition digit_val (c : ascii) : Z := Z.of_N (code c) - 48.

(** [int(s)] for a string of decimal digits.  The interpreter converts
    at most [max_str_digits] digits (4300 unless configured otherwise)
    and raises [ValueError] beyond; the value below is the converted one,
    and what is stated of a call that must return is stated for inputs
    within that length. *)
Definition max_str_digits : nat := 4300.

Definition int_of_digits (l : list ascii) : Z :=
  fold_left (fun acc c => 10 * acc + digit_val c) l 0.

End PyStr.

(** ** Regular expressions with the semantics of Python's [re.search]

    A backtracking matcher over the constructs the patterns of [parser.py]
    use: character classes, sequencing, the greedy quantifiers [?], [*] and
    [+], one capturing group, and the [re.MULTILINE] anchors [^] and [$].
    Alternatives are explored in Python's order (greedy first), and the
    search returns the leftmost match. *)

Module Re.

Inductive regex : Type :=
| RAny (p : ascii -> bool)   (* one character of a class *)
| REps
| RSeq (r1 r2 : regex)
| ROpt (r : regex)            (* r?  *)
| RStar (r : regex)           (* r*  *)
| RGroup (r : regex)          (* ( r ), group 1 *)
| RBol                         (* ^ with re.MULTILINE *)
| REol.                        (* $ with re.MULTILINE *)

Definition RPlus (r : regex) : regex := RSeq r (RStar r).

Definition newline : ascii := ascii_of_N 10.

(** A literal character; under [re.IGNORECASE] letters match in both cases. *)
Definition lit (ignorecase : bool) (c : ascii) : regex :=
  RAny (fun x =>
          if ignorecase
          then Ascii.eqb (PyStr.lower_char x) (PyStr.lower_char c)
          else Ascii.eqb x c).

Fixpoint lits (ignorecase : bool) (l : list ascii) : regex :=
  match l with
  | [] => REps
  | [c] => lit ignorecase c
  | c :: l' => RSeq (lit ignorecase c) (lits ignorecase l')
  end.

Definition text (ignorecase : bool) (s : string) : regex :=
  lits ignorecase (PyStr.chars s).

Definition digit : regex := RAny PyStr.is_digit.
Definition space : regex := RAny PyStr.is_space.

(** The matcher state: the character before the cursor, the remaining
    input, and the text of group 1 if it has been closed. *)
Record cursor : Type := {
  prev : option ascii;
  rest : list ascii;
  group1 : option (list ascii)
}.

Section Match.
Context {R : Type}.

Definition kont : Type := cursor -> option R.

Definition or_else (a : option R) (b : option R) : option R :=
  match a with Some x => Some x | None => b end.

Fixpoint star_loop (step : cursor -> kont -> option R) (fuel : nat)
    (c : cursor) (k : kont) : option R :=
  match fuel with
  | O => k c
  | S fuel' =>
      or_else
        (step c (fun c' =>
                   if Nat.ltb (List.length (rest c')) (List.length (rest c))
                   then star_loop step fuel' c' k
                   else None))
        (k c)
  end.

Fixpoint run (r : regex) (c : cursor) (k : kont) : option R :=
  match r with
  | RAny p =>
      match rest c with
      | x :: xs =>
          if p x
          then k {| prev := Some x; rest := xs; group1 := group1 c |}
          else None
      | [] => None
      end
  | REps => k c
  | RSeq r1 r2 => run r1 c (fun c' => run r2 c' k)
  | ROpt r1 => or_else (run r1 c k) (k c)
  | RStar r1 => star_loop (run r1) (List.length (rest c)) c k
  | RGroup r1 =>
      run r1 c (fun c' =>
        k {| prev := prev c'; rest := rest c';
             group1 := Some (firstn (List.length (rest c)
                                     - List.length (rest c'))%nat
                                    (rest c)) |})
  | RBol =>
      match prev c with
      | None => k c
      | Some x => if Ascii.eqb x newline then k c else None
      end
  | REol =>
      match rest c with
      | [] => k c
      | x :: _ => if Ascii.eqb x newline then k c else None
      end
  end.
End Match.

(** [re.search(r, s)]: the text of group 1 of the leftmost match. *)
Fixpoint search_at (r : regex) (p : option ascii) (s : list ascii)
    : option (list ascii) :=
  match run r {| prev := p; rest := s; group1 := None |}
            (fun c => Some (match group1 c with Some g => g | None => [] end))
  with
  | Some g => Some g
  | None =>
      match s with
      | [] => None
      | x :: s' => search_at r (Some x) s'
      end
  end.

Definition search (r : regex) (s : string) : option (list ascii) :=
  search_at r None (PyStr.chars s).

End Re.

(** ** Python values and the dynamic operations the sources apply to them *)

Module Py.

#[warnings="-register-all"]
Inductive pyval : Type :=
| PNone
| PBool (b : bool)
| PInt (z : Z)
| PFloat (q : Q)
| PStr (s : string)
| PList (l : list pyval)
| PDict (d : list (string * pyval)).

(** A [dict] with string keys, in insertion order, without duplicate keys. *)
Definition dict : Type := list (string * pyval).

Fixpoint dict_lookup (k : string) (d : dict) : option pyval :=
  match d with
  | [] => None
  | (k', v) :: d' => if String.eqb k k' then Some v else dict_lookup k d'
  end.

Definition dict_mem (k : string) (d : dict) : bool :=
  match dict_lookup k d with Some _ => true | None => false end.

(** [d[k] = v] *)
Fixpoint dict_set (k : string) (v : pyval) (d : dict) : dict :=
  match d with
  | [] => [(k, v)]
  | (k', v') :: d' =>
      if String.eqb k k' then (k', v) :: d' else (k', v') :: dict_set k v d'
  end.

(** [d.get(k, dflt)] on a dict. *)
Definition dict_get (d : dict) (k : string) (dflt : pyval) : pyval :=
  match dict_lookup k d with Some v => v | None => dflt end.

(** [k in v] for a string [k] and an arbitrary value [v]. *)
Definition contains (k : string) (v : pyval) : outcome bool :=
  match v with
  | PDict d => Returns (dict_mem k d)
  | PStr s => Returns (PyStr.contains k s)
  | PList l =>
      Returns (existsb (fun x => match x with
                                 | PStr s => String.eqb s k
                                 | _ => false
                                 end) l)
  | PNone | PBool _ | PInt _ | PFloat _ => Raises TypeError
  end.

(** [v.get(k, dflt)]: only a dict has the method. *)
Definition get (v : pyval) (k : string) (dflt : pyval) : outcome pyval :=
  match v with
  | PDict d => Returns (dict_get d k dflt)
  | _ => Raises AttributeError
  end.

(** [v[k]] for a string key. *)
Definition getitem (v : pyval) (k : string) : outcome pyval :=
  match v with
  | PDict d =>
      match dict_lookup k d with
      | Some x => Returns x
      | None => Raises KeyError
      end
  | _ => Raises TypeError
  end.

Definition num_of_bool (b : bool) : Z := if b then 1 else 0.

(** [a + b] *)
Definition add (a b : pyval) : outcome pyval :=
  match a, b with
  | PInt x, PInt y => Returns (PInt (x + y))
  | PInt x, PBool y => Returns (PInt (x + num_of_bool y))
  | PBool x, PInt y => Returns (PInt (num_of_bool x + y))
  | PBool x, PBool y => Returns (PInt (num_of_bool x + num_of_bool y))
  | PFloat x, PFloat y => Returns (PFloat (x + y))
  | PFloat x, PInt y => Returns (PFloat (x + inject_Z y))
  | PInt x, PFloat y => Returns (PFloat (inject_Z x + y))
  | PFloat x, PBool y => Returns (PFloat (x + inject_Z (num_of_bool y)))
  | PBool x, PFloat y => Returns (PFloat (inject_Z (num_of_bool x) + y))
  | PStr x, PStr y => Returns (PStr (x ++ y))
  | PList x, PList y => Returns (PList (x ++ y))
  | _, _ => Raises TypeError
  end.

Fixpoint pow10 (n : nat) : positive :=
  match n with
  | O => 1%positive
  | S n' => (10 * pow10 n')%positive
  end.

(** The decimal numeral [ip.fp] as a rational. *)
Definition decimal (ip fp : list ascii) : Q :=
  Qmake (PyStr.int_of_digits (ip ++ fp)) (pow10 (List.length fp)).

(** [float(s)] for a string.  Plain decimals ([12], [12.5], [12.], [.5],
    with an optional sign and surrounding whitespace) are read exactly;
    texts with an exponent, an underscore, [inf] or [nan] are left out of
    the model; anything else is a [ValueError]. *)
Fixpoint span (p : ascii -> bool) (l : list ascii) : list ascii * list ascii :=
  match l with
  | [] => ([], [])
  | c :: l' =>
      if p c then let (a, b) := span p l' in (c :: a, b) else ([], l)
  end.

Definition strip (l : list ascii) : list ascii :=
  rev (snd (span PyStr.is_space (rev (snd (span PyStr.is_space l))))).

Definition is_float_word_char (c : ascii) : bool :=
  existsb (Ascii.eqb (PyStr.lower_char c))
          (PyStr.chars "einfatyn_").

Definition float_of_unsigned (l : list ascii) : outcome Q :=
  let (ip, r) := span PyStr.is_digit l in
  match r with
  | [] => match ip with [] => Raises ValueError | _ => Returns (decimal ip []) end
  | c :: r' =>
      if Ascii.eqb c "."
      then let (fp, r'') := span PyStr.is_digit r' in
           match r'', ip, fp with
           | [], [], [] => Raises ValueError
           | [], _, _ => Returns (decimal ip fp)
           | _ :: _, _, _ =>
               if existsb is_float_word_char r'' then OutOfModel
               else Raises ValueError
           end
      else if existsb is_float_word_char r then OutOfModel
           else Raises ValueError
  end.

Definition float_of_string (s : string) : outcome Q :=
  match strip (PyStr.chars s) with
  | [] => Raises ValueError
  | c :: l =>
      if Ascii.eqb c "-"
      then obind (float_of_unsigned l) (fun q => Returns (- q)%Q)
      else if Ascii.eqb c "+" then float_of_unsigned l
      else float_of_unsigned (c :: l)
  end.

(** [float(v)] *)
Definition to_float (v : pyval) : outcome Q :=
  match v with
  | PInt z => Returns (inject_Z z)
  | PFloat q => Returns q
  | PBool b => Returns (inject_Z (num_of_bool b))
  | PStr s => float_of_string s
  | PNone | PList _ | PDict _ => Raises TypeError
  end.

End Py.

(** ** [json.loads]

    The decoder of Python's standard library on a [str]: optional
    whitespace, one value, optional whitespace, end of input.  Every
    failure is a [JSONDecodeError].  The literals [NaN], [Infinity] and
    [-Infinity] and escapes of code points above 255 have no counterpart
    in the embedding and give [OutOfModel]. *)

Module Json.

Import Py.

Inductive presult (A : Type) : Type :=
| POk (a : A) (rest : list ascii)
| PErr
| POut.

Arguments POk {A} a rest.
Arguments PErr {A}.
Arguments POut {A}.

Definition is_ws (c : ascii) : bool :=
  match PyStr.code c with
  | 32%N | 9%N | 10%N | 13%N => true
  | _ => false
  end.

Fixpoint skip_ws (s : list ascii) : list ascii :=
  match s with
  | c :: s' => if is_ws c then skip_ws s' else s
  | [] => []
  end.

Definition hex_val (c : ascii) : option N :=
  let n := PyStr.code c in
  if PyStr.in_range 48 57 c then Some (n - 48)%N
  else if PyStr.in_range 97 102 c then Some (n - 87)%N
  else if PyStr.in_range 65 70 c then Some (n - 55)%N
  else None.

Definition hex4 (s : list ascii) : option (N * list ascii) :=
  match s with
  | a :: b :: c :: d :: s' =>
      match hex_val a, hex_val b, hex_val c, hex_val d with
      | Some x, Some y, Some z, Some w =>
          Some ((((x * 16 + y) * 16 + z) * 16 + w)%N, s')
      | _, _, _, _ => None
      end
  | _ => None
  end.

(** The body of a string literal, after the opening quote.  [skip] counts
    the hexadecimal digits of a [\u] escape still to be passed over. *)
Fixpoint scan_string (skip : nat) (s : list ascii) (acc : list ascii)
    : presult string :=
  match s with
  | [] => PErr
  | c :: s' =>
      match skip with
      | S n => scan_string n s' acc
      | O =>
          match PyStr.code c with
          | 34%N => POk (PyStr.of_chars (rev acc)) s'
          | 92%N =>
              match s' with
              | [] => PErr
              | e :: s'' =>
                  match PyStr.code e with
                  | 34%N | 92%N | 47%N => scan_string 0 s'' (e :: acc)
                  | 98%N => scan_string 0 s'' (ascii_of_N 8 :: acc)
                  | 102%N => scan_string 0 s'' (ascii_of_N 12 :: acc)
                  | 110%N => scan_string 0 s'' (ascii_of_N 10 :: acc)
                  | 114%N => scan_string 0 s'' (ascii_of_N 13 :: acc)
                  | 116%N => scan_string 0 s'' (ascii_of_N 9 :: acc)
                  | 117%N =>
                      match hex4 s'' with
                      | Some (n, _) =>
                          if N.ltb n 256
                          then scan_string 4 s'' (ascii_of_N n :: acc)
                          else POut
                      | None => PErr
                      end
                  | _ => PErr
                  end
              end
          | n => if N.ltb n 32 then PErr else scan_string 0 s' (c :: acc)
          end
      end
  end.

(** A number: an optional minus sign, then [0] or a run of digits that does
    not start with [0], then optionally a point followed by digits, then
    optionally [e] or [E], a sign and digits.  It is an [int] unless it has
    a fraction or an exponent. *)
Definition scan_int_part (s : list ascii) : option (list ascii * list ascii) :=
  match s with
  | c :: s' =>
      if Ascii.eqb c "0" then Some ([c], s')
      else if PyStr.is_digit c then Some (span PyStr.is_digit s)
      else None
  | [] => None
  end.

Definition scan_frac (s : list ascii) : option (list ascii * list ascii) :=
  match s with
  | c :: s' =>
      if Ascii.eqb c "."
      then match span PyStr.is_digit s' with
           | ([], _) => None
           | (fp, r) => Some (fp, r)
           end
      else None
  | [] => None
  end.

Definition scan_exp (s : list ascii) : option (Z * list ascii) :=
  match s with
  | c :: s' =>
      if Ascii.eqb (PyStr.lower_char c) "e"
      then
        let '(neg, s'') :=
          match s' with
          | d :: t => if Ascii.eqb d "-" then (true, t)
                      else if Ascii.eqb d "+" then (false, t)
                      else (false, s')
          | [] => (false, s')
          end in
        match span PyStr.is_digit s'' with
        | ([], _) => None
        | (ds, r) =>
            let e := PyStr.int_of_digits ds in
            Some (if neg then - e else e, r)
        end
      else None
  | [] => None
  end.

Definition scale10 (q : Q) (e : Z) : Q :=
  match e with
  | Z0 => q
  | Zpos p => (q * inject_Z (Z.pow 10 (Zpos p)))%Q
  | Zneg p => (q / inject_Z (Z.pow 10 (Zpos p)))%Q
  end.

Definition scan_number (s : list ascii) : presult pyval :=
  let '(neg, s1) :=
    match s with
    | c :: t => if Ascii.eqb c "-" then (true, t) else (false, s)
    | [] => (false, s)
    end in
  match scan_int_part s1 with
  | None => PErr
  | Some (ip, s2) =>
      let '(fp, s3) :=
        match scan_frac s2 with
        | Some (fp, r) => (Some fp, r)
        | None => (None, s2)
        end in
      let '(ex, s4) :=
        match scan_exp s3 with
        | Some (e, r) => (Some e, r)
        | None => (None, s3)
        end in
      match fp, ex with
      | None, None =>
          let z := PyStr.int_of_digits ip in
          POk (PInt (if neg then - z else z)) s4
      | _, _ =>
          let q := decimal ip (match fp with Some f => f | None => [] end) in
          let q := scale10 q (match ex with Some e => e | None => 0 end) in
          POk (PFloat (if neg then - q else q)%Q) s4
      end
  end.

(** [scan_once]: one value at the head of the input.  The three functions
    descend together; [fuel] bounds the number of calls and is taken
    larger than the input is long. *)
Fixpoint scan_once (fuel : nat) (s : list ascii) : presult pyval :=
  match fuel with
  | O => POut
  | S f =>
      match s with
      | [] => PErr
      | c :: s' =>
          match PyStr.code c with
          | 34%N =>
              match scan_string 0 s' [] with
              | POk str r => POk (PStr str) r
              | PErr => PErr
              | POut => POut
              end
          | 123%N =>
              match skip_ws s' with
              | d :: r =>
                  if Ascii.eqb d "}" then POk (PDict []) r
                  else scan_members f (d :: r) []
              | [] => PErr
              end
          | 91%N =>
              match skip_ws s' with
              | d :: r =>
                  if Ascii.eqb d "]" then POk (PList []) r
                  else scan_items f (d :: r) []
              | [] => PErr
              end
          | _ =>
              if PyStr.starts_with (PyStr.chars "null") s
              then POk PNone (skipn 4 s)
              else if PyStr.starts_with (PyStr.chars "true") s
              then POk (PBool true) (skipn 4 s)
              else if PyStr.starts_with (PyStr.chars "false") s
              then POk (PBool false) (skipn 5 s)
              else if PyStr.starts_with (PyStr.chars "NaN") s then POut
              else if PyStr.starts_with (PyStr.chars "Infinity") s then POut
              else if PyStr.starts_with (PyStr.chars "-Infinity") s then POut
              else scan_number s
          end
      end
  end

with scan_items (fuel : nat) (s : list ascii) (acc : list pyval)
    : presult pyval :=
  match fuel with
  | O => POut
  | S f =>
      match scan_once f s with
      | POk v r =>
          match skip_ws r with
          | d :: r' =>
              if Ascii.eqb d "," then scan_items f (skip_ws r') (acc ++ [v])
              else if Ascii.eqb d "]" then POk (PList (acc ++ [v])) r'
              else PErr
          | [] => PErr
          end
      | PErr => PErr
      | POut => POut
      end
  end

with scan_members (fuel : nat) (s : list ascii) (acc : dict)
    : presult pyval :=
  match fuel with
  | O => POut
  | S f =>
      match s with
      | c :: s' =>
          match PyStr.code c with
          | 34%N =>
              match scan_string 0 s' [] with
              | POk key r =>
                  match skip_ws r with
                  | d :: r' =>
                      if Ascii.eqb d ":"
                      then
                        match scan_once f (skip_ws r') with
                        | POk v r'' =>
                            match skip_ws r'' with
                            | e :: t =>
                                if Ascii.eqb e ","
                                then scan_members f (skip_ws t)
                                       (dict_set key v acc)
                                else if Ascii.eqb e "}"
                                then POk (PDict (dict_set key v acc)) t
                                else PErr
                            | [] => PErr
                            end
                        | PErr => PErr
                        | POut => POut
                        end
                      else PErr
                  | [] => PErr
                  end
              | PErr => PErr
              | POut => POut
              end
          | _ => PErr
          end
      | [] => PErr
      end
  end.

Definition loads (s : string) : outcome pyval :=
  let l := PyStr.chars s in
  match scan_once (2 * List.length l + 2) (skip_ws l) with
  | POk v r =>
      match skip_ws r with
      | [] => Returns v
      | _ :: _ => Raises JSONDecodeError
      end
  | PErr => Raises JSONDecodeError
  | POut => OutOfModel
  end.

End Json.

(** ** [src/types.py]: the records of the evaluation pipeline *)

Record TestResults : Type := {
  passed : Z;
  failed : Z;
  total : Z;
  raw : option string
}.

Record PerfResults : Type := {
  value : Q;
  unit : option string
}.

Record WeightsConfig : Type := {
  w_data_quality : Q;
  w_test : Q;
  w_lint : Q;
  w_perf : Q
}.

Record HaltConfig : Type := {
  max_steps : Z;
  pass_threshold : Q;
  patience_no_improve : Z;
  min_steps : Z
}.

Record CommandResult : Type := {
  ok : bool;
  stdout : string;
  stderr : string;
  exit_code : Z
}.

(** ** [src/utils/parser.py] *)

Module Parser.

Import Py Re.
Local Open Scope outcome_scope.

(** [TestResults(passed=p, failed=f, total=t, raw=output)].  The dataclass
    stores whatever it is given; the record of the embedding holds
    integers, so other values leave the model. *)
Definition mk_TestResults (p f t : pyval) (output : string)
    : outcome TestResults :=
  match p, f, t with
  | PInt p', PInt f', PInt t' =>
      Returns {| passed := p'; failed := f'; total := t'; raw := Some output |}
  | _, _, _ => OutOfModel
  end.

(** The counts read from a JSON object [d]:
    [d.get("passed", 0)], [d.get("failed", 0)],
    [d.get("total", passed + failed)]. *)
Definition counts_of (d : pyval) (output : string) : outcome TestResults :=
  p <- get d "passed" (PInt 0) ;;
  f <- get d "failed" (PInt 0) ;;
  dflt <- add p f ;;
  t <- get d "total" dflt ;;
  mk_TestResults p f t output.

(** The body of the [try] block of [parse_pytest_output]; [None] when the
    block ends without returning. *)
Definition pytest_json (output : string) : outcome (option TestResults) :=
  data <- Json.loads output ;;
  has_tests <- contains "tests" data ;;
  if has_tests : bool then
    r <- counts_of data output ;; Returns (Some r)
  else
    has_summary <- contains "summary" data ;;
    if has_summary : bool then
      summary <- getitem data "summary" ;;
      r <- counts_of summary output ;; Returns (Some r)
    else Returns None.

(** [(\d+) passed] and [(\d+) failed] *)
Definition re_passed : regex := RSeq (RGroup (RPlus digit)) (text false " passed").
Definition re_failed : regex := RSeq (RGroup (RPlus digit)) (text false " failed").

Definition parse_pytest_output (output : string) : outcome (option TestResults) :=
  j <- try_except (pytest_json output) [JSONDecodeError; KeyError]
         (Returns None) ;;
  match j with
  | Some r => Returns (Some r)
  | None =>
      let passed_match := search re_passed output in
      let failed_match := search re_failed output in
      match passed_match, failed_match with
      | None, None =>
          if (PyStr.contains "no tests ran" (PyStr.lower output)
              || PyStr.contains "no tests collected" (PyStr.lower output))%bool
          then Returns (Some {| passed := 0; failed := 0; total := 0;
                                raw := Some output |})
          else Returns None
      | _, _ =>
          let p := match passed_match with
                   | Some g => PyStr.int_of_digits g | None => 0 end in
          let f := match failed_match with
                   | Some g => PyStr.int_of_digits g | None => 0 end in
          Returns (Some {| passed := p; failed := f; total := p + f;
                           raw := Some output |})
      end
  end.

(** The patterns of [parse_unittest_output].  [any] is [.], every
    character but a newline.  The source writes the word-boundary pattern
    in a raw string with doubled backslashes, so it stands for the four
    literal characters backslash, [b], [O], [K] followed by backslash and
    [b]. *)
Definition any : regex := RAny (fun c => negb (Ascii.eqb c newline)).

Definition re_ran : regex :=
  RSeq (text false "Ran ") (RSeq (RGroup (RPlus digit)) (text false " test")).
Definition re_ok : regex := text false "\bOK\b".
Definition re_failures : regex :=
  RSeq (text false "FAILED")
    (RSeq (RStar any)
       (RSeq (text false "failure")
          (RSeq (ROpt (lit false "s"))
             (RSeq (lit false "=") (RGroup (RPlus digit)))))).
Definition re_errors : regex :=
  RSeq (text false "error")
    (RSeq (ROpt (lit false "s")) (RSeq (lit false "=") (RGroup (RPlus digit)))).

Definition is_some {A : Type} (o : option A) : bool :=
  match o with Some _ => true | None => false end.

Definition parse_unittest_output (output : string) : option TestResults :=
  match search re_ran output with
  | None => None
  | Some g =>
      let total := PyStr.int_of_digits g in
      if is_some (search re_ok output)
      then Some {| passed := total; failed := 0; total := total;
                   raw := Some output |}
      else
        match search re_failures output with
        | Some fg =>
            let failed := PyStr.int_of_digits fg in
            Some {| passed := total - failed; failed := failed;
                    total := total; raw := Some output |}
        | None =>
            match search re_errors output with
            | Some eg =>
                let errors := PyStr.int_of_digits eg in
                Some {| passed := total - errors; failed := errors;
                        total := total; raw := Some output |}
            | None =>
                if PyStr.contains "OK" output
                then Some {| passed := total; failed := 0; total := total;
                             raw := Some output |}
                else None
            end
        end
  end.

Definition parse_test_output (output : string) (framework : string)
    : outcome (option TestResults) :=
  if String.eqb framework "pytest" then parse_pytest_output output
  else if String.eqb framework "unittest"
  then Returns (parse_unittest_output output)
  else
    result <- parse_pytest_output output ;;
    match result with
    | None => Returns (parse_unittest_output output)
    | Some r => Returns (Some r)
    end.

(** The [for key in [...]] loop inside the [try] block of
    [parse_performance_metric]; [None] when no key is found. *)
Fixpoint perf_json_keys (data : pyval) (keys : list string)
    : outcome (option Q) :=
  match keys with
  | [] => Returns None
  | key :: keys' =>
      found <- contains key data ;;
      if found : bool then
        item <- getitem data key ;;
        value <- to_float item ;;
        Returns (Some (if Qle_bool 10000 value
                       then (value / 1000)%Q else value))
      else perf_json_keys data keys'
  end.

Definition perf_json (output : string) : outcome (option Q) :=
  data <- Json.loads output ;;
  perf_json_keys data ["time"; "duration"; "runtime"; "elapsed"; "seconds"].

(** [\d+(?:\.\d+)?] *)
Definition re_number : regex :=
  RSeq (RPlus digit) (ROpt (RSeq (lit true ".") (RPlus digit))).

(** The three unit patterns, compiled with [re.IGNORECASE].  The second
    ends, as in the source, in a literal backslash followed by [b]. *)
Definition re_ms : regex :=
  RSeq (RGroup re_number) (RSeq (RStar space) (text true "ms")).
Definition re_seconds : regex :=
  RSeq (RGroup re_number)
    (RSeq (RStar space)
       (RSeq (lit true "s")
          (RSeq (ROpt (RSeq (text true "ec")
                         (RSeq (ROpt (text true "ond")) (ROpt (lit true "s")))))
             (text true "\b")))).
Definition re_minutes : regex :=
  RSeq (RGroup re_number)
    (RSeq (RStar space)
       (RSeq (lit true "m")
          (ROpt (RSeq (text true "in")
                   (RSeq (ROpt (text true "ute")) (ROpt (lit true "s"))))))).

Definition patterns : list (regex * Q) :=
  [(re_ms, 0.001%Q); (re_seconds, 1%Q); (re_minutes, 60%Q)].

(** [^\s*(\d+(?:\.\d+)?)\s*$] with [re.MULTILINE] *)
Definition re_standalone : regex :=
  RSeq RBol
    (RSeq (RStar space) (RSeq (RGroup re_number) (RSeq (RStar space) REol))).

Fixpoint first_pattern (ps : list (regex * Q)) (output : string)
    : option (list ascii * Q) :=
  match ps with
  | [] => None
  | (pattern, multiplier) :: ps' =>
      match search pattern output with
      | Some g => Some (g, multiplier)
      | None => first_pattern ps' output
      end
  end.

Definition parse_performance_metric (output : string) : outcome (option Q) :=
  j <- try_except (perf_json output) [JSONDecodeError; KeyError; ValueError]
         (Returns None) ;;
  match j with
  | Some v => Returns (Some v)
  | None =>
      match first_pattern patterns output with
      | Some (g, multiplier) =>
          value <- float_of_string (PyStr.of_chars g) ;;
          Returns (Some (value * multiplier)%Q)
      | None =>
          match search re_standalone output with
          | Some g =>
              value <- float_of_string (PyStr.of_chars g) ;;
              Returns (Some value)
          | None => Returns None
          end
      end
  end.

End Parser.

(** ** [src/utils/scoring.py] *)

Module Scoring.

(** The two accumulators of [calculate_weighted_score]: the list
    [components] and the running [total_weight]. *)
Record accum : Type := {
  components : list Q;
  total_weight : Q
}.

(** [components.append(w * s); total_weight += w] *)
Definition add_signal (w s : Q) (a : accum) : accum :=
  {| components := components a ++ [(w * s)%Q];
     total_weight := (total_weight a + w)%Q |}.

Definition bool_score (b : bool) : Q := if b then 1%Q else 0%Q.

(** [min(1.0, x)] *)
Definition min_one (x : Q) : Q := if Qle_bool 1 x then 1%Q else x.

(** [sum(components)] *)
Definition sum (l : list Q) : Q := fold_left Qplus l 0%Q.

Definition data_quality_signal (ok_data_quality : option bool)
    (weights : WeightsConfig) (a : accum) : accum :=
  match ok_data_quality with
  | Some b => add_signal (w_data_quality weights) (bool_score b) a
  | None => a
  end.

Definition test_signal (tests : option TestResults)
    (weights : WeightsConfig) (a : accum) : accum :=
  match tests with
  | Some t =>
      if (0 <? total t)%Z
      then add_signal (w_test weights)
             (inject_Z (passed t) / inject_Z (total t))%Q a
      else a
  | None => a
  end.

Definition lint_signal (ok_lint : option bool)
    (weights : WeightsConfig) (a : accum) : accum :=
  match ok_lint with
  | Some b => add_signal (w_lint weights) (bool_score b) a
  | None => a
  end.

Definition positive_q (x : Q) : bool := negb (Qle_bool x 0).

Definition perf_score (perf_value : Q) (best_perf : option Q) : Q :=
  match best_perf with
  | Some best =>
      if positive_q best then min_one (best / perf_value)%Q else 1%Q
  | None => 1%Q
  end.

Definition perf_signal (perf : option PerfResults) (best_perf : option Q)
    (weights : WeightsConfig) (a : accum) : accum :=
  match perf with
  | Some p =>
      if positive_q (value p)
      then add_signal (w_perf weights) (perf_score (value p) best_perf) a
      else a
  | None => a
  end.

Definition calculate_weighted_score
    (ok_data_quality ok_lint : option bool)
    (tests : option TestResults) (perf : option PerfResults)
    (weights : WeightsConfig) (best_perf : option Q) : Q :=
  let a := {| components := []; total_weight := 0%Q |} in
  let a := data_quality_signal ok_data_quality weights a in
  let a := test_signal tests weights a in
  let a := lint_signal ok_lint weights a in
  let a := perf_signal perf best_perf weights a in
  if Qeq_bool (total_weight a) 0 then 0%Q
  else (sum (components a) / total_weight a)%Q.

Definition update_ema_score (current_score prev_ema alpha : Q) : Q :=
  (alpha * current_score + (1 - alpha) * prev_ema)%Q.

(** The messages of [should_halt_iteration], each with the values its
    format string interpolates. *)
Inductive HaltReason : Type :=
| Success (score pass_threshold : Q)
| Plateau (no_improve_streak patience_no_improve : Z)
| Limit (max_steps : Z)
| Continue (step max_steps : Z) (score ema_score : Q).

Definition should_halt_iteration
    (step : Z) (score ema_score : Q) (no_improve_streak : Z)
    (tests_passed : bool) (max_steps : Z) (pass_threshold : Q)
    (patience_no_improve : Z) (min_steps : Z) : bool * list HaltReason :=
  let reasons : list HaltReason := [] in
  if ((min_steps <=? step)%Z && tests_passed
      && Qle_bool pass_threshold score)%bool
  then (true, (reasons ++ [Success score pass_threshold])%list)
  else if (patience_no_improve <=? no_improve_streak)%Z
  then (true, (reasons ++ [Plateau no_improve_streak patience_no_improve])%list)
  else if (max_steps <=? step)%Z
  then (true, (reasons ++ [Limit max_steps])%list)
  else (false, (reasons ++ [Continue step max_steps score ema_score])%list).

End Scoring.

(** ** [src/constants.py] *)

Definition DEFAULT_WEIGHTS : WeightsConfig :=
  {| w_data_quality := 0.3; w_test := 0.4; w_lint := 0.1; w_perf := 0.2 |}.

Definition DEFAULT_EMA_ALPHA : Q := 0.9.

(** ** [src/utils/scoring.py] in binary64

    [calculate_weighted_score] and [update_ema_score] with the floating
    point operations of CPython: IEEE 754 binary64, each operation
    rounded to nearest. *)

Module Binary64.

Import PrimFloat.
Local Open Scope outcome_scope.
Local Open Scope float_scope.
Local Set Warnings "-inexact-float".

Record WeightsConfig : Type := {
  data_quality : float;
  test : float;
  lint : float;
  perf : float
}.

Definition DEFAULT_WEIGHTS : WeightsConfig :=
  {| data_quality := 0.3; test := 0.4; lint := 0.1; perf := 0.2 |}.

Definition DEFAULT_EMA_ALPHA : float := 0.9.

(** An [int] as a [float]; exact for the integers up to [2^53] in
    absolute value. *)
Definition representable (z : Z) : bool := (Z.abs z <=? 2 ^ 53)%Z.

Definition float_of_int (z : Z) : float :=
  if (0 <=? z)%Z then of_uint63 (Uint63.of_Z z)
  else - of_uint63 (Uint63.of_Z (- z)).

(** [p / t] for two integers: the quotient rounded once, which for
    representable integers is the quotient of their conversions. *)
Definition true_div (p t : Z) : outcome float :=
  if (representable p && representable t)%bool
  then Returns (float_of_int p / float_of_int t)
  else OutOfModel.

(** [sum(components)], which starts from the integer 0.  Up to CPython
    3.11 the elements are added from left to right; from 3.12 on the sum
    of floats is Neumaier's compensated sum. *)
Inductive summation : Type :=
| LeftToRight
| Compensated.

Fixpoint add_all (l : list float) (acc : float) : float :=
  match l with
  | [] => acc
  | x :: l' => add_all l' (acc + x)
  end.

Definition is_finite (x : float) : bool :=
  negb (is_nan x || is_infinity x).

Fixpoint neumaier (l : list float) (f c : float) : float :=
  match l with
  | [] => if (negb (is_zero c) && is_finite c)%bool then f + c else f
  | x :: l' =>
      let t := f + x in
      let c :=
        if abs x <=? abs f then c + ((f - t) + x) else c + ((x - t) + f) in
      neumaier l' t c
  end.

Definition sum (how : summation) (l : list float) : float :=
  match how with
  | LeftToRight => add_all l 0
  | Compensated =>
      match l with
      | [] => 0
      | x :: l' => neumaier l' (0 + x) 0
      end
  end.

Record accum : Type := {
  components : list float;
  total_weight : float
}.

(** [components.append(w * s); total_weight += w] *)
Definition add_signal (w s : float) (a : accum) : accum :=
  {| components := (components a ++ [w * s])%list;
     total_weight := total_weight a + w |}.

Definition bool_score (b : bool) : float := if b then 1 else 0.

(** [min(1.0, x)]: the second argument where it is smaller, else the
    first. *)
Definition min_one (x : float) : float := if x <? 1 then x else 1.

(** [perf_value] is [perf.value] where [perf] is given. *)
Definition calculate_weighted_score (how : summation)
    (ok_data_quality ok_lint : option bool) (tests : option TestResults)
    (perf_value : option float) (weights : WeightsConfig)
    (best_perf : option float) : outcome float :=
  let a := {| components := []; total_weight := 0 |} in
  let a :=
    match ok_data_quality with
    | Some b => add_signal (data_quality weights) (bool_score b) a
    | None => a
    end in
  a <- match tests with
       | Some t =>
           if (0 <? total t)%Z
           then
             match true_div (passed t) (total t) with
             | Returns s_tests => Returns (add_signal (test weights) s_tests a)
             | Raises e => Raises e
             | OutOfModel => OutOfModel
             end
           else Returns a
       | None => Returns a
       end ;;
  let a :=
    match ok_lint with
    | Some b => add_signal (lint weights) (bool_score b) a
    | None => a
    end in
  let a :=
    match perf_value with
    | Some v =>
        if 0 <? v
        then
          let s_perf :=
            match best_perf with
            | Some best => if 0 <? best then min_one (best / v) else 1
            | None => 1
            end in
          add_signal (perf weights) s_perf a
        else a
    | None => a
    end in
  if total_weight a =? 0 then Returns 0
  else Returns (sum how (components a) / total_weight a).

Definition update_ema_score (current_score prev_ema alpha : float) : float :=
  alpha * current_score + (1 - alpha) * prev_ema.

End Binary64.

(** ** Sessions: [src/types.py] and [src/shared/sessions.py] *)

Record SessionConfig : Type := {
  repo_path : string;
  data_quality_cmd : option string;
  test_cmd : option string;
  lint_cmd : option string;
  perf_cmd : option string;
  timeout_sec : Z;
  weights : WeightsConfig;
  halt : HaltConfig
}.

Inductive Feedback : Type :=
| DataQualityFailed (stderr_head : string)
| DataQualityPassed
| TestsFailed (failed total : Z)
| TestsPassed (passed total : Z)
| TestsUnparsed
| LintErrors (error_summary : list string)
| LintPassed
| Performance (perf_value : Q) (improvement : option Q)
| PerformanceRegression (perf_value regression : Q)
| PerformanceUnparsed.

Record EvalResult : Type := {
  ok_data_quality : option bool;
  ok_lint : option bool;
  tests : option TestResults;
  perf : option PerfResults;
  score : Q;
  ema_score : Q;
  step : Z;
  feedback : list Feedback;
  should_halt : bool;
  reasons : list Scoring.HaltReason
}.

Inductive SessionMode : Type := CUMULATIVE | SNAPSHOT.

(** The fields of [SessionState] that the modelled functions read or
    write; the checkpoint and snapshot stores are never touched by them. *)
Record SessionState : Type := {
  id : string;
  cfg : SessionConfig;
  s_step : Z;
  best_score : Q;
  s_ema_score : Q;
  ema_alpha : Q;
  no_improve_streak : Z;
  history : list EvalResult;
  z_notes : option string;
  best_perf : option Q;
  mode : SessionMode
}.

Module Sessions.

(** [create_session]; the fresh identifier drawn from [uuid.uuid4()] is
    the argument [session_id]. *)
Definition create_session (session_id : string) (repo_path : string)
    (data_quality_cmd test_cmd lint_cmd perf_cmd : option string)
    (timeout_sec : Z) (weights : option WeightsConfig) (halt : HaltConfig)
    (ema_alpha : Q) (z_notes : option string) (mode : SessionMode)
    : SessionState :=
  {| id := session_id;
     cfg := {| repo_path := repo_path;
               data_quality_cmd := data_quality_cmd;
               test_cmd := test_cmd;
               lint_cmd := lint_cmd;
               perf_cmd := perf_cmd;
               timeout_sec := timeout_sec;
               weights := match weights with
                          | Some w => w
                          | None => DEFAULT_WEIGHTS
                          end;
               halt := halt |};
     s_step := 0;
     best_score := 0;
     s_ema_score := 0;
     ema_alpha := if Qeq_bool ema_alpha 0 then DEFAULT_EMA_ALPHA else ema_alpha;
     no_improve_streak := 0;
     history := [];
     z_notes := z_notes;
     best_perf := None;
     mode := mode |}.

(** The module-level dictionary [_sessions]. *)
Definition registry : Type := list (string * SessionState).

Fixpoint get_session (sessions : registry) (session_id : string)
    : option SessionState :=
  match sessions with
  | [] => None
  | (k, s) :: rest =>
      if String.eqb session_id k then Some s else get_session rest session_id
  end.

End Sessions.

(** ** [src/tools/handlers/lib/evaluation.py] *)

Module Evaluation.

Local Open Scope outcome_scope.

(** The four subprocesses of one evaluation.  [run_command] is external:
    a [runner] gives, for each probe, the [CommandResult] that the call
    [run_command(cmd, repo_path, timeout)] produced. *)
Inductive Probe : Type := DataQualityProbe | TestProbe | LintProbe | PerfProbe.

Definition runner : Type := Probe -> string -> string -> Z -> CommandResult.

(** [if cmd:] for an optional string: set and not empty. *)
Definition configured (cmd : option string) : option string :=
  match cmd with
  | Some c => if String.eqb c "" then None else Some c
  | None => None
  end.

(** [stdout + "\\n" + stderr]: the separator written in the source is a
    backslash followed by the letter n. *)
Definition combined_output (r : CommandResult) : string :=
  stdout r ++ "\n" ++ stderr r.

(** [stderr_lines[-5:] if len(stderr_lines) > 5 else stderr_lines] *)
Definition error_summary (stderr_lines : list string) : list string :=
  if Nat.ltb 5 (List.length stderr_lines)
  then skipn (List.length stderr_lines - 5) stderr_lines
  else stderr_lines.

(** What the probe section of [run_evaluation] has computed so far. *)
Record signals : Type := {
  sg_ok_data_quality : option bool;
  sg_ok_lint : option bool;
  sg_tests : option TestResults;
  sg_perf : option PerfResults;
  sg_feedback : list Feedback;
  sg_best_perf : option Q
}.

Definition run_data_quality (run : runner) (session : SessionState)
    (g : signals) : signals :=
  match configured (data_quality_cmd (cfg session)) with
  | Some cmd =>
      let result := run DataQualityProbe cmd (repo_path (cfg session))
                        (timeout_sec (cfg session)) in
      {| sg_ok_data_quality := Some (ok result);
         sg_ok_lint := sg_ok_lint g;
         sg_tests := sg_tests g;
         sg_perf := sg_perf g;
         sg_feedback :=
           (sg_feedback g ++
            [if ok result then DataQualityPassed
             else DataQualityFailed (PyStr.take 200 (stderr result))])%list;
         sg_best_perf := sg_best_perf g |}
  | None => g
  end.

Definition run_tests (run : runner) (session : SessionState)
    (g : signals) : outcome signals :=
  match configured (test_cmd (cfg session)) with
  | Some cmd =>
      let result := run TestProbe cmd (repo_path (cfg session))
                        (timeout_sec (cfg session)) in
      tests <- Parser.parse_test_output (combined_output result) "pytest" ;;
      Returns
        {| sg_ok_data_quality := sg_ok_data_quality g;
           sg_ok_lint := sg_ok_lint g;
           sg_tests := tests;
           sg_perf := sg_perf g;
           sg_feedback :=
             (sg_feedback g ++
              [match tests with
               | Some t =>
                   if (0 <? failed t)%Z then TestsFailed (failed t) (total t)
                   else TestsPassed (passed t) (total t)
               | None => TestsUnparsed
               end])%list;
           sg_best_perf := sg_best_perf g |}
  | None => Returns g
  end.

Definition run_lint (run : runner) (session : SessionState)
    (g : signals) : signals :=
  match configured (lint_cmd (cfg session)) with
  | Some cmd =>
      let result := run LintProbe cmd (repo_path (cfg session))
                        (timeout_sec (cfg session)) in
      {| sg_ok_data_quality := sg_ok_data_quality g;
         sg_ok_lint := Some (ok result);
         sg_tests := sg_tests g;
         sg_perf := sg_perf g;
         sg_feedback :=
           (sg_feedback g ++
            [if ok result then LintPassed
             else LintErrors
                    (error_summary (PyStr.split_on "\n" (stderr result)))])%list;
         sg_best_perf := sg_best_perf g |}
  | None => g
  end.

(** The performance block.  [session.best_perf] is assigned only on the
    path where it already holds a value and the new one is smaller. *)
Definition run_perf (run : runner) (session : SessionState)
    (g : signals) : outcome signals :=
  match configured (perf_cmd (cfg session)) with
  | Some cmd =>
      let result := run PerfProbe cmd (repo_path (cfg session))
                        (timeout_sec (cfg session)) in
      perf_value <- Parser.parse_performance_metric (combined_output result) ;;
      match perf_value with
      | Some pv =>
          let perf := Some {| value := pv; unit := Some "seconds" |} in
          match sg_best_perf g with
          | None =>
              Returns
                {| sg_ok_data_quality := sg_ok_data_quality g;
                   sg_ok_lint := sg_ok_lint g;
                   sg_tests := sg_tests g;
                   sg_perf := perf;
                   sg_feedback := (sg_feedback g ++ [Performance pv None])%list;
                   sg_best_perf := None |}
          | Some best =>
              if negb (Qle_bool best pv)
              then
                Returns
                  {| sg_ok_data_quality := sg_ok_data_quality g;
                     sg_ok_lint := sg_ok_lint g;
                     sg_tests := sg_tests g;
                     sg_perf := perf;
                     sg_feedback :=
                       (sg_feedback g
                        ++ [Performance pv (Some (best - pv)%Q)])%list;
                     sg_best_perf := Some pv |}
              else
                Returns
                  {| sg_ok_data_quality := sg_ok_data_quality g;
                     sg_ok_lint := sg_ok_lint g;
                     sg_tests := sg_tests g;
                     sg_perf := perf;
                     sg_feedback :=
                       (sg_feedback g
                        ++ [PerformanceRegression pv (pv - best)%Q])%list;
                     sg_best_perf := Some best |}
          end
      | None =>
          Returns
            {| sg_ok_data_quality := sg_ok_data_quality g;
               sg_ok_lint := sg_ok_lint g;
               sg_tests := sg_tests g;
               sg_perf := None;
               sg_feedback := (sg_feedback g ++ [PerformanceUnparsed])%list;
               sg_best_perf := sg_best_perf g |}
      end
  | None => Returns g
  end.

(** Scoring and the state update, after the probes. *)
Definition score_and_update (session : SessionState) (g : signals)
    : SessionState * EvalResult :=
  let score :=
    Scoring.calculate_weighted_score
      (sg_ok_data_quality g) (sg_ok_lint g) (sg_tests g) (sg_perf g)
      (weights (cfg session)) (sg_best_perf g) in
  let ema_score :=
    Scoring.update_ema_score score
      (if (0 <? s_step session)%Z then s_ema_score session else score)
      (ema_alpha session) in
  let new_step := (s_step session + 1)%Z in
  let improved := negb (Qle_bool score (best_score session)) in
  let streak :=
    if improved then 0%Z else (no_improve_streak session + 1)%Z in
  let new_best := if improved then score else best_score session in
  let tests_passed :=
    match sg_tests g with
    | Some t => (failed t =? 0)%Z
    | None => false
    end in
  let '(should_halt, halt_reasons) :=
    Scoring.should_halt_iteration new_step score ema_score streak tests_passed
      (max_steps (halt (cfg session)))
      (pass_threshold (halt (cfg session)))
      (patience_no_improve (halt (cfg session)))
      (min_steps (halt (cfg session))) in
  let eval_result :=
    {| ok_data_quality := sg_ok_data_quality g;
       ok_lint := sg_ok_lint g;
       tests := sg_tests g;
       perf := sg_perf g;
       score := score;
       ema_score := ema_score;
       step := new_step;
       feedback := sg_feedback g;
       should_halt := should_halt;
       reasons := halt_reasons |} in
  ({| id := id session;
      cfg := cfg session;
      s_step := new_step;
      best_score := new_best;
      s_ema_score := ema_score;
      ema_alpha := ema_alpha session;
      no_improve_streak := streak;
      history := (history session ++ [eval_result])%list;
      z_notes := z_notes session;
      best_perf := sg_best_perf g;
      mode := mode session |},
   eval_result).

(** [run_evaluation]: the session after the call and the result returned.
    An exception of a parser leaves the call before any field of the
    session is assigned. *)
Definition run_evaluation (run : runner) (session : SessionState)
    : outcome (SessionState * EvalResult) :=
  let g := {| sg_ok_data_quality := None; sg_ok_lint := None;
              sg_tests := None; sg_perf := None; sg_feedback := [];
              sg_best_perf := best_perf session |} in
  let g := run_data_quality run session g in
  g <- run_tests run session g ;;
  let g := run_lint run session g in
  g <- run_perf run session g ;;
  Returns (score_and_update session g).

(** A session driven through successive [trm.submit] calls, one runner
    per call.  A call whose evaluation raises is answered with an error
    object by [handle_tool_call] and leaves the session as it was. *)
Fixpoint submit_all (runs : list runner) (session : SessionState)
    : SessionState :=
  match runs with
  | [] => session
  | run :: runs' =>
      match run_evaluation run session with
      | Returns (session', _) => submit_all runs' session'
      | _ => submit_all runs' session
      end
  end.

End Evaluation.

(** ** [src/utils/command.py]: the availability probe *)

Module Command.

(** The result of [subprocess.run(["which", name], ..., timeout=5)]: the
    process ran to completion within the five seconds and left a return
    code, or the call raised ([TimeoutExpired], a failure to spawn). *)
Inductive run_result : Type :=
| Completed (returncode : Z)
| Threw (e : exn).

Definition which_oracle : Type := string -> run_result.

(** [cmd.split()[0] if " " in cmd else cmd]; [None] is the [IndexError]
    of indexing an empty list. *)
Definition cmd_name (cmd : string) : option string :=
  if PyStr.contains " " cmd
  then match PyStr.split_ws cmd with
       | name :: _ => Some name
       | [] => None
       end
  else Some cmd.

Definition check_command_available (which : which_oracle) (cmd : string)
    : bool :=
  match cmd_name cmd with
  | Some name =>
      match which name with
      | Completed returncode => (returncode =? 0)%Z
      | Threw _ => false
      end
  | None => false
  end.

(** The first whitespace-delimited token of a string, if it has one. *)
Definition first_token (cmd : string) : option string :=
  match PyStr.split_ws cmd with
  | name :: _ => Some name
  | [] => None
  end.

(** [name] is found on [PATH]: [which name] completes with code 0. *)
Definition on_path (which : which_oracle) (name : string) : bool :=
  match which name with
  | Completed returncode => (returncode =? 0)%Z
  | Threw _ => false
  end.

End Command.

(** ** [src/tools/param_translator.py] *)

Module ParamTranslator.

Import Py.
Local Open Scope outcome_scope.

(** [{k: v for k, v in translated.items() if v is not None}] *)
Definition drop_none (d : dict) : dict :=
  filter (fun kv => match snd kv with PNone => false | _ => true end) d.

Definition translate_weights (w : pyval) : outcome pyval :=
  dq <- get w "dataQual" (PFloat 0.3) ;;
  t <- get w "test" (PFloat 0.4) ;;
  l <- get w "lint" (PFloat 0.1) ;;
  p <- get w "perf" (PFloat 0.2) ;;
  Returns (PDict [("data_quality", dq); ("test", t); ("lint", l); ("perf", p)]).

Definition translate_halt (h : pyval) : outcome pyval :=
  mx <- get h "max" (PInt 12) ;;
  th <- get h "threshold" (PFloat 0.95) ;;
  pa <- get h "patience" (PInt 3) ;;
  mn <- get h "min" (PInt 1) ;;
  Returns (PDict [("max_steps", mx); ("pass_threshold", th);
                  ("patience_no_improve", pa); ("min_steps", mn)]).

Definition _translate_start (args : dict) : outcome dict :=
  let translated : dict :=
    [("repo_path", dict_get args "repo" PNone);
     ("data_quality_cmd", dict_get args "dataQual" PNone);
     ("test_cmd", dict_get args "test" PNone);
     ("lint_cmd", dict_get args "lint" PNone);
     ("perf_cmd", dict_get args "bench" PNone);
     ("timeout_sec", dict_get args "timeout" (PInt 120));
     ("z_notes", dict_get args "notes" PNone);
     ("ema_alpha", dict_get args "ema" (PFloat 0.9))] in
  translated <-
    match dict_lookup "weights" args with
    | Some w =>
        tw <- translate_weights w ;;
        Returns (dict_set "weights" tw translated)
    | None => Returns translated
    end ;;
  translated <-
    match dict_lookup "halt" args with
    | Some h =>
        th <- translate_halt h ;;
        Returns (dict_set "halt" th translated)
    | None => Returns translated
    end ;;
  Returns (drop_none translated).

Definition _translate_submit (args : dict) : dict :=
  [("session_id", dict_get args "sid" PNone);
   ("candidate", dict_get args "candidate" PNone);
   ("rationale", dict_get args "reason" PNone)].

Definition _translate_read (args : dict) : dict :=
  [("session_id", dict_get args "sid" PNone);
   ("paths", dict_get args "paths" (PList []))].

Definition _translate_session_id (args : dict) : dict :=
  [("session_id", dict_get args "sid" PNone)].

Definition _translate_checkpoint (args : dict) (tool_name : string) : dict :=
  let result : dict := [("session_id", dict_get args "sid" PNone)] in
  if String.eqb tool_name "trm.save"
  then dict_set "description" (dict_get args "desc" PNone) result
  else if String.eqb tool_name "trm.restore"
  then dict_set "checkpoint_id" (dict_get args "cid" PNone) result
  else result.

Definition _translate_lines (args : dict) : dict :=
  [("session_id", dict_get args "sid" PNone);
   ("file", dict_get args "file" PNone);
   ("start_line", dict_get args "start" PNone);
   ("end_line", dict_get args "end" PNone)].

Definition _translate_review (args : dict) : dict :=
  [("pr_url", dict_get args "url" PNone);
   ("diff", dict_get args "diff" PNone);
   ("files", dict_get args "files" PNone);
   ("focus", dict_get args "focus" PNone)].

Definition one_of (name : string) (names : list string) : bool :=
  existsb (String.eqb name) names.

Definition translate_params (tool_name : string) (args : dict) : outcome dict :=
  if String.eqb tool_name "trm.start" then _translate_start args
  else if String.eqb tool_name "trm.submit"
  then Returns (_translate_submit args)
  else if String.eqb tool_name "trm.read" then Returns (_translate_read args)
  else if one_of tool_name
            ["trm.state"; "trm.halt"; "trm.end"; "trm.validate"; "trm.suggest"]
  then Returns (_translate_session_id args)
  else if one_of tool_name
            ["trm.save"; "trm.restore"; "trm.list"; "trm.reset"; "trm.undo"]
  then Returns (_translate_checkpoint args tool_name)
  else if String.eqb tool_name "trm.lines" then Returns (_translate_lines args)
  else if String.eqb tool_name "trm.fix"
  then Returns (_translate_session_id args)
  else if String.eqb tool_name "trm.review"
  then Returns (_translate_review args)
  else Returns args.

(** [src/tools/schemas.py]: the keys that the input schema of [trm.start]
    declares required, at top level and inside [halt]. *)
Definition start_required : list string := ["repo"; "halt"].
Definition halt_required : list string := ["max"; "threshold"; "patience"].

(** *** The inverse key mapping

    The sources contain no translation from long names back to short
    names.  The tables below are the short-name schema of the interface,
    read from right to left; [rename] applies a table to the keys of a
    dictionary and leaves other keys alone. *)
Definition key_table : Type := list (string * string).

Definition start_keys : key_table :=
  [("repo", "repo_path"); ("dataQual", "data_quality_cmd");
   ("test", "test_cmd"); ("lint", "lint_cmd"); ("bench", "perf_cmd");
   ("timeout", "timeout_sec"); ("ema", "ema_alpha"); ("notes", "z_notes")].

Definition weights_keys : key_table :=
  [("dataQual", "data_quality"); ("test", "test"); ("lint", "lint");
   ("perf", "perf")].

Definition halt_keys : key_table :=
  [("max", "max_steps"); ("threshold", "pass_threshold");
   ("patience", "patience_no_improve"); ("min", "min_steps")].

Definition submit_keys : key_table :=
  [("sid", "session_id"); ("reason", "rationale")].

Fixpoint short_of (t : key_table) (long : string) : option string :=
  match t with
  | [] => None
  | (s, l) :: t' => if String.eqb long l then Some s else short_of t' long
  end.

Definition rename (t : key_table) (d : dict) : dict :=
  map (fun kv => match short_of t (fst kv) with
                 | Some s => (s, snd kv)
                 | None => kv
                 end) d.

Definition rename_nested (t : key_table) (v : pyval) : pyval :=
  match v with
  | PDict d => PDict (rename t d)
  | other => other
  end.

(** Long names back to short names for the arguments of [trm.start]. *)
Definition inverse_start (d : dict) : dict :=
  map (fun kv =>
         if String.eqb (fst kv) "weights"
         then (fst kv, rename_nested weights_keys (snd kv))
         else if String.eqb (fst kv) "halt"
         then (fst kv, rename_nested halt_keys (snd kv))
         else kv)
      (rename start_keys d).

Definition inverse_submit (d : dict) : dict := rename submit_keys d.

(** The value an argument object holds at a nested key:
    [args.get(outer)] then [.get(k)], [None] where either is missing. *)
Definition nested_get (d : dict) (outer k : string) : pyval :=
  match dict_lookup outer d with
  | Some (PDict inner) => dict_get inner k PNone
  | _ => PNone
  end.

(** The value of [weights] or [halt], where given, is an object. *)
Definition object_or_absent (d : dict) (k : string) : Prop :=
  match dict_lookup k d with
  | Some (PDict _) | None => True
  | Some _ => False
  end.

End ParamTranslator.

(** ** [src/server.py]: the read handler *)

Module Server.

(** *** Paths

    A [pathlib] path on a POSIX system: whether it starts at the root, and
    its components.  Parsing drops empty components and [.] components and
    keeps [..] components. *)
Record PurePath : Type := {
  rooted : bool;
  parts : list string
}.

Definition kept_component (c : string) : bool :=
  negb (String.eqb c "" || String.eqb c ".")%bool.

Definition Path (s : string) : PurePath :=
  {| rooted := PyStr.starts_with ["/"%char] (PyStr.chars s);
     parts := filter kept_component (PyStr.split_on "/" s) |}.

(** [base / other]: a rooted right operand replaces the left one. *)
Definition joinpath (base other : PurePath) : PurePath :=
  if rooted other then other
  else {| rooted := rooted base; parts := (parts base ++ parts other)%list |}.

(** *** The file system

    A location is the list of names leading to it from the root, through
    directories only: no symbolic link lies on it.  The file system maps
    a location to what the operating system finds there: nothing, a
    directory, a regular file, a symbolic link with its target, or an
    entry that it refuses to look up (a name that is too long, a
    directory that may not be searched: every error of [stat] other than
    the four that [pathlib] reads as absence). *)
Definition location : Type := list string.

Inductive node : Type :=
| Dir
| File (read_text : string + string) (st_size : Z) (st_mtime : Q)
| Link (target : string)
| Refused.

Definition filesystem : Type := location -> option node.

Definition is_dir (fs : filesystem) (loc : location) : bool :=
  match fs loc with Some Dir => true | _ => false end.

(** What [stat] on a path comes to: the location the path leads to, once
    every symbolic link on it is followed; nothing to be found there
    ([ENOENT], [ENOTDIR], and [ELOOP] for too many links); or another
    error of the operating system. *)
Inductive resolution : Type :=
| Found (loc : location)
| Missing
| Fails.

(** The number of symbolic links that one resolution follows. *)
Definition max_links : nat := 40.

(** Name resolution as the operating system performs it: from the
    location [at_], one component at a time; every location passed through
    must be a directory, and [..] moves to the parent (the root is its own
    parent).  A symbolic link is replaced by the components of its
    target, read from the directory that holds the link, or from the root
    where the target is absolute; [links] is the number of links that may
    still be followed. *)
Fixpoint walk (links : nat) (fs : filesystem)
    : location -> list string -> resolution :=
  fix go (at_ : location) (cs : list string) {struct cs} : resolution :=
    match cs with
    | [] => Found at_
    | c :: cs' =>
        if is_dir fs at_
        then
          if String.eqb c ".." then go (removelast at_) cs'
          else
            match fs (at_ ++ [c])%list with
            | Some (Link target) =>
                match links with
                | O => Missing
                | S links' =>
                    walk links' fs
                      (if rooted (Path target) then [] else at_)
                      (parts (Path target) ++ cs')%list
                end
            | Some Refused => Fails
            | Some Dir | Some (File _ _ _) | None =>
                go (at_ ++ [c])%list cs'
            end
        else Missing
    end.

Definition resolve (fs : filesystem) (cwd : location) (p : PurePath)
    : resolution :=
  walk max_links fs (if rooted p then [] else cwd) (parts p).

(** A path with a null character is not handed to the operating system:
    [stat] raises [ValueError], which [exists] reads as absence. *)
Definition encodable (p : PurePath) : bool :=
  forallb (fun c => negb (PyStr.contains (String (ascii_of_N 0) "") c))
          (parts p).

(** *** File entries of the response *)
Inductive file_entry : Type :=
| Content (content : string) (lineCount : Z) (sizeBytes : Z) (lastModified : Q)
| Error (message : string).

(** [len(content.splitlines())] on code points below 256. *)
Definition is_line_break (c : ascii) : bool :=
  (PyStr.in_range 10 13 c || PyStr.in_range 28 30 c
   || N.eqb (PyStr.code c) 133)%bool.

Fixpoint count_lines (s : list ascii) (pending : bool) : Z :=
  match s with
  | [] => if pending then 1 else 0
  | c :: s' =>
      if is_line_break c
      then
        match s' with
        | d :: s'' =>
            if (N.eqb (PyStr.code c) 13 && N.eqb (PyStr.code d) 10)%bool
            then 1 + count_lines s'' false
            else 1 + count_lines s' false
        | [] => 1
        end
      else count_lines s' true
  end.

(** The body of the loop for one entry of [paths].  The test
    [file_path.exists() and file_path.is_file()] stands outside the
    [try]: an error of [stat] that [pathlib] does not read as absence
    leaves the loop.  What [read_text] or the second [stat] raises is
    caught and becomes the entry. *)
Definition read_entry (fs : filesystem) (cwd : location)
    (repo_path : PurePath) (path_str : string) : outcome file_entry :=
  let file_path := joinpath repo_path (Path path_str) in
  if encodable file_path
  then
    match resolve fs cwd file_path with
    | Found loc =>
        match fs loc with
        | Some (File (inl content) st_size st_mtime) =>
            Returns (Content content (count_lines (PyStr.chars content) false)
                       st_size st_mtime)
        | Some (File (inr e) _ _) => Returns (Error e)
        | Some Refused => Raises OSError
        | Some Dir | Some (Link _) | None => Returns (Error "File not found")
        end
    | Missing => Returns (Error "File not found")
    | Fails => Raises OSError
    end
  else Returns (Error "File not found").

(** The location whose content an entry returns, when it returns one. *)
Definition location_read (fs : filesystem) (cwd : location)
    (repo_path : PurePath) (path_str : string) : option location :=
  let file_path := joinpath repo_path (Path path_str) in
  if encodable file_path
  then
    match resolve fs cwd file_path with
    | Found loc =>
        match fs loc with
        | Some (File (inl _) _ _) => Some loc
        | _ => None
        end
    | Missing | Fails => None
    end
  else None.

(** [files[path_str] = entry] *)
Fixpoint files_set (k : string) (v : file_entry)
    (d : list (string * file_entry)) : list (string * file_entry) :=
  match d with
  | [] => [(k, v)]
  | (k', v') :: d' =>
      if String.eqb k k' then (k', v) :: d' else (k', v') :: files_set k v d'
  end.

(** [for path_str in paths: ...], from the entries collected so far. *)
Fixpoint read_all (fs : filesystem) (cwd : location) (repo : PurePath)
    (paths : list string) (files : list (string * file_entry))
    : outcome (list (string * file_entry)) :=
  match paths with
  | [] => Returns files
  | path_str :: rest =>
      match read_entry fs cwd repo path_str with
      | Returns entry =>
          read_all fs cwd repo rest (files_set path_str entry files)
      | Raises e => Raises e
      | OutOfModel => OutOfModel
      end
  end.

Inductive response : Type :=
| SessionNotFound
| Files (files : list (string * file_entry)).

Definition handle_get_file_content (sessions : Sessions.registry)
    (fs : filesystem) (cwd : location)
    (session_id : string) (paths : list string) : outcome response :=
  match Sessions.get_session sessions session_id with
  | None => Returns SessionNotFound
  | Some session =>
      let repo := Path (repo_path (cfg session)) in
      match read_all fs cwd repo paths [] with
      | Returns files => Returns (Files files)
      | Raises e => Raises e
      | OutOfModel => OutOfModel
      end
  end.

(** A location lies under the repository when the location of the
    repository is a prefix of it. *)
Fixpoint is_prefix (p l : location) : bool :=
  match p, l with
  | [], _ => true
  | a :: p', b :: l' => (String.eqb a b && is_prefix p' l')%bool
  | _ :: _, [] => false
  end.

(** No location reached from [base] along the components [cs] holds a
    symbolic link. *)
Definition link_free (fs : filesystem) (base : location)
    (cs : list string) : Prop :=
  forall (n : nat) (target : string),
    (0 < n <= List.length cs)%nat ->
    fs (base ++ firstn n cs)%list <> Some (Link target).

End Server.

(** ** [src/shared/sessions.py]: the registry operations *)

Module SessionStore.

Import Sessions.

(** [_sessions[session_id] = session] *)
Fixpoint store (sessions : registry) (session_id : string)
    (session : SessionState) : registry :=
  match sessions with
  | [] => [(session_id, session)]
  | (k, s) :: rest =>
      if String.eqb session_id k then (k, session) :: rest
      else (k, s) :: store rest session_id session
  end.

(** [session_id in _sessions] *)
Definition validate_session_exists (sessions : registry)
    (session_id : string) : bool :=
  match get_session sessions session_id with
  | Some _ => true
  | None => false
  end.

(** [create_session] with its last two statements: the new state is put
    in the registry under its identifier and returned. *)
Definition create_and_store (sessions : registry) (session_id : string)
    (repo_path : string)
    (data_quality_cmd test_cmd lint_cmd perf_cmd : option string)
    (timeout_sec : Z) (weights : option WeightsConfig) (halt : HaltConfig)
    (ema_alpha : Q) (z_notes : option string) (mode : SessionMode)
    : registry * SessionState :=
  let session :=
    create_session session_id repo_path data_quality_cmd test_cmd lint_cmd
      perf_cmd timeout_sec weights halt ema_alpha z_notes mode in
  (store sessions session_id session, session).

(** [delete_session]: the registry afterwards and the value returned. *)
Definition delete_session (sessions : registry) (session_id : string)
    : registry * bool :=
  if validate_session_exists sessions session_id
  then (filter (fun ks => negb (String.eqb session_id (fst ks))) sessions,
        true)
  else (sessions, false).

(** [list(_sessions.keys())] *)
Definition list_sessions (sessions : registry) : list string :=
  map fst sessions.

(** [get_repo_path] *)
Definition get_repo_path (sessions : registry) (session_id : string)
    : option Server.PurePath :=
  match get_session sessions session_id with
  | Some session => Some (Server.Path (repo_path (cfg session)))
  | None => None
  end.

End SessionStore.

(** ** [src/utils/command.py]: [run_command] *)

From Stdlib Require DecimalString.

Module Runner.

(** What the operating system does with the command, as far as
    [run_command] observes it: the process ends within the timeout with
    its decoded output and return code, the timeout expires first, or
    starting or reading the process raises (with the text of the
    exception). *)
Inductive process_outcome : Type :=
| Finished (out err : string) (returncode : Z)
| TimedOut
| Failed (message : string).

Record host : Type := {
  resolve_dir : string -> string;      (* str(Path(cwd).resolve()) *)
  dir_exists : string -> bool;         (* cwd_path.exists() *)
  spawn : string -> string -> Z -> process_outcome
}.

(** [str(n)] for an [int] *)
Definition str_of_int (n : Z) : string :=
  DecimalString.NilZero.string_of_int (Z.to_int n).

Definition run_command (h : host) (cmd cwd : string) (timeout_sec : Z)
    : CommandResult :=
  let cwd_path := resolve_dir h cwd in
  if negb (dir_exists h cwd_path)
  then {| ok := false; stdout := "";
          stderr := "Directory does not exist: " ++ cwd_path;
          exit_code := 1 |}
  else
    match spawn h cmd cwd_path timeout_sec with
    | Finished out err returncode =>
        {| ok := (returncode =? 0)%Z; stdout := out; stderr := err;
           exit_code := returncode |}
    | TimedOut =>
        {| ok := false; stdout := "";
           stderr := "Command timed out after " ++ str_of_int timeout_sec
                     ++ "s";
           exit_code := -1 |}
    | Failed message =>
        {| ok := false; stdout := "";
           stderr := "Command execution failed: " ++ message;
           exit_code := -1 |}
    end.

(** The runner that an evaluation uses on a given host. *)
Definition runner_on (h : host) : Evaluation.runner :=
  fun _ cmd cwd timeout_sec => run_command h cmd cwd timeout_sec.

End Runner.

(** ** [src/tools/handlers/lib/evaluation.py]: [run_preflight_checks] *)

Module Preflight.

Import Evaluation.
Local Open Scope outcome_scope.

Record initial_build : Type := {
  build_success : bool;
  build_output : string
}.

Record initial_tests : Type := {
  tests_success : bool;
  tests_passed : Z;
  tests_failed : Z;
  tests_total : Z
}.

Record results : Type := {
  repoExists : bool;
  commandsAvailable : list (string * bool);
  initialBuild : option initial_build;
  initialTests : option initial_tests
}.

(** [check_command_available(cmd.split()[0])] *)
Definition availability (which : Command.which_oracle) (cmd : string)
    : outcome bool :=
  match PyStr.split_ws cmd with
  | name :: _ => Returns (Command.check_command_available which name)
  | [] => Raises IndexError
  end.

(** One [if session.cfg.<probe>_cmd:] block of the availability
    section. *)
Definition check_one (which : Command.which_oracle) (key : string)
    (cmd : option string) (found : list (string * bool))
    : outcome (list (string * bool)) :=
  match configured cmd with
  | Some c =>
      a <- availability which c ;;
      Returns (found ++ [(key, a)])%list
  | None => Returns found
  end.

Definition run_preflight_checks (repo_is_dir : string -> bool)
    (which : Command.which_oracle) (run : runner) (session : SessionState)
    : outcome results :=
  let c := cfg session in
  if negb (repo_is_dir (repo_path c))
  then Returns {| repoExists := false; commandsAvailable := [];
                  initialBuild := None; initialTests := None |}
  else
    found <- check_one which "dataQuality" (data_quality_cmd c) [] ;;
    found <- check_one which "test" (test_cmd c) found ;;
    found <- check_one which "lint" (lint_cmd c) found ;;
    let build :=
      match configured (data_quality_cmd c) with
      | Some cmd =>
          let result := run DataQualityProbe cmd (repo_path c)
                            (timeout_sec c) in
          Some {| build_success := ok result;
                  build_output :=
                    if ok result then PyStr.take 500 (stdout result)
                    else PyStr.take 500 (stderr result) |}
      | None => None
      end in
    tested <-
      match configured (test_cmd c) with
      | Some cmd =>
          let result := run TestProbe cmd (repo_path c) (timeout_sec c) in
          tests <- Parser.parse_test_output (combined_output result)
                     "pytest" ;;
          Returns
            (Some
               match tests with
               | Some t =>
                   {| tests_success := (ok result && (failed t =? 0)%Z)%bool;
                      tests_passed := passed t; tests_failed := failed t;
                      tests_total := total t |}
               | None =>
                   {| tests_success := (ok result && false)%bool;
                      tests_passed := 0; tests_failed := 0;
                      tests_total := 0 |}
               end)
      | None => Returns None
      end ;;
    Returns {| repoExists := true; commandsAvailable := found;
               initialBuild := build; initialTests := tested |}.

End Preflight.

(** ** [src/server.py]: the handlers and [handle_tool_call]

    A handler works on the registry and answers with the object it
    passes to [json.dumps]; the answers are kept as typed values.  A
    handler that raises leaves the registry as its completed statements
    made it; [handle_tool_call] turns the exception into an error
    object. *)

Module Handlers.

Import Py Sessions SessionStore.
Local Open Scope outcome_scope.

(** The outside world of one call. *)
Record world : Type := {
  fresh_id : string;                 (* str(uuid.uuid4()) *)
  run : Evaluation.runner;           (* run_command *)
  which : Command.which_oracle;      (* subprocess.run(["which", ...]) *)
  fs : Server.filesystem;
  cwd : Server.location
}.

(** [repo_path.exists() and repo_path.is_dir()] *)
Definition repo_is_dir (w : world) (path : string) : outcome bool :=
  if Server.encodable (Server.Path path)
  then
    match Server.resolve (fs w) (cwd w) (Server.Path path) with
    | Server.Found loc =>
        match fs w loc with
        | Some Server.Refused => Raises OSError
        | _ => Returns (Server.is_dir (fs w) loc)
        end
    | Server.Missing => Returns false
    | Server.Fails => Raises OSError
    end
  else Returns false.

Inductive error_text : Type :=
| SessionNotFound                    (* "Session not found" *)
| UnknownTool (name : string)        (* f"Unknown tool: {name}" *)
| Exception (e : exn).               (* str(e) *)

Record submit_response : Type := {
  r_step : Z;
  r_score : Q;
  r_emaScore : Q;
  r_bestScore : Q;
  r_feedback : list Feedback;
  r_shouldHalt : bool;
  r_reasons : list Scoring.HaltReason;
  r_tests : option (Z * Z * Z);      (* passed, failed, total *)
  r_okDataQuality : option bool;
  r_okLint : option bool
}.

Record state_response : Type := {
  st_sessionId : string;
  st_step : Z;
  st_emaScore : Q;
  st_bestScore : Q;
  st_noImproveStreak : Z;
  st_last : option EvalResult;
  st_zNotes : option string
}.

Inductive halt_reasons : Type :=
| NoEvaluationsYet                   (* ["No evaluations yet"] *)
| Reasons (reasons : list Scoring.HaltReason).

Inductive response : Type :=
| RError (e : error_text)
| RStarted (sessionId repoPath : string) (maxSteps : Z) (passThreshold : Q)
           (preflight : option Preflight.results)
| RSubmitted (r : submit_response)
| RFiles (files : list (string * Server.file_entry))
| RState (st : state_response)
| RHalt (shouldHalt : bool) (reasons : halt_reasons)
| REnded (ok : bool)
| RValidation          (* valid: true, no errors, no warnings *)
| RSuggestions         (* {"suggestions": []} *)
| RMessage (message : string)
| RLines               (* {"lines": [], "message": "Not implemented yet"} *)
| RReview.             (* empty summary, no comments *)

(** [_sessions.get(v)] and [v in _sessions] for the value an argument
    holds: a list or a dict is unhashable; a value that is not a string
    is no key of the registry. *)
Definition session_key (v : pyval) : outcome (option string) :=
  match v with
  | PStr s => Returns (Some s)
  | PList _ | PDict _ => Raises TypeError
  | PNone | PBool _ | PInt _ | PFloat _ => Returns None
  end.

Definition lookup_session (sessions : registry) (v : pyval)
    : outcome (option (string * SessionState)) :=
  k <- session_key v ;;
  match k with
  | Some sid =>
      match get_session sessions sid with
      | Some s => Returns (Some (sid, s))
      | None => Returns None
      end
  | None => Returns None
  end.

(** [args[key]] on the translated arguments *)
Definition arg (args : dict) (key : string) : outcome pyval :=
  getitem (PDict args) key.

(** Truth value of a Python value, as [if v:] tests it. *)
Definition truthy (v : pyval) : bool :=
  match v with
  | PNone => false
  | PBool b => b
  | PInt z => negb (z =? 0)%Z
  | PFloat q => negb (Qeq_bool q 0)
  | PStr s => negb (String.eqb s "")
  | PList l => match l with [] => false | _ => true end
  | PDict d => match d with [] => false | _ => true end
  end.

(** *** [handle_start_session] *)

(** A dataclass built from the keyword arguments that [v] unpacks to;
    [fields] are its fields, of which [required] have no default: [v]
    must be a mapping, every key a field, every required field given. *)
Definition keywords (v : pyval) (fields required : list string)
    : outcome dict :=
  match v with
  | PDict d =>
      if (forallb (fun kv => ParamTranslator.one_of (fst kv) fields) d
          && forallb (fun k => dict_mem k d) required)%bool
      then Returns d
      else Raises TypeError
  | _ => Raises TypeError
  end.

(** Values of the declared types; anything else leaves the model. *)
Definition as_float (v : pyval) : outcome Q :=
  match v with
  | PInt z => Returns (inject_Z z)
  | PFloat q => Returns q
  | _ => OutOfModel
  end.

Definition as_int (v : pyval) : outcome Z :=
  match v with
  | PInt z => Returns z
  | _ => OutOfModel
  end.

Definition as_optional_str (v : pyval) : outcome (option string) :=
  match v with
  | PNone => Returns None
  | PStr s => Returns (Some s)
  | _ => OutOfModel
  end.

Definition as_str (v : pyval) : outcome string :=
  match v with
  | PStr s => Returns s
  | _ => OutOfModel
  end.

Definition make_weights (v : pyval) : outcome WeightsConfig :=
  d <- keywords v ["data_quality"; "test"; "lint"; "perf"] [] ;;
  dq <- as_float (dict_get d "data_quality" (PFloat 0.3)) ;;
  t <- as_float (dict_get d "test" (PFloat 0.4)) ;;
  l <- as_float (dict_get d "lint" (PFloat 0.1)) ;;
  p <- as_float (dict_get d "perf" (PFloat 0.2)) ;;
  Returns {| w_data_quality := dq; w_test := t; w_lint := l; w_perf := p |}.

Definition make_halt (v : pyval) : outcome HaltConfig :=
  d <- keywords v
         ["max_steps"; "pass_threshold"; "patience_no_improve"; "min_steps"]
         ["max_steps"; "pass_threshold"; "patience_no_improve"] ;;
  mx <- as_int (dict_get d "max_steps" PNone) ;;
  th <- as_float (dict_get d "pass_threshold" PNone) ;;
  pa <- as_int (dict_get d "patience_no_improve" PNone) ;;
  mn <- as_int (dict_get d "min_steps" (PInt 1)) ;;
  Returns {| max_steps := mx; pass_threshold := th;
             patience_no_improve := pa; min_steps := mn |}.

(** The statements of [handle_start_session] up to and including
    [create_session]: what may raise comes first, in the order of the
    source, then the reading of the values. *)
Definition start_session (w : world) (sessions : registry) (args : dict)
    : outcome (registry * SessionState) :=
  weights_kw <-
    match dict_lookup "weights" args with
    | Some v =>
        d <- keywords v ["data_quality"; "test"; "lint"; "perf"] [] ;;
        Returns (Some (PDict d))
    | None => Returns None
    end ;;
  halt_v <- arg args "halt" ;;
  _ <- keywords halt_v
         ["max_steps"; "pass_threshold"; "patience_no_improve"; "min_steps"]
         ["max_steps"; "pass_threshold"; "patience_no_improve"] ;;
  repo_v <- arg args "repo_path" ;;
  weights <-
    match weights_kw with
    | Some v => x <- make_weights v ;; Returns (Some x)
    | None => Returns None
    end ;;
  halt <- make_halt halt_v ;;
  repo <- as_str repo_v ;;
  dq <- as_optional_str (dict_get args "data_quality_cmd" PNone) ;;
  t <- as_optional_str (dict_get args "test_cmd" PNone) ;;
  l <- as_optional_str (dict_get args "lint_cmd" PNone) ;;
  p <- as_optional_str (dict_get args "perf_cmd" PNone) ;;
  timeout <- as_int (dict_get args "timeout_sec" (PInt 120)) ;;
  alpha <- as_float (dict_get args "ema_alpha" (PFloat 0.9)) ;;
  notes <- as_optional_str (dict_get args "z_notes" PNone) ;;
  Returns (create_and_store sessions (fresh_id w) repo dq t l p timeout
             weights halt alpha notes CUMULATIVE).

Definition handle_start_session (w : world) (sessions : registry)
    (args : dict) : registry * outcome response :=
  match start_session w sessions args with
  | Returns (sessions', session) =>
      let answer (preflight : option Preflight.results) :=
        RStarted (id session) (repo_path (cfg session))
          (max_steps (halt (cfg session)))
          (pass_threshold (halt (cfg session))) preflight in
      if truthy (dict_get args "preflight" PNone)
      then
        (sessions',
         found <- repo_is_dir w (repo_path (cfg session)) ;;
         pre <- Preflight.run_preflight_checks (fun _ => found) (which w)
                  (run w) session ;;
         Returns (answer (Some pre)))
      else (sessions', Returns (answer None))
  | Raises e => (sessions, Raises e)
  | OutOfModel => (sessions, OutOfModel)
  end.

(** *** [handle_submit_candidate] *)

Definition submit_answer (session : SessionState) (r : EvalResult)
    : submit_response :=
  {| r_step := step r;
     r_score := score r;
     r_emaScore := ema_score r;
     r_bestScore := best_score session;
     r_feedback := feedback r;
     r_shouldHalt := should_halt r;
     r_reasons := reasons r;
     r_tests := match tests r with
                | Some t => Some (passed t, failed t, total t)
                | None => None
                end;
     r_okDataQuality := ok_data_quality r;
     r_okLint := ok_lint r |}.

Definition handle_submit_candidate (w : world) (sessions : registry)
    (args : dict) : registry * outcome response :=
  match (v <- arg args "session_id" ;; lookup_session sessions v) with
  | Returns None => (sessions, Returns (RError SessionNotFound))
  | Returns (Some (sid, session)) =>
      match Evaluation.run_evaluation (run w) session with
      | Returns (session', r) =>
          (store sessions sid session',
           Returns (RSubmitted (submit_answer session' r)))
      | Raises e => (sessions, Raises e)
      | OutOfModel => (sessions, OutOfModel)
      end
  | Raises e => (sessions, Raises e)
  | OutOfModel => (sessions, OutOfModel)
  end.

(** *** [handle_get_file_content] *)

(** What [for path_str in args["paths"]] goes through: the elements of a
    list, the characters of a string, the keys of a dict. *)
Definition iterate_paths (v : pyval) : outcome (list pyval) :=
  match v with
  | PList l => Returns l
  | PStr s =>
      Returns (map (fun c => PStr (String c EmptyString)) (PyStr.chars s))
  | PDict d => Returns (map (fun kv => PStr (fst kv)) d)
  | PNone | PBool _ | PInt _ | PFloat _ => Raises TypeError
  end.

(** The loop: an element that is no string cannot be joined to the
    repository path, and the loop is left where it is reached; so is it
    where reading an entry raises. *)
Fixpoint read_paths (w : world) (repo : Server.PurePath)
    (paths : list pyval) (files : list (string * Server.file_entry))
    : outcome (list (string * Server.file_entry)) :=
  match paths with
  | [] => Returns files
  | PStr path_str :: rest =>
      entry <- Server.read_entry (fs w) (cwd w) repo path_str ;;
      read_paths w repo rest (Server.files_set path_str entry files)
  | _ :: _ => Raises TypeError
  end.

Definition handle_get_file_content (w : world) (sessions : registry)
    (args : dict) : registry * outcome response :=
  (sessions,
   v <- arg args "session_id" ;;
   found <- lookup_session sessions v ;;
   match found with
   | None => Returns (RError SessionNotFound)
   | Some (_, session) =>
       pv <- arg args "paths" ;;
       paths <- iterate_paths pv ;;
       files <- read_paths w (Server.Path (repo_path (cfg session)))
                  paths [] ;;
       Returns (RFiles files)
   end).

(** *** [handle_get_state] *)

Definition last_of {A : Type} (l : list A) : option A :=
  match rev l with
  | x :: _ => Some x
  | [] => None
  end.

(** [json.dumps] of the answer: the [__dict__] of the last evaluation
    holds the [TestResults] and [PerfResults] objects themselves, which
    the encoder refuses with a [TypeError]. *)
Definition serializable (r : EvalResult) : bool :=
  match tests r, perf r with
  | None, None => true
  | _, _ => false
  end.

Definition handle_get_state (sessions : registry) (args : dict)
    : registry * outcome response :=
  (sessions,
   v <- arg args "session_id" ;;
   found <- lookup_session sessions v ;;
   match found with
   | None => Returns (RError SessionNotFound)
   | Some (_, session) =>
       let last := last_of (history session) in
       let answer :=
         RState {| st_sessionId := id session;
                   st_step := s_step session;
                   st_emaScore := s_ema_score session;
                   st_bestScore := best_score session;
                   st_noImproveStreak := no_improve_streak session;
                   st_last := last;
                   st_zNotes := z_notes session |} in
       match last with
       | Some r => if serializable r then Returns answer
                   else Raises TypeError
       | None => Returns answer
       end
   end).

(** *** [handle_should_halt] *)

Definition handle_should_halt (sessions : registry) (args : dict)
    : registry * outcome response :=
  (sessions,
   v <- arg args "session_id" ;;
   found <- lookup_session sessions v ;;
   match found with
   | None => Returns (RError SessionNotFound)
   | Some (_, session) =>
       match last_of (history session) with
       | None => Returns (RHalt false NoEvaluationsYet)
       | Some last_eval =>
           Returns (RHalt (should_halt last_eval)
                          (Reasons (reasons last_eval)))
       end
   end).

(** *** [handle_end_session] *)

Definition handle_end_session (sessions : registry) (args : dict)
    : registry * outcome response :=
  match (v <- arg args "session_id" ;; session_key v) with
  | Returns (Some sid) =>
      let '(sessions', deleted) := delete_session sessions sid in
      (sessions', Returns (REnded deleted))
  | Returns None => (sessions, Returns (REnded false))
  | Raises e => (sessions, Raises e)
  | OutOfModel => (sessions, OutOfModel)
  end.

(** *** [handle_tool_call] *)

Definition dispatch (w : world) (sessions : registry) (name : string)
    (args : dict) : registry * outcome response :=
  if String.eqb name "trm.start" then handle_start_session w sessions args
  else if String.eqb name "trm.submit"
  then handle_submit_candidate w sessions args
  else if String.eqb name "trm.read"
  then handle_get_file_content w sessions args
  else if String.eqb name "trm.state" then handle_get_state sessions args
  else if String.eqb name "trm.halt" then handle_should_halt sessions args
  else if String.eqb name "trm.end" then handle_end_session sessions args
  else if String.eqb name "trm.validate"
  then (sessions, Returns RValidation)
  else if String.eqb name "trm.suggest"
  then (sessions, Returns RSuggestions)
  else if ParamTranslator.one_of name ["trm.save"; "trm.restore"; "trm.list"]
  then (sessions, Returns (RMessage (name ++ " not implemented yet")))
  else if String.eqb name "trm.reset"
  then (sessions, Returns (RMessage "Reset not implemented yet"))
  else if String.eqb name "trm.undo"
  then (sessions, Returns (RMessage "Undo not implemented yet"))
  else if String.eqb name "trm.lines" then (sessions, Returns RLines)
  else if String.eqb name "trm.fix" then (sessions, Returns RSuggestions)
  else if String.eqb name "trm.review" then (sessions, Returns RReview)
  else (sessions, Returns (RError (UnknownTool name))).

(** The translation runs before the [try] block: an exception it raises
    leaves [handle_tool_call]; an exception of a handler is answered with
    an error object. *)
Definition handle_tool_call (w : world) (sessions : registry)
    (name : string) (arguments : dict) : outcome (registry * response) :=
  args <- ParamTranslator.translate_params name arguments ;;
  match dispatch w sessions name args with
  | (sessions', Returns r) => Returns (sessions', r)
  | (sessions', Raises e) => Returns (sessions', RError (Exception e))
  | (_, OutOfModel) => OutOfModel
  end.

End Handlers.

(** ** The no-improvement streak as a function of the history *)

Module HistorySpec.



End HistorySpec.

(** ** What a regular expression matches

    [lang r w]: the expression [r] can consume exactly the text [w]
    (anchors consume nothing).  The matcher of [Re] is checked against
    this relation below. *)

Module ReSpec.

Import Re.

Inductive lang : regex -> list ascii -> Prop :=
| LAny (p : ascii -> bool) (x : ascii) : p x = true -> lang (RAny p) [x]
| LEps : lang REps []
| LSeq (a b : regex) (u v : list ascii) :
    lang a u -> lang b v -> lang (RSeq a b) (u ++ v)
| LOptNone (r : regex) : lang (ROpt r) []
| LOptSome (r : regex) (w : list ascii) : lang r w -> lang (ROpt r) w
| LStarNil (r : regex) : lang (RStar r) []
| LStarCons (r : regex) (u v : list ascii) :
    lang r u -> lang (RStar r) v -> lang (RStar r) (u ++ v)
| LGroup (r : regex) (w : list ascii) : lang r w -> lang (RGroup r) w
| LBol : lang RBol []
| LEol : lang REol [].

(** Every group of [r] can only capture a text with the property [P]. *)
Fixpoint groups_in (P : list ascii -> Prop) (r : regex) : Prop :=
  match r with
  | RGroup r1 => (forall w, lang r1 w -> P w) /\ groups_in P r1
  | RSeq a b => groups_in P a /\ groups_in P b
  | ROpt r1 | RStar r1 => groups_in P r1
  | RAny _ | REps | RBol | REol => True
  end.

(** Every match of [r] passes through a group. *)
Fixpoint closes (r : regex) : bool :=
  match r with
  | RGroup _ => true
  | RSeq a b => (closes a || closes b)%bool
  | _ => false
  end.

Definition group_ok (P : list ascii -> Prop) (g : option (list ascii))
    : Prop :=
  match g with Some w => P w | None => True end.

(** A run of decimal digits, not empty. *)
Definition digits (w : list ascii) : Prop :=
  w <> [] /\ Forall (fun c => PyStr.is_digit c = true) w.

(** A run of digits, or two runs of digits around a point. *)
Definition number_text (w : list ascii) : Prop :=
  exists ds : list ascii,
    digits ds
    /\ (w = ds \/ exists fs, digits fs /\ w = (ds ++ "."%char :: fs)%list).

End ReSpec.

(** * Specification-side definitions *)

(** ** The EMA law of a history *)

Module EmaSpec.


End EmaSpec.

(** * Theorems *)

(** ** Scoring *)

Module ScoringFacts.

Import Scoring.
Local Open Scope Q_scope.

(** C5, the failing input.  A test result with more tests passed than
    run (five of one), no other signal, the default weights:
    [calculate_weighted_score] returns 5, above 1, where its docstring
    and the claim promise a score in [0,1].  The ratio
    [passed / total] is not capped as the performance ratio is.  The
    value is 5 in exact arithmetic and [5.0] in binary64 under either
    summation. *)
Theorem weighted_score_above_one :
  calculate_weighted_score None None
    (Some {| passed := 5; failed := 0; total := 1; raw := None |})
    None DEFAULT_WEIGHTS None == 5
  /\ 1 < calculate_weighted_score None None
           (Some {| passed := 5; failed := 0; total := 1; raw := None |})
           None DEFAULT_WEIGHTS None
  /\ (forall how : Binary64.summation,
        Binary64.calculate_weighted_score how None None
          (Some {| passed := 5; failed := 0; total := 1; raw := None |})
          None Binary64.DEFAULT_WEIGHTS None
        = Returns (Binary64.float_of_int 5)).
Proof.
  split; [reflexivity |]. split; [reflexivity |].
  intros []; vm_compute; reflexivity.
Qed.

(** With counts that are consistent the score can still leave [0,1] by
    rounding: data quality, ten tests of ten and lint all passing score
    [1.0000000000000002] under the compensated sum of CPython 3.12, and
    [1.0] under the left-to-right sum of the versions before. *)
Lemma rounded_score_above_one :
  Binary64.calculate_weighted_score Binary64.Compensated
    (Some true) (Some true)
    (Some {| passed := 10; failed := 0; total := 10; raw := None |})
    None Binary64.DEFAULT_WEIGHTS None
  = Returns (PrimFloat.next_up (Binary64.float_of_int 1))
  /\ Binary64.calculate_weighted_score Binary64.LeftToRight
       (Some true) (Some true)
       (Some {| passed := 10; failed := 0; total := 10; raw := None |})
       None Binary64.DEFAULT_WEIGHTS None
     = Returns (Binary64.float_of_int 1).
Proof. split; vm_compute; reflexivity. Qed.



End ScoringFacts.

(** ** Parsers *)

Module ParserFacts.

Import Parser.

(** C3.  On the documented inputs: ["123.45 ms"] gives 0.12345 and
    ["2 min"] gives 120, as claimed.  ["1.5s"] gives no value: the
    seconds pattern ends in a literal backslash and [b], which the input
    does not contain, and no other pattern applies. *)
Theorem parse_performance_metric_unit_forms :
  parse_performance_metric "123.45 ms" = Returns (Some 0.12345%Q)
  /\ parse_performance_metric "1.5s" = Returns None
  /\ parse_performance_metric "2 min" = Returns (Some 120%Q).
Proof. repeat split; vm_compute; reflexivity. Qed.

(** The seconds pattern does match once the input carries the two
    literal characters the pattern asks for. *)
Example seconds_with_literal_suffix :
  parse_performance_metric "1.5s\b" = Returns (Some 1.5%Q).
Proof. vm_compute. reflexivity. Qed.

(** C4.  The input ["5"] is a JSON document, the number 5; the membership
    test ["tests" in data] on an [int] raises [TypeError], which the
    [except] clause does not catch. *)
Theorem parse_test_output_number_raises :
  parse_test_output "5" "pytest" = Raises TypeError.
Proof. vm_compute. reflexivity. Qed.

(** When the output is not a JSON document, the pytest parser returns,
    with a record or with nothing. *)
Lemma parse_pytest_output_returns_without_json (output : string) :
  (String.length output <= PyStr.max_str_digits)%nat ->
  Json.loads output = Raises JSONDecodeError ->
  exists r : option TestResults, parse_pytest_output output = Returns r.
Proof.
  intros _ E. unfold parse_pytest_output, pytest_json. rewrite E. simpl.
  destruct (Re.search re_passed output), (Re.search re_failed output);
    try (eexists; reflexivity).
  destruct (PyStr.contains "no tests ran" (PyStr.lower output)
            || PyStr.contains "no tests collected" (PyStr.lower output))%bool;
    eexists; reflexivity.
Qed.

(** Round-trip case R2 of the specification. *)
Example parse_pytest_summary :
  parse_test_output "5 passed, 2 failed" "pytest"
  = Returns (Some {| passed := 5; failed := 2; total := 7;
                     raw := Some "5 passed, 2 failed" |}).
Proof. vm_compute. reflexivity. Qed.

End ParserFacts.

(** ** The evaluation pipeline *)

Module EvaluationFacts.

Import Evaluation EmaSpec Sessions.
Local Open Scope Q_scope.

Lemma run_evaluation_returns run s s' r :
  run_evaluation run s = Returns (s', r) ->
  exists g : signals, score_and_update s g = (s', r).
Proof.
  unfold run_evaluation.
  destruct (run_tests run s _) as [g1 | |]; simpl; try discriminate.
  destruct (run_perf run s _) as [g2 | |]; simpl; try discriminate.
  intros [= E]. exists g2. exact E.
Qed.

(** What one completed evaluation writes. *)
Lemma score_and_update_writes s g s' r :
  score_and_update s g = (s', r) ->
  history s' = (history s ++ [r])%list
  /\ s_step s' = (s_step s + 1)%Z
  /\ s_ema_score s' = ema_score r
  /\ ema_alpha s' = ema_alpha s
  /\ best_perf s' = sg_best_perf g
  /\ perf r = sg_perf g
  /\ ema_score r
     = Scoring.update_ema_score (score r)
         (if (0 <? s_step s)%Z then s_ema_score s else score r)
         (ema_alpha s).
Proof.
  unfold score_and_update.
  destruct (Scoring.should_halt_iteration _ _ _ _ _ _ _ _ _) as [h rs].
  intros [= <- <-]. simpl. repeat split.
Qed.



Lemma nth_error_snoc_last {A : Type} (h : list A) (r x : A) (i : nat) :
  nth_error (h ++ [r]) i = Some x ->
  (i < List.length h)%nat /\ nth_error h i = Some x
  \/ i = List.length h /\ x = r.
Proof.
  intro E. destruct (Nat.lt_ge_cases i (List.length h)) as [L | G].
  - left. split; [exact L |]. rewrite nth_error_app1 in E; assumption.
  - right. rewrite nth_error_app2 in E by exact G.
    destruct (i - List.length h)%nat as [| k] eqn:D.
    + simpl in E. injection E as <-. split; [lia | reflexivity].
    + simpl in E. destruct k; discriminate.
Qed.





(** A session whose only probe is the test command, and two runs of it:
    3 of 4 tests pass, then 4 of 4. *)
Definition demo_halt : HaltConfig :=
  {| max_steps := 12; pass_threshold := 0.95; patience_no_improve := 3;
     min_steps := 1 |}.

Definition demo_session : SessionState :=
  create_session "s1" "/repo" None (Some "pytest") None None 120 None
    demo_halt 0.9 None CUMULATIVE.

Definition tests_report (out : string) : runner :=
  fun _ _ _ _ => {| ok := true; stdout := out; stderr := ""; exit_code := 0 |}.

Definition demo_runs : list runner :=
  [tests_report "3 passed, 1 failed"; tests_report "4 passed"].




(** *** The best benchmark time *)

Lemma run_perf_keeps_absent run s g g' :
  sg_best_perf g = None -> run_perf run s g = Returns g' ->
  sg_best_perf g' = None.
Proof.
  intros N. unfold run_perf.
  destruct (configured (perf_cmd (cfg s))) as [cmd |].
  - destruct (Parser.parse_performance_metric _) as [[pv |] | |];
      simpl; try discriminate.
    + rewrite N. intros [= <-]. reflexivity.
    + intros [= <-]. exact N.
  - intros [= <-]. exact N.
Qed.

Lemma run_tests_keeps_best run s g g' :
  run_tests run s g = Returns g' -> sg_best_perf g' = sg_best_perf g.
Proof.
  unfold run_tests. destruct (configured (test_cmd (cfg s))) as [cmd |].
  - destruct (Parser.parse_test_output _ _) as [ts | |];
      simpl; try discriminate.
    intros [= <-]. reflexivity.
  - intros [= <-]. reflexivity.
Qed.

Lemma run_data_quality_keeps_best run s g :
  sg_best_perf (run_data_quality run s g) = sg_best_perf g.
Proof.
  unfold run_data_quality.
  destruct (configured (data_quality_cmd (cfg s))); reflexivity.
Qed.

Lemma run_lint_keeps_best run s g :
  sg_best_perf (run_lint run s g) = sg_best_perf g.
Proof.
  unfold run_lint. destruct (configured (lint_cmd (cfg s))); reflexivity.
Qed.

(** An evaluation of a session without a recorded best time leaves it
    without one, whatever the benchmark printed. *)
Lemma best_perf_stays_absent run s s' r :
  best_perf s = None -> run_evaluation run s = Returns (s', r) ->
  best_perf s' = None.
Proof.
  intros N. unfold run_evaluation.
  destruct (run_tests run s _) as [g1 | |] eqn:T; simpl; try discriminate.
  destruct (run_perf run s _) as [g2 | |] eqn:P; simpl; try discriminate.
  intros [= E]. apply score_and_update_writes in E.
  destruct E as (_ & _ & _ & _ & B & _). rewrite B.
  apply (run_perf_keeps_absent _ _ _ _) with (2 := P).
  rewrite run_lint_keeps_best.
  rewrite (run_tests_keeps_best _ _ _ _ T).
  rewrite run_data_quality_keeps_best. exact N.
Qed.

Lemma best_perf_never_set runs s :
  best_perf s = None -> best_perf (submit_all runs s) = None.
Proof.
  revert s. induction runs as [| run runs IH]; intros s N; simpl.
  - exact N.
  - destruct (run_evaluation run s) as [[s' r] | |] eqn:E; apply IH.
    + exact (best_perf_stays_absent run s s' r N E).
    + exact N.
    + exact N.
Qed.

(** A new session whose only probe is a benchmark that prints [2 min]. *)
Definition bench_session : SessionState :=
  create_session "s1" "/repo" None None None (Some "bench") 120 None
    demo_halt 0.9 None CUMULATIVE.

Definition bench_prints (out : string) : runner :=
  fun _ _ _ _ => {| ok := true; stdout := out; stderr := ""; exit_code := 0 |}.

(** C1.  The first evaluation of a new session parses a benchmark time
    of 120 seconds and attaches it to the result, and the session's
    [best_perf] is still absent afterwards, although 120 is the least
    value observed; a second evaluation that measures 60 seconds leaves
    it absent as well. *)
Theorem best_perf_absent_after_measurements :
  (exists s' r,
      run_evaluation (bench_prints "2 min") bench_session = Returns (s', r)
      /\ perf r = Some {| value := 120; unit := Some "seconds" |}
      /\ best_perf s' = None)
  /\ best_perf (submit_all [bench_prints "2 min"; bench_prints "1 min"]
                  bench_session) = None.
Proof.
  split.
  - eexists. eexists. split; [vm_compute; reflexivity |].
    split; reflexivity.
  - apply best_perf_never_set. reflexivity.
Qed.

(** Where a best time is recorded, an evaluation never raises it, and it
    lowers it exactly to a parsed value that is smaller. *)
Lemma best_perf_non_increasing run s s' r best :
  best_perf s = Some best -> run_evaluation run s = Returns (s', r) ->
  exists best' : Q,
    best_perf s' = Some best' /\ best' <= best
    /\ (forall pv u, perf r = Some {| value := pv; unit := u |} ->
        best' == Qmin best pv).
Proof.
  intros B. unfold run_evaluation.
  destruct (run_tests run s _) as [g1 | |] eqn:T; simpl; try discriminate.
  destruct (run_perf run s _) as [g2 | |] eqn:P; simpl; try discriminate.
  intros [= E]. apply score_and_update_writes in E.
  destruct E as (_ & _ & _ & _ & Bs & Pr & _). rewrite Bs, Pr.
  assert (G : sg_best_perf (run_lint run s g1) = Some best).
  { rewrite run_lint_keeps_best, (run_tests_keeps_best _ _ _ _ T),
      run_data_quality_keeps_best. exact B. }
  assert (Gp : sg_perf (run_lint run s g1) = None).
  { unfold run_lint. destruct (configured (lint_cmd (cfg s))); simpl.
    - revert T. unfold run_tests.
      destruct (configured (test_cmd (cfg s))).
      + destruct (Parser.parse_test_output _ _); simpl; try discriminate.
        intros [= <-]. simpl.
        unfold run_data_quality.
        destruct (configured (data_quality_cmd (cfg s))); reflexivity.
      + intros [= <-]. unfold run_data_quality.
        destruct (configured (data_quality_cmd (cfg s))); reflexivity.
    - revert T. unfold run_tests.
      destruct (configured (test_cmd (cfg s))).
      + destruct (Parser.parse_test_output _ _); simpl; try discriminate.
        intros [= <-]. simpl.
        unfold run_data_quality.
        destruct (configured (data_quality_cmd (cfg s))); reflexivity.
      + intros [= <-]. unfold run_data_quality.
        destruct (configured (data_quality_cmd (cfg s))); reflexivity. }
  revert P. unfold run_perf.
  destruct (configured (perf_cmd (cfg s))) as [cmd |].
  - destruct (Parser.parse_performance_metric _) as [[pv |] | |];
      simpl; try discriminate.
    + rewrite G. destruct (Qle_bool best pv) eqn:L; simpl.
      * intros [= <-]. simpl. exists best. repeat split; [apply Qle_refl |].
        intros pv' u [= <- _]. apply Qle_bool_iff in L.
        symmetry. apply Q.min_l. exact L.
      * intros [= <-]. simpl. exists pv.
        assert (Lt : pv < best).
        { destruct (Qlt_le_dec pv best) as [X | X]; [exact X |].
          apply Qle_bool_iff in X. congruence. }
        repeat split; [apply Qlt_le_weak; exact Lt |].
        intros pv' u [= <- _]. symmetry. apply Q.min_r.
        apply Qlt_le_weak. exact Lt.
    + intros [= <-]. simpl. exists best. rewrite G.
      repeat split; [apply Qle_refl |]. intros pv u E. discriminate.
  - intros [= <-]. exists best. rewrite G, Gp.
    repeat split; [apply Qle_refl |]. intros pv u E. discriminate.
Qed.

End EvaluationFacts.

(** ** The availability probe *)

Module CommandFacts.

Import Command.

Definition no_whitespace (cmd : string) : Prop :=
  forallb (fun c => negb (PyStr.is_space c)) (PyStr.chars cmd) = true.

Lemma split_ws_aux_single (s cur : list ascii) :
  forallb (fun c => negb (PyStr.is_space c)) s = true ->
  (rev cur ++ s)%list <> [] ->
  PyStr.split_ws_aux cur s = [PyStr.of_chars (rev cur ++ s)].
Proof.
  revert cur. induction s as [| c s IH]; intros cur F N; simpl.
  - rewrite app_nil_r in *. destruct cur as [| x cur]; [contradiction |].
    reflexivity.
  - simpl in F. apply andb_true_iff in F. destruct F as [Fc Fs].
    apply negb_true_iff in Fc. rewrite Fc.
    rewrite (IH (c :: cur) Fs).
    + simpl. rewrite <- app_assoc. reflexivity.
    + simpl. rewrite <- app_assoc. simpl. intro E.
      apply app_eq_nil in E. destruct E as [_ E]. discriminate.
Qed.

Lemma first_token_whole (cmd : string) :
  no_whitespace cmd -> cmd <> "" -> first_token cmd = Some cmd.
Proof.
  intros F N. unfold first_token, PyStr.split_ws.
  rewrite (split_ws_aux_single (PyStr.chars cmd) [] F).
  - simpl. unfold PyStr.of_chars, PyStr.chars.
    rewrite string_of_list_ascii_of_string. reflexivity.
  - simpl. destruct cmd; [contradiction | discriminate].
Qed.

Lemma first_token_nonempty (cmd name : string) :
  first_token cmd = Some name -> cmd <> "".
Proof. intros E ->. discriminate. Qed.

(** C8 (as amended).  For a command string that contains a space
    character, or that contains no whitespace at all,
    [check_command_available] tests the first whitespace-delimited token
    and returns true exactly when [which] finds it (a call of [which] that
    times out or fails counts as not found).  A string without a space
    character is tested whole, and a string with a space but no token
    gives false. *)
Theorem check_command_available_first_token
    (which : which_oracle) (cmd : string) :
  (forall name : string,
      first_token cmd = Some name ->
      PyStr.contains " " cmd = true \/ no_whitespace cmd ->
      check_command_available which cmd = on_path which name)
  /\ (PyStr.contains " " cmd = false ->
      check_command_available which cmd = on_path which cmd)
  /\ (first_token cmd = None -> PyStr.contains " " cmd = true ->
      check_command_available which cmd = false).
Proof.
  unfold check_command_available, cmd_name, on_path, first_token.
  repeat split.
  - intros name T [S | W].
    + rewrite S. destruct (PyStr.split_ws cmd) as [| n ns]; [discriminate |].
      injection T as ->. reflexivity.
    + assert (E : first_token cmd = Some cmd).
      { apply first_token_whole; [exact W |].
        apply (first_token_nonempty cmd name). exact T. }
      unfold first_token in E.
      destruct (PyStr.split_ws cmd) as [| n ns]; [discriminate |].
      injection T as ->. injection E as ->.
      destruct (PyStr.contains " " cmd); reflexivity.
  - intros S. rewrite S. reflexivity.
  - intros T S. rewrite S.
    destruct (PyStr.split_ws cmd); [reflexivity | discriminate].
Qed.

(** An oracle for a machine where [pytest] is the one command on [PATH]. *)
Definition only_pytest : which_oracle :=
  fun name => if String.eqb name "pytest" then Completed 0 else Completed 1.

Lemma check_command_available_first_token_witness :
  check_command_available only_pytest "pytest -v tests/"
  = on_path only_pytest "pytest".
Proof.
  apply (check_command_available_first_token only_pytest "pytest -v tests/").
  - reflexivity.
  - left. reflexivity.
Defined.

Definition tab : string := String (ascii_of_N 9) "".

(** C8, the claim as stated fails: in [pytest<TAB>-v] the first
    whitespace-delimited token is [pytest], which is on [PATH], and the
    probe answers false, because without a space character it looks for
    the whole string. *)
Lemma check_command_available_tab_separated :
  first_token ("pytest" ++ tab ++ "-v") = Some "pytest"
  /\ on_path only_pytest "pytest" = true
  /\ check_command_available only_pytest ("pytest" ++ tab ++ "-v") = false.
Proof. repeat split. Qed.

End CommandFacts.

(** ** Parameter translation *)

Module TranslatorFacts.

Import Py ParamTranslator.

Definition not_none (v : pyval) : bool :=
  match v with PNone => false | _ => true end.

Lemma lookup_drop_none (d : dict) (k : string) :
  NoDup (map fst d) ->
  dict_lookup k (drop_none d)
  = match dict_lookup k d with
    | Some PNone => None
    | other => other
    end.
Proof.
  induction d as [| [k' v] d IH]; intros N; simpl.
  - reflexivity.
  - inversion N as [| ? ? Hin N' ]; subst.
    destruct (String.eqb k k') eqn:E.
    + apply String.eqb_eq in E. subst k'.
      destruct v; simpl; rewrite ?String.eqb_refl; try reflexivity.
      rewrite (IH N').
      assert (A : dict_lookup k d = None).
      { clear - Hin. induction d as [| [k2 v2] d IH]; simpl; [reflexivity |].
        destruct (String.eqb k k2) eqn:E2.
        - apply String.eqb_eq in E2. subst. exfalso. apply Hin. left.
          reflexivity.
        - apply IH. intro H. apply Hin. right. exact H. }
      rewrite A. reflexivity.
    + destruct v; simpl; rewrite ?E; apply (IH N').
Qed.

Lemma rename_nested_not_none (t : key_table) (v : pyval) :
  not_none (rename_nested t v) = not_none v.
Proof. destruct v; reflexivity. Qed.

Lemma filter_map_commute {A : Type} (p : A -> bool) (f : A -> A)
    (l : list A) :
  (forall x, p (f x) = p x) -> map f (filter p l) = filter p (map f l).
Proof.
  intro H. induction l as [| x l IH]; simpl; [reflexivity |].
  rewrite H. destruct (p x); simpl; rewrite IH; reflexivity.
Qed.

Lemma inverse_start_drop_none (d : dict) :
  inverse_start (drop_none d) = drop_none (inverse_start d).
Proof.
  unfold inverse_start, rename, drop_none.
  rewrite !filter_map_commute; [reflexivity | |].
  - intros [a b]. simpl.
    destruct (String.eqb a "weights"); simpl; [destruct b; reflexivity |].
    destruct (String.eqb a "halt"); simpl; destruct b; reflexivity.
  - intros [a b]. cbn [fst snd].
    destruct (short_of start_keys a); reflexivity.
Qed.

Lemma dict_get_present (d : dict) (k : string) (a b : pyval) :
  dict_mem k d = true -> dict_get d k a = dict_get d k b.
Proof.
  unfold dict_mem, dict_get. destruct (dict_lookup k d); [trivial |].
  discriminate.
Qed.

(** The dictionary [translated] just before the [None] values are
    removed, in the four ways the two optional blocks can run. *)
Definition scalars (args : dict) : dict :=
  [("repo_path", dict_get args "repo" PNone);
   ("data_quality_cmd", dict_get args "dataQual" PNone);
   ("test_cmd", dict_get args "test" PNone);
   ("lint_cmd", dict_get args "lint" PNone);
   ("perf_cmd", dict_get args "bench" PNone);
   ("timeout_sec", dict_get args "timeout" (PInt 120));
   ("z_notes", dict_get args "notes" PNone);
   ("ema_alpha", dict_get args "ema" (PFloat 0.9))].

Definition long_weights (w : dict) : pyval :=
  PDict [("data_quality", dict_get w "dataQual" (PFloat 0.3));
         ("test", dict_get w "test" (PFloat 0.4));
         ("lint", dict_get w "lint" (PFloat 0.1));
         ("perf", dict_get w "perf" (PFloat 0.2))].

Definition long_halt (h : dict) : pyval :=
  PDict [("max_steps", dict_get h "max" (PInt 12));
         ("pass_threshold", dict_get h "threshold" (PFloat 0.95));
         ("patience_no_improve", dict_get h "patience" (PInt 3));
         ("min_steps", dict_get h "min" (PInt 1))].

Definition before_filter (args : dict) : dict :=
  (scalars args
   ++ match dict_lookup "weights" args with
      | Some (PDict w) => [("weights", long_weights w)]
      | _ => []
      end
   ++ match dict_lookup "halt" args with
      | Some (PDict h) => [("halt", long_halt h)]
      | _ => []
      end)%list.

Lemma translate_start_returns (args t : dict) :
  _translate_start args = Returns t ->
  object_or_absent args "weights" /\ object_or_absent args "halt"
  /\ t = drop_none (before_filter args).
Proof.
  unfold _translate_start, before_filter, object_or_absent, scalars.
  destruct (dict_lookup "weights" args) as [w |];
    destruct (dict_lookup "halt" args) as [h |];
    try (destruct w; simpl; try discriminate);
    try (destruct h; simpl; try discriminate);
    intros [= <-]; repeat split.
Qed.

Lemma translate_start_total (args : dict) :
  object_or_absent args "weights" -> object_or_absent args "halt" ->
  _translate_start args = Returns (drop_none (before_filter args)).
Proof.
  unfold _translate_start, before_filter, object_or_absent, scalars.
  destruct (dict_lookup "weights" args) as [w |];
    destruct (dict_lookup "halt" args) as [h |];
    try (destruct w; simpl; try contradiction);
    try (destruct h; simpl; try contradiction);
    intros _ _; reflexivity.
Qed.

Lemma before_filter_keys (args : dict) :
  NoDup (map fst (inverse_start (before_filter args))).
Proof.
  unfold before_filter.
  destruct (dict_lookup "weights" args) as [[]|];
    destruct (dict_lookup "halt" args) as [[]|]; simpl;
    repeat (constructor;
            [simpl; intro H;
             repeat (destruct H as [H | H]; [discriminate |]); exact H |]);
    constructor.
Qed.

Lemma before_filter_long_keys (args : dict) :
  NoDup (map fst (before_filter args)).
Proof.
  unfold before_filter.
  destruct (dict_lookup "weights" args) as [[]|];
    destruct (dict_lookup "halt" args) as [[]|]; simpl;
    repeat (constructor;
            [simpl; intro H;
             repeat (destruct H as [H | H]; [discriminate |]); exact H |]);
    constructor.
Qed.

(** The value the round trip holds at a top-level key. *)
Lemma round_trip_lookup (args t : dict) (k : string) :
  _translate_start args = Returns t ->
  dict_lookup k (inverse_start t)
  = match dict_lookup k (inverse_start (before_filter args)) with
    | Some PNone => None
    | other => other
    end.
Proof.
  intro E. apply translate_start_returns in E. destruct E as (_ & _ & ->).
  rewrite inverse_start_drop_none.
  apply lookup_drop_none. apply before_filter_keys.
Qed.

Ltac each_key H :=
  simpl in H;
  repeat (destruct H as [H | H]; [subst |]); [.. | contradiction].

(** C9 (as amended).  For an argument object of [trm.start] in which
    [weights] and [halt], where given, are objects, translation succeeds, and
    translating and then mapping the long names back gives, at every known
    key the object holds (the eight top-level keys and the keys nested in
    [weights] and [halt]), the value the object held there.  For
    [trm.submit] the same holds at [sid] and [reason].  Values are read as
    [dict.get] reads them: a key that is absent and a key that holds
    [None] both read as [None]. *)
Theorem short_long_round_trip :
  (forall args : dict,
      object_or_absent args "weights" -> object_or_absent args "halt" ->
      exists t : dict, _translate_start args = Returns t)
  /\ (forall args t : dict,
         _translate_start args = Returns t ->
         (forall s : string,
             In s (map fst start_keys) -> dict_mem s args = true ->
             dict_get (inverse_start t) s PNone = dict_get args s PNone)
         /\ (forall (k : string) (w : dict),
                In k (map fst weights_keys) ->
                dict_lookup "weights" args = Some (PDict w) ->
                dict_mem k w = true ->
                nested_get (inverse_start t) "weights" k
                = nested_get args "weights" k)
         /\ (forall (k : string) (h : dict),
                In k (map fst halt_keys) ->
                dict_lookup "halt" args = Some (PDict h) ->
                dict_mem k h = true ->
                nested_get (inverse_start t) "halt" k
                = nested_get args "halt" k))
  /\ (forall (args : dict) (s : string),
         In s (map fst submit_keys) ->
         dict_get (inverse_submit (_translate_submit args)) s PNone
         = dict_get args s PNone).
Proof.
  split; [| split].
  - intros args W H. eexists. apply translate_start_total; assumption.
  - intros args t E. split; [| split].
    + intros s I M. unfold dict_get at 1.
      rewrite (round_trip_lookup args t s E).
      unfold before_filter.
      destruct (dict_lookup "weights" args) as [[]|];
        destruct (dict_lookup "halt" args) as [[]|];
        each_key I; simpl;
        try rewrite (dict_get_present args _ (PInt 120) PNone M);
        try rewrite (dict_get_present args _ (PFloat 0.9) PNone M);
        match goal with
        | |- context [dict_get args ?key PNone] =>
            destruct (dict_get args key PNone); reflexivity
        end.
    + intros k w I L M. unfold nested_get.
      rewrite (round_trip_lookup args t "weights" E).
      unfold before_filter. rewrite L.
      destruct (dict_lookup "halt" args) as [[]|];
        each_key I; revert M; unfold dict_mem; cbn; unfold dict_get;
        destruct (dict_lookup _ w); intro M; (reflexivity || discriminate).
    + intros k h I L M. unfold nested_get.
      rewrite (round_trip_lookup args t "halt" E).
      unfold before_filter. rewrite L.
      destruct (dict_lookup "weights" args) as [[]|];
        each_key I; revert M; unfold dict_mem; cbn; unfold dict_get;
        destruct (dict_lookup _ h); intro M; (reflexivity || discriminate).
  - intros args s I. each_key I; reflexivity.
Qed.

(** A request with every top-level key, two nested weights and one
    nested halt key. *)
Definition full_start : dict :=
  [("repo", PStr "."); ("dataQual", PStr "check"); ("test", PStr "pytest");
   ("lint", PStr "flake8"); ("bench", PStr "bench"); ("timeout", PInt 60);
   ("weights", PDict [("dataQual", PFloat 0.5); ("perf", PFloat 0.5)]);
   ("halt", PDict [("max", PInt 5)]); ("ema", PFloat 0.5);
   ("notes", PNone)].

Lemma short_long_round_trip_witness :
  exists t : dict,
    _translate_start full_start = Returns t
    /\ dict_get (inverse_start t) "timeout" PNone = PInt 60
    /\ dict_get (inverse_start t) "notes" PNone = PNone
    /\ nested_get (inverse_start t) "weights" "perf" = PFloat 0.5.
Proof.
  destruct short_long_round_trip as (_ & R & _).
  eexists. split; [reflexivity |].
  destruct (R full_start _ eq_refl) as (S & W & _).
  split; [| split].
  - apply (S "timeout"); [simpl; tauto | reflexivity].
  - apply (S "notes"); [simpl; tauto | reflexivity].
  - apply (W "perf" [("dataQual", PFloat 0.5); ("perf", PFloat 0.5)]);
      [simpl; tauto | reflexivity | reflexivity].
Defined.

(** C9, the claim as stated fails: the round trip is not the identity on
    the known keys.  An object that holds [repo] alone comes back with
    [timeout = 120] and [ema = 0.9]; an empty [halt] object comes back
    with its four defaults. *)
Lemma round_trip_adds_defaults :
  _translate_start [("repo", PStr ".")]
  = Returns [("repo_path", PStr "."); ("timeout_sec", PInt 120);
             ("ema_alpha", PFloat 0.9)]
  /\ inverse_start [("repo_path", PStr "."); ("timeout_sec", PInt 120);
                    ("ema_alpha", PFloat 0.9)]
     = [("repo", PStr "."); ("timeout", PInt 120); ("ema", PFloat 0.9)]
  /\ dict_get [("repo", PStr ".")] "timeout" PNone = PNone
  /\ (exists t : dict,
        _translate_start [("repo", PStr "."); ("halt", PDict [])] = Returns t
        /\ nested_get (inverse_start t) "halt" "max" = PInt 12
        /\ nested_get [("repo", PStr "."); ("halt", PDict [])] "halt" "max"
           = PNone).
Proof.
  split; [reflexivity |]. split; [reflexivity |]. split; [reflexivity |].
  eexists. split; [reflexivity |]. split; reflexivity.
Qed.

(** C10 (as amended).  For a start request whose [halt] object leaves out
    any of [max], [threshold], [patience] (required by the schema) or
    [min], and whose [weights], where given, is an object,
    translation returns, and the translated [halt] holds at each long
    name the value given, or the default where the key is left out:
    [max_steps = 12], [pass_threshold = 0.95], [patience_no_improve = 3],
    [min_steps = 1]. *)
Theorem halt_defaults_are_filled (args h : dict) :
  dict_lookup "halt" args = Some (PDict h) ->
  object_or_absent args "weights" ->
  exists (t th : dict),
    translate_params "trm.start" args = Returns t
    /\ dict_lookup "halt" t = Some (PDict th)
    /\ (dict_mem "max" h = false ->
        dict_lookup "max_steps" th = Some (PInt 12))
    /\ (dict_mem "threshold" h = false ->
        dict_lookup "pass_threshold" th = Some (PFloat 0.95))
    /\ (dict_mem "patience" h = false ->
        dict_lookup "patience_no_improve" th = Some (PInt 3))
    /\ (dict_mem "min" h = false ->
        dict_lookup "min_steps" th = Some (PInt 1))
    /\ (forall short long : string,
           In (short, long) halt_keys -> dict_mem short h = true ->
           dict_lookup long th = dict_lookup short h).
Proof.
  intros L W.
  assert (H : object_or_absent args "halt")
    by (unfold object_or_absent; rewrite L; exact I).
  exists (drop_none (before_filter args)).
  eexists.
  split; [| split].
  - unfold translate_params. simpl. apply translate_start_total; assumption.
  - rewrite (lookup_drop_none _ _ (before_filter_long_keys args)).
    unfold before_filter. rewrite L.
    destruct (dict_lookup "weights" args) as [[]|]; reflexivity.
  - assert (D : forall k d, dict_mem k h = false -> dict_get h k d = d).
    { intros k d M. unfold dict_mem, dict_get in *.
      destruct (dict_lookup k h); [discriminate | reflexivity]. }
    repeat split; try (intro M; simpl; rewrite (D _ _ M); reflexivity).
    intros short long I M.
    assert (G : forall d, Some (dict_get h short d) = dict_lookup short h).
    { intro d. unfold dict_mem, dict_get in *.
      destruct (dict_lookup short h); [reflexivity | discriminate]. }
    simpl in I.
    repeat (destruct I as [I | I];
            [injection I as E1 E2; subst; simpl; apply G |]).
    contradiction.
Qed.

(** A request that gives only [repo] and an empty [halt] object: none of
    the keys the schema requires inside [halt] is there. *)
(** C10, the claim as stated fails: a request whose [halt] object leaves
    out three keys and whose [weights] is null is rejected; the
    translation raises [AttributeError] at the [weights] block, before
    it reaches [halt]. *)
Lemma null_weights_reject_the_request :
  translate_params "trm.start"
    [("repo", PStr "."); ("weights", PNone);
     ("halt", PDict [("max", PInt 5)])]
  = Raises AttributeError.
Proof. reflexivity. Qed.

Lemma halt_defaults_are_filled_witness :
  forallb (fun k => negb (dict_mem k [])) halt_required = true
  /\ exists t th : dict,
       translate_params "trm.start" [("repo", PStr "."); ("halt", PDict [])]
       = Returns t
       /\ dict_lookup "halt" t = Some (PDict th)
       /\ dict_lookup "max_steps" th = Some (PInt 12)
       /\ dict_lookup "pass_threshold" th = Some (PFloat 0.95)
       /\ dict_lookup "patience_no_improve" th = Some (PInt 3)
       /\ dict_lookup "min_steps" th = Some (PInt 1).
Proof.
  split; [reflexivity |].
  destruct (halt_defaults_are_filled
              [("repo", PStr "."); ("halt", PDict [])] [] eq_refl I)
    as (t & th & E & Lh & M & T & P & N & _).
  exists t, th. repeat split; auto.
Defined.

End TranslatorFacts.

(** ** The read handler *)

Module ServerFacts.

Import Server.

Lemma walk_nil (links : nat) (fs : filesystem) (at_ : location) :
  walk links fs at_ [] = Found at_.
Proof. destruct links; reflexivity. Qed.

Lemma walk_cons (links : nat) (fs : filesystem) (at_ : location)
    (c : string) (cs : list string) :
  walk links fs at_ (c :: cs)
  = if is_dir fs at_
    then
      if String.eqb c ".." then walk links fs (removelast at_) cs
      else
        match fs (at_ ++ [c])%list with
        | Some (Link target) =>
            match links with
            | O => Missing
            | S links' =>
                walk links' fs (if rooted (Path target) then [] else at_)
                  (parts (Path target) ++ cs)%list
            end
        | Some Refused => Fails
        | Some Dir | Some (File _ _ _) | None =>
            walk links fs (at_ ++ [c])%list cs
        end
    else Missing.
Proof. destruct links; reflexivity. Qed.

(** A resolution that succeeds passes through what its first components
    resolve to. *)
Lemma walk_app (fs : filesystem) (cs2 : list string) (loc : location) :
  forall (links : nat) (cs1 : list string) (at_ : location),
    walk links fs at_ (cs1 ++ cs2) = Found loc ->
    exists (mid : location) (links' : nat),
      walk links fs at_ cs1 = Found mid
      /\ walk links' fs mid cs2 = Found loc.
Proof.
  assert (Step : forall links,
             (forall l, (l < links)%nat ->
                forall cs1 at_,
                  walk l fs at_ (cs1 ++ cs2) = Found loc ->
                  exists mid links',
                    walk l fs at_ cs1 = Found mid
                    /\ walk links' fs mid cs2 = Found loc) ->
             forall cs1 at_,
               walk links fs at_ (cs1 ++ cs2) = Found loc ->
               exists mid links',
                 walk links fs at_ cs1 = Found mid
                 /\ walk links' fs mid cs2 = Found loc).
  { intros links IHl cs1. induction cs1 as [| c cs1 IH]; intros at_ E.
    - exists at_, links. rewrite walk_nil. split; [reflexivity | exact E].
    - rewrite <- app_comm_cons in E. rewrite walk_cons in E.
      rewrite walk_cons.
      destruct (is_dir fs at_); [| discriminate E].
      destruct (String.eqb c ".."); [exact (IH _ E) |].
      destruct (fs (at_ ++ [c])%list) as [[| f a b | target |] |];
        try exact (IH _ E); try discriminate E.
      destruct links as [| l]; [discriminate E |].
      rewrite app_assoc in E. apply (IHl l); [lia | exact E]. }
  intro links. induction links as [links IHl] using lt_wf_ind.
  exact (Step links IHl).
Qed.

Lemma is_prefix_app (p l : location) : is_prefix p (p ++ l)%list = true.
Proof.
  induction p as [| a p IH]; simpl; [reflexivity |].
  rewrite String.eqb_refl. exact IH.
Qed.

(** Walking components none of which is [..], through no symbolic link,
    only descends. *)
Lemma walk_descends (links : nat) (fs : filesystem) (cs : list string)
    (at_ loc : location) :
  ~ In ".." cs -> link_free fs at_ cs ->
  walk links fs at_ cs = Found loc -> loc = (at_ ++ cs)%list.
Proof.
  revert at_. induction cs as [| c cs IH]; intros at_ N L E.
  - rewrite walk_nil in E. injection E as <-. rewrite app_nil_r.
    reflexivity.
  - rewrite walk_cons in E.
    destruct (is_dir fs at_); [| discriminate E].
    destruct (String.eqb c "..") eqn:D.
    { apply String.eqb_eq in D. exfalso. apply N. left. exact D. }
    assert (L' : link_free fs (at_ ++ [c])%list cs).
    { intros n t Hn. rewrite <- app_assoc. apply (L (S n) t). simpl. lia. }
    assert (N' : ~ In ".." cs) by (intro H; apply N; right; exact H).
    destruct (fs (at_ ++ [c])%list) as [[| f a b | target |] |] eqn:F;
      try discriminate E;
      try (rewrite (IH _ N' L' E), <- app_assoc; reflexivity).
    exfalso. apply (L 1%nat target); [simpl; lia | exact F].
Qed.

(** An entry is answered with content only from the file at the location
    that the joined path resolves to. *)
Lemma read_entry_content fs cwd repo path_str content n size mtime :
  read_entry fs cwd repo path_str = Returns (Content content n size mtime) ->
  exists loc : location,
    location_read fs cwd repo path_str = Some loc
    /\ resolve fs cwd (joinpath repo (Path path_str)) = Found loc
    /\ fs loc = Some (File (inl content) size mtime).
Proof.
  unfold read_entry, location_read.
  destruct (encodable (joinpath repo (Path path_str))); [| discriminate].
  destruct (resolve fs cwd (joinpath repo (Path path_str))) as [loc | |];
    try discriminate.
  destruct (fs loc) as [[| [c | e] sz mt | t |] |] eqn:F; try discriminate.
  intros [= <- _ <- <-]. exists loc. repeat split. exact F.
Qed.

(** C2 (as amended).  For every entry of [paths], content is returned
    only from the file that the join of [repo_path] and the entry
    resolves to, symbolic links followed; when the entry is a relative
    path without a [..] component and no location reached along it from
    the directory of the repository holds a symbolic link, that file lies
    under the directory the repository path resolves to. *)
Theorem read_stays_in_repo_for_plain_relative_paths
    (fs : filesystem) (cwd : location) (repo : PurePath)
    (path_str content : string) (n size : Z) (mtime : Q) :
  read_entry fs cwd repo path_str = Returns (Content content n size mtime) ->
  exists loc : location,
    location_read fs cwd repo path_str = Some loc
    /\ fs loc = Some (File (inl content) size mtime)
    /\ (rooted (Path path_str) = false ->
        ~ In ".." (parts (Path path_str)) ->
        exists base : location,
          resolve fs cwd repo = Found base
          /\ (link_free fs base (parts (Path path_str)) ->
              is_prefix base loc = true)).
Proof.
  intro E.
  destruct (read_entry_content _ _ _ _ _ _ _ _ E) as (loc & L & W & F).
  exists loc. split; [exact L |]. split; [exact F |].
  intros R N. unfold resolve, joinpath in W. rewrite R in W.
  cbn [rooted parts] in W. apply walk_app in W.
  destruct W as (base & links' & W1 & W2).
  exists base. split; [exact W1 |].
  intro LF. rewrite (walk_descends links' fs _ base loc N LF W2).
  apply is_prefix_app.
Qed.

(** A machine with a repository at [/repo] holding [README.md] and a
    symbolic link [etc] to the directory [/etc], and a password file at
    [/etc/passwd]. *)
Definition small_fs : filesystem :=
  fun loc =>
    match loc with
    | [] => Some Dir
    | ["repo"] => Some Dir
    | ["etc"] => Some Dir
    | ["repo"; "README.md"] => Some (File (inl "hello") 5 0)
    | ["repo"; "etc"] => Some (Link "/etc")
    | ["etc"; "passwd"] => Some (File (inl "root:x:0:0") 10 0)
    | _ => None
    end.

Definition repo_session : SessionState :=
  Sessions.create_session "s1" "/repo" None None None None 120 None
    EvaluationFacts.demo_halt 0.9 None CUMULATIVE.

Lemma read_stays_in_repo_for_plain_relative_paths_witness :
  exists loc : location,
    location_read small_fs [] (Path "/repo") "README.md" = Some loc
    /\ is_prefix ["repo"] loc = true.
Proof.
  destruct (read_stays_in_repo_for_plain_relative_paths
              small_fs [] (Path "/repo") "README.md" "hello" 1 5 0 eq_refl)
    as (loc & L & _ & U).
  exists loc. split; [exact L |].
  destruct U as (base & B & P).
  - reflexivity.
  - simpl. intros [H | []]. discriminate.
  - vm_compute in B. injection B as <-. apply P.
    intros n t Hn. simpl in Hn.
    assert (n = 1%nat) as -> by lia. discriminate.
Defined.

(** C2, the claim as stated fails: an absolute entry and an entry with
    [..] components are both answered with the content of
    [/etc/passwd], a file outside the repository [/repo]; so is a plain
    relative entry that passes through a symbolic link. *)
Lemma read_returns_file_outside_repo :
  handle_get_file_content [("s1", repo_session)] small_fs []
    "s1" ["/etc/passwd"; "../etc/passwd"; "etc/passwd"]
  = Returns
      (Files [("/etc/passwd", Content "root:x:0:0" 1 10 0);
              ("../etc/passwd", Content "root:x:0:0" 1 10 0);
              ("etc/passwd", Content "root:x:0:0" 1 10 0)])
  /\ location_read small_fs [] (Path "/repo") "/etc/passwd"
     = Some ["etc"; "passwd"]
  /\ location_read small_fs [] (Path "/repo") "../etc/passwd"
     = Some ["etc"; "passwd"]
  /\ location_read small_fs [] (Path "/repo") "etc/passwd"
     = Some ["etc"; "passwd"]
  /\ resolve small_fs [] (Path "/repo") = Found ["repo"]
  /\ is_prefix ["repo"] ["etc"; "passwd"] = false.
Proof. repeat split. Qed.

End ServerFacts.

(** ** Invariants of a session under submissions *)

Module SessionInvariants.

Import Evaluation Sessions HistorySpec.
Local Open Scope Q_scope.

(** Everything one completed evaluation writes, field by field. *)
Lemma update_fields s g s' r :
  score_and_update s g = (s', r) ->
  let improved := negb (Qle_bool (score r) (best_score s)) in
  (cfg s' = cfg s /\ id s' = id s /\ z_notes s' = z_notes s
   /\ mode s' = mode s /\ ema_alpha s' = ema_alpha s)
  /\ history s' = (history s ++ [r])%list
  /\ step r = (s_step s + 1)%Z
  /\ s_step s' = step r
  /\ best_score s' = (if improved then score r else best_score s)
  /\ no_improve_streak s'
     = (if improved then 0 else no_improve_streak s + 1)%Z
  /\ score r
     = Scoring.calculate_weighted_score (ok_data_quality r) (ok_lint r)
         (tests r) (perf r) (weights (cfg s)) (sg_best_perf g)
  /\ (should_halt r, reasons r)
     = Scoring.should_halt_iteration (step r) (score r) (ema_score r)
         (no_improve_streak s')
         (match tests r with Some t => (failed t =? 0)%Z | None => false end)
         (max_steps (halt (cfg s))) (pass_threshold (halt (cfg s)))
         (patience_no_improve (halt (cfg s))) (min_steps (halt (cfg s)))
  /\ (ok_data_quality r = sg_ok_data_quality g /\ ok_lint r = sg_ok_lint g
      /\ tests r = sg_tests g /\ perf r = sg_perf g
      /\ feedback r = sg_feedback g).
Proof.
  unfold score_and_update.
  destruct (Scoring.should_halt_iteration _ _ _ _ _ _ _ _ _) as [h rs] eqn:H.
  intros [= <- <-]. simpl. rewrite H. repeat split.
Qed.

(** Induction over the submissions of a session: a property of the
    starting state that every completed evaluation preserves holds at the
    end. *)
Lemma submit_all_preserves (P : SessionState -> Prop) :
  (forall s g s' r, P s -> score_and_update s g = (s', r) -> P s') ->
  forall runs s, P s -> P (submit_all runs s).
Proof.
  intros Step runs. induction runs as [| run runs IH]; intros s H; simpl.
  - exact H.
  - destruct (run_evaluation run s) as [[s' r] | |] eqn:E; apply IH;
      try exact H.
    apply EvaluationFacts.run_evaluation_returns in E. destruct E as [g E].
    exact (Step s g s' r H E).
Qed.

Lemma in_snoc {A : Type} (x r : A) (h : list A) :
  In x (h ++ [r]) -> In x h \/ x = r.
Proof.
  intro H. apply in_app_or in H. destruct H as [H | [H | []]].
  - left. exact H.
  - right. symmetry. exact H.
Qed.

(** X1.  After any sequence of submissions to a new session, [step]
    equals the length of the history, and the entry at position [i]
    (counting from 0) carries [step = i + 1]: the history has no gaps. *)
Theorem history_is_numbered
    (sid repo : string) (dq t l p : option string) (timeout : Z)
    (w : option WeightsConfig) (h : HaltConfig) (alpha : Q)
    (notes : option string) (m : SessionMode) (runs : list runner) :
  let s := submit_all runs
             (create_session sid repo dq t l p timeout w h alpha notes m) in
  s_step s = Z.of_nat (List.length (history s))
  /\ (forall (i : nat) (r : EvalResult),
         nth_error (history s) i = Some r -> step r = (Z.of_nat i + 1)%Z).
Proof.
  intro s. unfold s.
  apply (submit_all_preserves
           (fun s => s_step s = Z.of_nat (List.length (history s))
                     /\ forall i r, nth_error (history s) i = Some r ->
                                    step r = (Z.of_nat i + 1)%Z)).
  - intros s0 g s' r [L N] E. apply update_fields in E. cbv zeta in E.
    destruct E as (_ & Hh & Hr & Hs & _).
    split.
    + rewrite Hs, Hr, Hh, L, length_app. simpl. lia.
    + intros i x Ex. rewrite Hh in Ex.
      destruct (EvaluationFacts.nth_error_snoc_last _ _ _ _ Ex)
        as [[_ Ei] | [-> ->]].
      * exact (N i x Ei).
      * rewrite Hr, L. reflexivity.
  - simpl. split; [reflexivity |]. intros i r E. destruct i; discriminate.
Qed.

Lemma history_is_numbered_witness :
  exists r : EvalResult,
    nth_error (history (submit_all EvaluationFacts.demo_runs
                          EvaluationFacts.demo_session)) 1 = Some r
    /\ step r = 2%Z.
Proof.
  eexists. split; [vm_compute; reflexivity |].
  apply (proj2 (history_is_numbered "s1" "/repo" None (Some "pytest")
                  None None 120 None EvaluationFacts.demo_halt 0.9 None
                  CUMULATIVE EvaluationFacts.demo_runs) 1%nat).
  vm_compute. reflexivity.
Defined.







(** *** The no-improvement streak, read off the history *)





(** X4.  No submission changes the configuration of a session, its
    identifier, its smoothing factor, its notes or its mode. *)
Theorem submissions_keep_configuration
    (runs : list runner) (s : SessionState) :
  cfg (submit_all runs s) = cfg s
  /\ id (submit_all runs s) = id s
  /\ ema_alpha (submit_all runs s) = ema_alpha s
  /\ z_notes (submit_all runs s) = z_notes s
  /\ mode (submit_all runs s) = mode s.
Proof.
  apply (submit_all_preserves
           (fun x => cfg x = cfg s /\ id x = id s
                     /\ ema_alpha x = ema_alpha s
                     /\ z_notes x = z_notes s /\ mode x = mode s)).
  - intros s0 g s' r (C & I & A & Z & M) E.
    apply update_fields in E. cbv zeta in E.
    destruct E as ((C' & I' & Z' & M' & A') & _).
    repeat split; congruence.
  - repeat split.
Qed.

End SessionInvariants.

(** ** Halting decisions and score ranges along a history *)

Module HistoryFacts.

Import Evaluation Sessions SessionInvariants.
Local Open Scope Q_scope.

Lemma cfg_kept runs s : cfg (submit_all runs s) = cfg s.
Proof.
  apply (submit_all_preserves (fun x => cfg x = cfg s)); [| reflexivity].
  intros s0 g s' r C E. apply update_fields in E. cbv zeta in E.
  destruct E as ((C' & _) & _). congruence.
Qed.


Lemma halt_shape step sc ema k tp mx th pat mn b rs :
  Scoring.should_halt_iteration step sc ema k tp mx th pat mn = (b, rs) ->
  List.length rs = 1%nat
  /\ ((mx <= step)%Z -> b = true)
  /\ ((pat <= k)%Z -> b = true)
  /\ (b = false -> rs = [Scoring.Continue step mx sc ema]).
Proof.
  unfold Scoring.should_halt_iteration.
  destruct ((mn <=? step)%Z && tp && Qle_bool th sc)%bool.
  { intros [= <- <-]. repeat split; try reflexivity; discriminate. }
  destruct (pat <=? k)%Z eqn:P.
  { intros [= <- <-]. repeat split; try reflexivity; discriminate. }
  destruct (mx <=? step)%Z eqn:M.
  { intros [= <- <-]. repeat split; try reflexivity; discriminate. }
  intros [= <- <-]. apply Z.leb_gt in P, M.
  repeat split; try reflexivity; intro; lia.
Qed.

(** X5.  In every session, each recorded evaluation carries exactly one
    reason; an evaluation whose step has reached [max_steps] says
    [should_halt = true]; and one that says [should_halt = false] carries
    the continue message. *)
Theorem every_entry_has_one_reason_and_halts_at_limit
    (runs : list runner) (s0 : SessionState) :
  history s0 = [] ->
  forall r : EvalResult,
    In r (history (submit_all runs s0)) ->
    List.length (reasons r) = 1%nat
    /\ ((max_steps (halt (cfg s0)) <= step r)%Z -> should_halt r = true)
    /\ (should_halt r = false ->
        reasons r = [Scoring.Continue (step r) (max_steps (halt (cfg s0)))
                       (score r) (ema_score r)]).
Proof.
  intros H0.
  apply (submit_all_preserves
           (fun s => cfg s = cfg s0 /\
              forall r, In r (history s) ->
                List.length (reasons r) = 1%nat
                /\ ((max_steps (halt (cfg s0)) <= step r)%Z ->
                    should_halt r = true)
                /\ (should_halt r = false ->
                    reasons r
                    = [Scoring.Continue (step r) (max_steps (halt (cfg s0)))
                         (score r) (ema_score r)]))).
  - intros s g s' r [C A] E. apply update_fields in E. cbv zeta in E.
    destruct E as ((C' & _) & Hh & _ & _ & _ & _ & _ & Hd & _).
    split; [congruence |].
    intros x Hx. rewrite Hh in Hx.
    destruct (in_snoc _ _ _ Hx) as [I | ->]; [exact (A x I) |].
    symmetry in Hd. rewrite C in Hd.
    destruct (halt_shape _ _ _ _ _ _ _ _ _ _ _ Hd) as (L & M & _ & N).
    repeat split; assumption.
  - split; [reflexivity |]. rewrite H0. intros r [].
Qed.

Definition short_halt : HaltConfig :=
  {| max_steps := 2; pass_threshold := 0.95; patience_no_improve := 5;
     min_steps := 1 |}.

Definition short_session : SessionState :=
  create_session "s1" "/repo" None (Some "pytest") None None 120 None
    short_halt 0.9 None CUMULATIVE.

Definition failing_runs : list runner :=
  [EvaluationFacts.tests_report "1 passed, 3 failed";
   EvaluationFacts.tests_report "2 passed, 2 failed"].

Lemma every_entry_has_one_reason_and_halts_at_limit_witness :
  exists r : EvalResult,
    nth_error (history (submit_all failing_runs short_session)) 1 = Some r
    /\ step r = 2%Z /\ should_halt r = true.
Proof.
  eexists. split; [vm_compute; reflexivity |].
  split; [reflexivity |].
  apply (every_entry_has_one_reason_and_halts_at_limit
           failing_runs short_session eq_refl).
  - vm_compute. right. left. reflexivity.
  - vm_compute. discriminate.
Defined.

(** *** A session with no probe configured *)









(** X8.  Where a session has a best benchmark time recorded, submissions
    never raise it, and it stays recorded. *)
Theorem recorded_best_perf_never_rises
    (runs : list runner) (s : SessionState) (best : Q) :
  best_perf s = Some best ->
  exists best' : Q,
    best_perf (submit_all runs s) = Some best' /\ best' <= best.
Proof.
  revert s best. induction runs as [| run runs IH]; intros s best B; simpl.
  - exists best. split; [exact B | apply Qle_refl].
  - destruct (run_evaluation run s) as [[s' r] | |] eqn:E;
      try (apply IH; exact B).
    destruct (EvaluationFacts.best_perf_non_increasing run s s' r best B E)
      as (b1 & B1 & L1 & _).
    destruct (IH s' b1 B1) as (b2 & B2 & L2).
    exists b2. split; [exact B2 |]. apply Qle_trans with b1; assumption.
Qed.

(** A session restored with a best time of 100 seconds, then two
    benchmark runs of 120 and 60 seconds. *)
Definition restored_session : SessionState :=
  {| id := "s1"; cfg := cfg EvaluationFacts.bench_session; s_step := 0;
     best_score := 0; s_ema_score := 0; ema_alpha := 0.9;
     no_improve_streak := 0; history := []; z_notes := None;
     best_perf := Some 100; mode := CUMULATIVE |}.

Lemma recorded_best_perf_never_rises_witness :
  exists best' : Q,
    best_perf (submit_all [EvaluationFacts.bench_prints "2 min";
                           EvaluationFacts.bench_prints "1 min"]
                 restored_session) = Some best'
    /\ best' <= 100.
Proof.
  apply (recorded_best_perf_never_rises
           [EvaluationFacts.bench_prints "2 min";
            EvaluationFacts.bench_prints "1 min"] restored_session 100).
  reflexivity.
Defined.

End HistoryFacts.

(** ** The matcher against the language of an expression *)

Module RegexFacts.

Import Re ReSpec.

Section Sound.
Context {R : Type} (P : list ascii -> Prop).

Definition sound_at (r : regex) : Prop :=
  forall (c : cursor) (k : cursor -> option R) (x : R),
    run r c k = Some x ->
    exists (w : list ascii) (c' : cursor),
      lang r w
      /\ rest c = (w ++ rest c')%list
      /\ k c' = Some x
      /\ (group_ok P (group1 c) -> group_ok P (group1 c'))
      /\ (group1 c <> None \/ closes r = true -> group1 c' <> None).

Lemma star_loop_sound (r : regex) :
  sound_at r ->
  forall (fuel : nat) (c : cursor) (k : cursor -> option R) (x : R),
    star_loop (run r) fuel c k = Some x ->
    exists (w : list ascii) (c' : cursor),
      lang (RStar r) w
      /\ rest c = (w ++ rest c')%list
      /\ k c' = Some x
      /\ (group_ok P (group1 c) -> group_ok P (group1 c'))
      /\ (group1 c <> None -> group1 c' <> None).
Proof.
  intros IH fuel. induction fuel as [| fuel IHf]; intros c k x H; simpl in H.
  - exists [], c. repeat split; try assumption; try tauto. constructor.
  - unfold or_else in H.
    destruct (run r c _) as [y |] eqn:E.
    + injection H as ->.
      apply IH in E. destruct E as (u & c1 & Lu & Ru & K1 & G1 & N1).
      destruct (Nat.ltb _ _); [| discriminate].
      apply IHf in K1. destruct K1 as (v & c2 & Lv & Rv & K2 & G2 & N2).
      exists (u ++ v)%list, c2. repeat split.
      * constructor; assumption.
      * rewrite Ru, Rv, app_assoc. reflexivity.
      * exact K2.
      * tauto.
      * intro N. apply N2. apply N1. left. exact N.
    + exists [], c. repeat split; try assumption; try tauto. constructor.
Qed.

Lemma firstn_consumed (w t : list ascii) :
  firstn (List.length (w ++ t) - List.length t) (w ++ t) = w.
Proof.
  rewrite length_app, Nat.add_sub. rewrite firstn_app, Nat.sub_diag.
  simpl. rewrite app_nil_r. apply firstn_all.
Qed.

Lemma run_sound (r : regex) : groups_in P r -> sound_at r.
Proof.
  induction r as [p | | a IHa b IHb | r1 IH | r1 IH | r1 IH | |];
    intros G c k x H; simpl in H.
  - destruct (rest c) as [| y ys] eqn:Rc; [discriminate |].
    destruct (p y) eqn:Py; [| discriminate].
    exists [y], {| prev := Some y; rest := ys; group1 := group1 c |}.
    simpl. repeat split; try assumption; try tauto.
    + constructor. exact Py.
    + intros [N | F]; [exact N | discriminate].
  - exists [], c. repeat split; try assumption; try tauto.
    + constructor.
    + intros [N | F]; [exact N | discriminate].
  - destruct G as [Ga Gb].
    apply (IHa Ga) in H. destruct H as (u & c1 & Lu & Ru & K1 & G1 & N1).
    apply (IHb Gb) in K1. destruct K1 as (v & c2 & Lv & Rv & K2 & G2 & N2).
    exists (u ++ v)%list, c2. repeat split.
    + constructor; assumption.
    + rewrite Ru, Rv, app_assoc. reflexivity.
    + exact K2.
    + tauto.
    + simpl. intros [N | F].
      * apply N2. left. apply N1. left. exact N.
      * apply orb_true_iff in F. destruct F as [F | F].
        -- apply N2. left. apply N1. right. exact F.
        -- apply N2. right. exact F.
  - simpl in G. unfold or_else in H.
    destruct (run r1 c k) as [y |] eqn:E.
    + injection H as ->. apply (IH G) in E.
      destruct E as (u & c1 & Lu & Ru & K1 & G1 & N1).
      exists u, c1. repeat split; try assumption.
      * apply LOptSome. exact Lu.
      * simpl. intros [N | F]; [| discriminate]. apply N1. left. exact N.
    + exists [], c. repeat split; try assumption; try tauto.
      * constructor.
      * simpl. intros [N | F]; [exact N | discriminate].
  - simpl in G. apply (star_loop_sound r1 (IH G)) in H.
    destruct H as (w & c' & L & Rw & K & Gk & N).
    exists w, c'. repeat split; try assumption.
    simpl. intros [M | F]; [apply N; exact M | discriminate].
  - destruct G as [Gp G1].
    apply (IH G1) in H. destruct H as (w & c1 & L & Rw & K & _ & _).
    exists w,
      {| prev := prev c1; rest := rest c1;
         group1 := Some (firstn (List.length (rest c)
                                 - List.length (rest c1))%nat (rest c)) |}.
    repeat split.
    + constructor. exact L.
    + simpl. exact Rw.
    + exact K.
    + simpl. intros _. rewrite Rw, firstn_consumed. apply Gp. exact L.
    + simpl. intros _. discriminate.
  - exists [], c.
    assert (K : k c = Some x).
    { destruct (prev c) as [y |]; [| exact H].
      destruct (Ascii.eqb y newline); [exact H | discriminate]. }
    repeat split; try assumption; try tauto.
    + constructor.
    + intros [N | F]; [exact N | discriminate].
  - exists [], c.
    assert (K : k c = Some x).
    { destruct (rest c) as [| y ys]; [exact H |].
      destruct (Ascii.eqb y newline); [exact H | discriminate]. }
    repeat split; try assumption; try tauto.
    + constructor.
    + intros [N | F]; [exact N | discriminate].
Qed.

End Sound.

(** What [re.search] returns is the text of a group of a match that lies
    somewhere in the input. *)
Lemma search_at_sound (P : list ascii -> Prop) (r : regex) :
  groups_in P r -> closes r = true ->
  forall (s : list ascii) (p : option ascii) (g : list ascii),
    search_at r p s = Some g ->
    P g /\ exists pre w post, s = (pre ++ w ++ post)%list /\ lang r w.
Proof.
  intros G C s. induction s as [| y s IH]; intros p g H; simpl in H.
  - destruct (run r _ _) as [g' |] eqn:E; [| discriminate].
    injection H as ->.
    apply (run_sound P r G) in E.
    destruct E as (w & c' & L & Rw & K & Gk & N). simpl in *.
    destruct (group1 c') as [g0 |] eqn:Gc;
      [| exfalso; apply N; [right; exact C | reflexivity]].
    injection K as ->. split; [exact (Gk I) |].
    exists [], w, (rest c'). split; [exact Rw | exact L].
  - destruct (run r _ _) as [g' |] eqn:E.
    + injection H as ->.
      apply (run_sound P r G) in E.
      destruct E as (w & c' & L & Rw & K & Gk & N). simpl in *.
      destruct (group1 c') as [g0 |] eqn:Gc;
        [| exfalso; apply N; [right; exact C | reflexivity]].
      injection K as ->. split; [exact (Gk I) |].
      exists [], w, (rest c'). split; [exact Rw | exact L].
    + apply IH in H. destruct H as (Pg & pre & w & post & E1 & L).
      split; [exact Pg |].
      exists (y :: pre), w, post. split; [rewrite E1; reflexivity | exact L].
Qed.

Lemma search_sound (P : list ascii -> Prop) (r : regex) (s : string)
    (g : list ascii) :
  groups_in P r -> closes r = true -> search r s = Some g ->
  P g /\ exists pre w post,
           PyStr.chars s = (pre ++ w ++ post)%list /\ lang r w.
Proof.
  intros G C H. exact (search_at_sound P r G C _ _ _ H).
Qed.

(** *** The languages of the pieces the patterns are built from *)

Lemma lang_star_class (p : ascii -> bool) (w : list ascii) :
  lang (RStar (RAny p)) w -> Forall (fun c => p c = true) w.
Proof.
  intro H. remember (RStar (RAny p)) as r eqn:E.
  induction H; try discriminate.
  - constructor.
  - injection E as ->. inversion H; subst. simpl.
    constructor; [assumption |]. apply IHlang2. reflexivity.
Qed.

Lemma lang_seq_inv (a b : regex) (w : list ascii) :
  lang (RSeq a b) w ->
  exists u v, w = (u ++ v)%list /\ lang a u /\ lang b v.
Proof. intro H. inversion H; subst. eauto. Qed.

Lemma lang_any_inv (p : ascii -> bool) (w : list ascii) :
  lang (RAny p) w -> exists x, w = [x] /\ p x = true.
Proof. intro H. inversion H; subst. eauto. Qed.

Lemma lang_opt_inv (r : regex) (w : list ascii) :
  lang (ROpt r) w -> w = [] \/ lang r w.
Proof. intro H. inversion H; subst; auto. Qed.

Lemma lang_group_inv (r : regex) (w : list ascii) :
  lang (RGroup r) w -> lang r w.
Proof. intro H. inversion H; subst. assumption. Qed.

Lemma lang_eps_inv (w : list ascii) : lang REps w -> w = [].
Proof. intro H. inversion H. reflexivity. Qed.

Lemma lang_digits (w : list ascii) : lang (RPlus digit) w -> digits w.
Proof.
  intro H. apply lang_seq_inv in H. destruct H as (u & v & -> & Hu & Hv).
  apply lang_any_inv in Hu. destruct Hu as (x & -> & Px).
  apply lang_star_class in Hv.
  split; [discriminate |]. simpl. constructor; assumption.
Qed.

Lemma lower_is_point (x : ascii) :
  Ascii.eqb (PyStr.lower_char x) (PyStr.lower_char ".") = true ->
  x = "."%char.
Proof.
  destruct x as [[] [] [] [] [] [] [] []]; vm_compute; intro H;
    first [reflexivity | discriminate].
Qed.

Lemma lang_number (w : list ascii) : lang Parser.re_number w -> number_text w.
Proof.
  intro H. apply lang_seq_inv in H. destruct H as (u & v & -> & Hu & Hv).
  apply lang_digits in Hu. exists u. split; [exact Hu |].
  apply lang_opt_inv in Hv. destruct Hv as [-> | Hv].
  - left. rewrite app_nil_r. reflexivity.
  - right. apply lang_seq_inv in Hv. destruct Hv as (d & f & -> & Hd & Hf).
    apply lang_digits in Hf. apply lang_any_inv in Hd.
    destruct Hd as (x & -> & Px). apply lower_is_point in Px. subst.
    exists f. split; [exact Hf | reflexivity].
Qed.

End RegexFacts.

(** ** What the parsers return on text output *)

Module ParserMore.

Import Re ReSpec RegexFacts Parser.

Lemma digit_val_range (c : ascii) :
  PyStr.is_digit c = true -> (0 <= PyStr.digit_val c <= 9)%Z.
Proof.
  unfold PyStr.is_digit, PyStr.in_range, PyStr.digit_val.
  intro H. apply andb_true_iff in H. destruct H as [A B].
  apply N.leb_le in A, B. lia.
Qed.

Lemma int_of_digits_nonneg (w : list ascii) :
  Forall (fun c => PyStr.is_digit c = true) w ->
  (0 <= PyStr.int_of_digits w)%Z.
Proof.
  unfold PyStr.int_of_digits.
  assert (G : forall acc, (0 <= acc)%Z ->
              Forall (fun c => PyStr.is_digit c = true) w ->
              (0 <= fold_left (fun a c => 10 * a + PyStr.digit_val c) w acc)%Z).
  { induction w as [| c w IH]; intros acc A F; cbn [fold_left];
      [exact A |].
    inversion F as [| ? ? Hc Hw]; subst. apply IH; [| exact Hw].
    pose proof (digit_val_range c Hc). lia. }
  apply G. lia.
Qed.

Lemma count_groups :
  groups_in digits re_passed /\ groups_in digits re_failed
  /\ groups_in digits re_ran /\ groups_in digits re_failures
  /\ groups_in digits re_errors.
Proof.
  unfold re_passed, re_failed, re_ran, re_failures, re_errors.
  simpl.
  repeat match goal with
         | |- _ /\ _ => split
         | |- True => exact I
         | |- forall w, lang _ w -> _ => exact lang_digits
         end.
Qed.

Lemma searched_count_nonneg (r : regex) (output : string) (g : list ascii) :
  groups_in digits r -> closes r = true -> search r output = Some g ->
  (0 <= PyStr.int_of_digits g)%Z.
Proof.
  intros G C H. destruct (search_sound digits r output g G C H) as [[_ D] _].
  apply int_of_digits_nonneg. exact D.
Qed.

(** X12.  On output of at most 4300 characters (so that no run of
    digits exceeds what [int] converts) that [json.loads] rejects with
    [JSONDecodeError], the pytest parser returns (it does not raise), and
    a record it returns has [passed >= 0], [failed >= 0] and
    [total = passed + failed]. *)
Theorem pytest_text_counts_are_consistent (output : string) :
  (String.length output <= PyStr.max_str_digits)%nat ->
  Json.loads output = Raises JSONDecodeError ->
  exists r : option TestResults,
    parse_test_output output "pytest" = Returns r
    /\ forall t, r = Some t ->
         (0 <= passed t /\ 0 <= failed t /\ total t = passed t + failed t)%Z.
Proof.
  intros _ E. unfold parse_test_output. simpl.
  unfold parse_pytest_output, pytest_json. rewrite E. simpl.
  destruct count_groups as (Gp & Gf & _).
  destruct (search re_passed output) as [gp |] eqn:Sp;
    destruct (search re_failed output) as [gf |] eqn:Sf.
  - eexists. split; [reflexivity |]. intros t [= <-]. simpl.
    pose proof (searched_count_nonneg _ _ _ Gp eq_refl Sp).
    pose proof (searched_count_nonneg _ _ _ Gf eq_refl Sf). lia.
  - eexists. split; [reflexivity |]. intros t [= <-]. simpl.
    pose proof (searched_count_nonneg _ _ _ Gp eq_refl Sp). lia.
  - eexists. split; [reflexivity |]. intros t [= <-]. simpl.
    pose proof (searched_count_nonneg _ _ _ Gf eq_refl Sf). lia.
  - destruct (PyStr.contains "no tests ran" (PyStr.lower output)
              || PyStr.contains "no tests collected" (PyStr.lower output))%bool.
    + eexists. split; [reflexivity |]. intros t [= <-]. simpl. lia.
    + eexists. split; [reflexivity |]. intros t [=].
Qed.

Lemma pytest_text_counts_are_consistent_witness :
  exists r : option TestResults,
    parse_test_output "==== 12 passed, 3 failed in 0.5s ====" "pytest"
    = Returns r
    /\ forall t, r = Some t ->
         (0 <= passed t /\ 0 <= failed t /\ total t = passed t + failed t)%Z.
Proof.
  apply (pytest_text_counts_are_consistent
           "==== 12 passed, 3 failed in 0.5s ====").
  - apply Nat.leb_le. vm_compute. reflexivity.
  - vm_compute. reflexivity.
Defined.

(** X13.  A record returned by the unittest parser has
    [passed + failed = total], with [total >= 0] and [failed >= 0]. *)
Theorem unittest_counts_add_up (output : string) (t : TestResults) :
  parse_unittest_output output = Some t ->
  (passed t + failed t = total t /\ 0 <= total t /\ 0 <= failed t)%Z.
Proof.
  unfold parse_unittest_output.
  destruct count_groups as (_ & _ & Gr & Gf & Ge).
  destruct (search re_ran output) as [g |] eqn:Sr; [| discriminate].
  pose proof (searched_count_nonneg _ _ _ Gr eq_refl Sr) as T.
  destruct (is_some (search re_ok output)).
  { intros [= <-]. simpl. lia. }
  destruct (search re_failures output) as [fg |] eqn:Sf.
  { pose proof (searched_count_nonneg _ _ _ Gf eq_refl Sf).
    intros [= <-]. simpl. lia. }
  destruct (search re_errors output) as [eg |] eqn:Se.
  { pose proof (searched_count_nonneg _ _ _ Ge eq_refl Se).
    intros [= <-]. simpl. lia. }
  destruct (PyStr.contains "OK" output); [| discriminate].
  intros [= <-]. simpl. lia.
Qed.

Definition newline_string : string := String newline "".

Lemma unittest_counts_add_up_witness :
  exists t : TestResults,
    parse_unittest_output
      ("Ran 5 tests in 0.002s" ++ newline_string ++ "FAILED (failures=2)")
    = Some t
    /\ (passed t + failed t = total t)%Z.
Proof.
  eexists. split; [vm_compute; reflexivity |].
  apply (unittest_counts_add_up
           ("Ran 5 tests in 0.002s" ++ newline_string
            ++ "FAILED (failures=2)")).
  vm_compute. reflexivity.
Defined.

(** *** Benchmark values *)

Lemma span_all (p : ascii -> bool) (l : list ascii) :
  Forall (fun c => p c = true) l -> Py.span p l = (l, []).
Proof.
  induction 1 as [| c l H _ IH]; simpl; [reflexivity |].
  rewrite H, IH. reflexivity.
Qed.

Lemma span_until (p : ascii -> bool) (l : list ascii) (c : ascii)
    (t : list ascii) :
  Forall (fun x => p x = true) l -> p c = false ->
  Py.span p (l ++ c :: t) = (l, c :: t).
Proof.
  intros F N. induction F as [| x l H _ IH]; simpl.
  - rewrite N. reflexivity.
  - rewrite H, IH. reflexivity.
Qed.

Lemma digit_not_space (c : ascii) :
  PyStr.is_digit c = true -> PyStr.is_space c = false.
Proof.
  unfold PyStr.is_digit, PyStr.is_space, PyStr.in_range.
  intro H. apply andb_true_iff in H. destruct H as [A B].
  apply N.leb_le in A, B.
  repeat (apply orb_false_iff; split);
    try (apply andb_false_iff);
    try (right; apply N.leb_gt; lia);
    try (left; apply N.leb_gt; lia);
    try (apply N.eqb_neq; lia).
Qed.

Lemma strip_number (w : list ascii) : number_text w -> Py.strip w = w.
Proof.
  intros (ds & [Nd Fd] & Shape).
  assert (Head : exists a m, w = a :: m /\ PyStr.is_space a = false).
  { destruct ds as [| a ds']; [contradiction |].
    inversion Fd; subst.
    exists a. destruct Shape as [-> | (fs & _ & ->)]; eexists;
      (split; [reflexivity | apply digit_not_space; assumption]). }
  assert (Last : exists m z, w = (m ++ [z])%list /\ PyStr.is_space z = false).
  { destruct Shape as [-> | (fs & [Nf Ff] & ->)].
    - destruct (exists_last Nd) as (m & z & ->).
      exists m, z. split; [reflexivity |].
      apply Forall_app in Fd. destruct Fd as [_ Fz]. inversion Fz; subst.
      apply digit_not_space. assumption.
    - destruct (exists_last Nf) as (m & z & ->).
      exists (ds ++ "."%char :: m)%list, z.
      split; [rewrite <- app_assoc; reflexivity |].
      apply Forall_app in Ff. destruct Ff as [_ Fz]. inversion Fz; subst.
      apply digit_not_space. assumption. }
  unfold Py.strip.
  destruct Head as (a & m & Ew & Sa).
  assert (S1 : Py.span PyStr.is_space w = ([], w)).
  { rewrite Ew. simpl. rewrite Sa. reflexivity. }
  rewrite S1. simpl.
  destruct Last as (m' & z & Ew' & Sz).
  assert (S2 : Py.span PyStr.is_space (rev w) = ([], rev w)).
  { rewrite Ew', rev_app_distr. simpl. rewrite Sz. reflexivity. }
  rewrite S2. simpl. apply rev_involutive.
Qed.

Lemma decimal_nonneg (ip fp : list ascii) :
  Forall (fun c => PyStr.is_digit c = true) (ip ++ fp) ->
  (0 <= Py.decimal ip fp)%Q.
Proof.
  intro F. unfold Py.decimal, Qle. simpl.
  pose proof (int_of_digits_nonneg _ F). lia.
Qed.

Lemma digit_not_sign (c : ascii) :
  PyStr.is_digit c = true ->
  Ascii.eqb c "-" = false /\ Ascii.eqb c "+" = false
  /\ Ascii.eqb c "." = false.
Proof.
  intro H. repeat split;
    match goal with
    | |- Ascii.eqb c ?x = false =>
        destruct (Ascii.eqb_spec c x) as [-> |]; [discriminate | reflexivity]
    end.
Qed.

(** [float(...)] of a matched number returns a value that is not
    negative. *)
Lemma float_of_number (w : list ascii) :
  number_text w ->
  exists q : Q,
    Py.float_of_string (PyStr.of_chars w) = Returns q /\ (0 <= q)%Q.
Proof.
  intro N. pose proof (strip_number w N) as St.
  destruct N as (ds & [Nd Fd] & Shape).
  unfold Py.float_of_string, PyStr.of_chars, PyStr.chars.
  rewrite list_ascii_of_string_of_list_ascii, St.
  destruct ds as [| a ds']; [contradiction |].
  assert (Da : PyStr.is_digit a = true) by (inversion Fd; assumption).
  destruct (digit_not_sign a Da) as (M & Pl & _).
  destruct Shape as [-> | (fs & [Nf Ff] & ->)].
  - rewrite M, Pl. unfold Py.float_of_unsigned.
    rewrite (span_all _ _ Fd).
    eexists. split; [reflexivity |].
    apply decimal_nonneg. rewrite app_nil_r. exact Fd.
  - simpl. rewrite M, Pl. unfold Py.float_of_unsigned.
    change (a :: (ds' ++ "."%char :: fs)%list)
      with ((a :: ds') ++ "."%char :: fs)%list.
    rewrite (span_until PyStr.is_digit (a :: ds') "." fs Fd eq_refl).
    simpl. rewrite (span_all _ _ Ff).
    destruct fs as [| f fs']; [contradiction |].
    eexists. split; [reflexivity |].
    apply decimal_nonneg. apply Forall_app. split; assumption.
Qed.

Lemma unit_groups :
  Forall (fun pm => groups_in number_text (fst pm)
                    /\ closes (fst pm) = true /\ (0 <= snd pm)%Q) patterns
  /\ groups_in number_text re_standalone.
Proof.
  unfold patterns, re_ms, re_seconds, re_minutes, re_standalone.
  split.
  - repeat constructor; simpl;
      repeat match goal with
             | |- _ /\ _ => split
             | |- True => exact I
             | |- forall w, lang _ w -> _ => exact lang_number
             end;
      first [reflexivity | discriminate].
  - simpl.
    repeat match goal with
           | |- _ /\ _ => split
           | |- True => exact I
           | |- forall w, lang _ w -> _ => exact lang_number
           end.
Qed.

Lemma first_pattern_sound (ps : list (regex * Q)) (output : string)
    (g : list ascii) (m : Q) :
  Forall (fun pm => groups_in number_text (fst pm)
                    /\ closes (fst pm) = true /\ (0 <= snd pm)%Q) ps ->
  first_pattern ps output = Some (g, m) ->
  number_text g /\ (0 <= m)%Q.
Proof.
  induction 1 as [| [r q] ps (G & C & Pq) _ IH]; simpl; [discriminate |].
  destruct (search r output) as [g' |] eqn:S.
  - intros [= <- <-]. split; [| exact Pq].
    exact (proj1 (search_sound number_text r output g' G C S)).
  - exact IH.
Qed.

Lemma perf_text_branch (output : string) :
  Json.loads output = Raises JSONDecodeError ->
  parse_performance_metric output
  = match first_pattern patterns output with
    | Some (g, multiplier) =>
        obind (Py.float_of_string (PyStr.of_chars g))
              (fun value => Returns (Some (value * multiplier)%Q))
    | None =>
        match search re_standalone output with
        | Some g =>
            obind (Py.float_of_string (PyStr.of_chars g))
                  (fun value => Returns (Some value))
        | None => Returns None
        end
    end.
Proof.
  intro E. unfold parse_performance_metric, perf_json. rewrite E.
  reflexivity.
Qed.

(** X14.  On output that is not a JSON document, the benchmark parser
    returns (it does not raise), and a value it returns is not
    negative. *)
Theorem perf_text_value_is_nonnegative (output : string) :
  Json.loads output = Raises JSONDecodeError ->
  exists r : option Q,
    parse_performance_metric output = Returns r
    /\ forall v, r = Some v -> (0 <= v)%Q.
Proof.
  intro E. rewrite (perf_text_branch output E).
  destruct unit_groups as [Gs Ga].
  destruct (first_pattern patterns output) as [[g m] |] eqn:F.
  - destruct (first_pattern_sound _ _ _ _ Gs F) as [N Pm].
    destruct (float_of_number g N) as (q & Eq & Pq).
    rewrite Eq. simpl. eexists. split; [reflexivity |].
    intros v [= <-]. apply Qmult_le_0_compat; assumption.
  - destruct (search re_standalone output) as [g |] eqn:S.
    + destruct (search_sound number_text _ _ _ Ga eq_refl S) as [N _].
      destruct (float_of_number g N) as (q & Eq & Pq).
      rewrite Eq. simpl. eexists. split; [reflexivity |].
      intros v [= <-]. exact Pq.
    + eexists. split; [reflexivity |]. intros v [=].
Qed.

Lemma perf_text_value_is_nonnegative_witness :
  exists r : option Q,
    parse_performance_metric "elapsed: 250 ms" = Returns r
    /\ forall v, r = Some v -> (0 <= v)%Q.
Proof.
  apply (perf_text_value_is_nonnegative "elapsed: 250 ms").
  vm_compute. reflexivity.
Defined.

(** *** The patterns written with a doubled backslash *)

Definition backslash : ascii := ascii_of_N 92.

Lemma lower_is_backslash (x : ascii) :
  Ascii.eqb (PyStr.lower_char x) (PyStr.lower_char backslash) = true ->
  x = backslash.
Proof.
  destruct x as [[] [] [] [] [] [] [] []]; vm_compute; intro H;
    first [reflexivity | discriminate].
Qed.

Lemma lang_seconds_has_backslash (w : list ascii) :
  lang re_seconds w -> In backslash w.
Proof.
  unfold re_seconds. intro H.
  apply lang_seq_inv in H. destruct H as (u1 & v1 & -> & _ & H).
  apply lang_seq_inv in H. destruct H as (u2 & v2 & -> & _ & H).
  apply lang_seq_inv in H. destruct H as (u3 & v3 & -> & _ & H).
  apply lang_seq_inv in H. destruct H as (u4 & v4 & -> & _ & H).
  simpl in H.
  apply lang_seq_inv in H. destruct H as (u5 & v5 & -> & H & _).
  apply lang_any_inv in H. destruct H as (x & -> & Px).
  apply lower_is_backslash in Px. subst.
  do 4 (apply in_or_app; right).
  apply in_or_app. left. left. reflexivity.
Qed.

Lemma lang_ok_has_backslash (w : list ascii) :
  lang re_ok w -> In backslash w.
Proof.
  unfold re_ok. simpl. intro H.
  apply lang_seq_inv in H. destruct H as (u & v & -> & H & _).
  apply lang_any_inv in H. destruct H as (x & -> & Px).
  apply Ascii.eqb_eq in Px. subst. left. reflexivity.
Qed.

(** [re.search] without a group: whether there is a match at all. *)
Lemma search_at_match (r : regex) (s : list ascii) (p : option ascii)
    (g : list ascii) :
  search_at r p s = Some g ->
  exists pre w post, s = (pre ++ w ++ post)%list /\ lang r w.
Proof.
  revert p g. induction s as [| y s IH]; intros p g H; simpl in H.
  - destruct (run r _ _) as [g' |] eqn:E; [| discriminate].
    apply (run_sound (fun _ => True) r) in E.
    + destruct E as (w & c' & L & Rw & _). simpl in Rw.
      exists [], w, (rest c'). split; [exact Rw | exact L].
    + clear. induction r; simpl; auto.
  - destruct (run r _ _) as [g' |] eqn:E.
    + apply (run_sound (fun _ => True) r) in E.
      * destruct E as (w & c' & L & Rw & _). simpl in Rw.
        exists [], w, (rest c'). split; [exact Rw | exact L].
      * clear. induction r; simpl; auto.
    + apply IH in H. destruct H as (pre & w & post & E1 & L).
      exists (y :: pre), w, post. split; [rewrite E1; reflexivity | exact L].
Qed.

(** X15.  On output that contains no backslash character the seconds
    pattern of the benchmark parser and the word-boundary [OK] pattern of
    the unittest parser never match: both are written with a doubled
    backslash and ask for a literal backslash. *)
Theorem doubled_backslash_patterns_need_a_backslash (output : string) :
  ~ In backslash (PyStr.chars output) ->
  search re_seconds output = None /\ search re_ok output = None.
Proof.
  intro N. split.
  - destruct (search re_seconds output) as [g |] eqn:S; [| reflexivity].
    exfalso. apply N.
    destruct (search_at_match _ _ _ _ S) as (pre & w & post & E & L).
    unfold PyStr.chars in *. rewrite E.
    apply in_or_app. right. apply in_or_app. left.
    apply lang_seconds_has_backslash. exact L.
  - destruct (search re_ok output) as [g |] eqn:S; [| reflexivity].
    exfalso. apply N.
    destruct (search_at_match _ _ _ _ S) as (pre & w & post & E & L).
    unfold PyStr.chars in *. rewrite E.
    apply in_or_app. right. apply in_or_app. left.
    apply lang_ok_has_backslash. exact L.
Qed.

Lemma doubled_backslash_patterns_need_a_backslash_witness :
  search re_seconds "took 0.5 seconds" = None.
Proof.
  apply (doubled_backslash_patterns_need_a_backslash "took 0.5 seconds").
  vm_compute. intro H.
  repeat (destruct H as [H | H]; [discriminate |]). exact H.
Defined.

End ParserMore.

(** * The runner and the preflight checks *)

Module PreflightFacts.

Import Evaluation Command Preflight Runner.
Local Open Scope outcome_scope.

(** ** [run_command] under [run_evaluation] *)

Lemma run_command_ok (h : host) (cmd cwd : string) (timeout_sec : Z) :
  ok (run_command h cmd cwd timeout_sec)
  = (exit_code (run_command h cmd cwd timeout_sec) =? 0)%Z.
Proof.
  unfold run_command.
  destruct (negb (dir_exists h (resolve_dir h cwd))); [reflexivity |].
  destruct (spawn h cmd (resolve_dir h cwd) timeout_sec); reflexivity.
Qed.

Lemma run_tests_keeps_flags run s g g' :
  run_tests run s g = Returns g' ->
  sg_ok_data_quality g' = sg_ok_data_quality g
  /\ sg_ok_lint g' = sg_ok_lint g.
Proof.
  unfold run_tests. destruct (configured (test_cmd (cfg s))).
  - destruct (Parser.parse_test_output _ _); simpl; try discriminate.
    intros [= <-]. split; reflexivity.
  - intros [= <-]. split; reflexivity.
Qed.

Lemma run_perf_keeps_flags run s g g' :
  run_perf run s g = Returns g' ->
  sg_ok_data_quality g' = sg_ok_data_quality g
  /\ sg_ok_lint g' = sg_ok_lint g.
Proof.
  unfold run_perf. destruct (configured (perf_cmd (cfg s))).
  - destruct (Parser.parse_performance_metric _) as [[pv |] | |]; simpl;
      try discriminate.
    + destruct (sg_best_perf g) as [best |].
      * destruct (negb (Qle_bool best pv)); intros [= <-]; split; reflexivity.
      * intros [= <-]. split; reflexivity.
    + intros [= <-]. split; reflexivity.
  - intros [= <-]. split; reflexivity.
Qed.

(** X16.  With [run_command] as the runner, an evaluation that completes
    records a data-quality or lint check as passed exactly when the
    command of that check ended with exit code 0; a check whose command
    is absent or empty is recorded as absent.  A working directory that
    does not exist, a timeout and a failure to start the command all give
    a non-zero exit code, so they count as failed checks. *)
Theorem recorded_flags_follow_exit_codes
    (h : host) (s s' : SessionState) (r : EvalResult) :
  run_evaluation (runner_on h) s = Returns (s', r) ->
  let flag (cmd : option string) :=
    match configured cmd with
    | Some c =>
        Some (exit_code (run_command h c (repo_path (cfg s))
                           (timeout_sec (cfg s))) =? 0)%Z
    | None => None
    end in
  ok_data_quality r = flag (data_quality_cmd (cfg s))
  /\ ok_lint r = flag (lint_cmd (cfg s))
  /\ forall cmd cwd timeout,
       dir_exists h (resolve_dir h cwd) = false
       \/ spawn h cmd (resolve_dir h cwd) timeout = TimedOut
       \/ (exists message,
             spawn h cmd (resolve_dir h cwd) timeout = Failed message) ->
       exit_code (run_command h cmd cwd timeout) <> 0%Z.
Proof.
  intros E flag.
  assert (Bad : forall cmd cwd timeout,
             dir_exists h (resolve_dir h cwd) = false
             \/ spawn h cmd (resolve_dir h cwd) timeout = TimedOut
             \/ (exists message,
                   spawn h cmd (resolve_dir h cwd) timeout = Failed message)
             -> exit_code (run_command h cmd cwd timeout) <> 0%Z).
  { intros cmd cwd timeout. unfold run_command.
    destruct (dir_exists h (resolve_dir h cwd)); simpl.
    - intros [D | [T | [m F]]]; [discriminate D | rewrite T | rewrite F];
        discriminate.
    - intros _. discriminate. }
  unfold run_evaluation in E.
  destruct (run_tests _ s _) as [g1 | |] eqn:T; simpl in E; try discriminate.
  destruct (run_perf _ s _) as [g2 | |] eqn:P; simpl in E; try discriminate.
  injection E as E.
  apply SessionInvariants.update_fields in E.
  destruct E as (_ & _ & _ & _ & _ & _ & _ & _ & Dq & Li & _).
  apply run_perf_keeps_flags in P. destruct P as [P1 P2].
  apply run_tests_keeps_flags in T. destruct T as [T1 T2].
  rewrite Dq, Li, P1, P2. subst flag. cbv beta.
  unfold run_lint. split; [| split; [| exact Bad]].
  - destruct (configured (lint_cmd (cfg s))); simpl; rewrite T1;
      unfold run_data_quality;
      destruct (configured (data_quality_cmd (cfg s))); simpl;
      try reflexivity; unfold runner_on; rewrite run_command_ok;
      reflexivity.
  - destruct (configured (lint_cmd (cfg s))); simpl.
    + unfold runner_on. rewrite run_command_ok. reflexivity.
    + rewrite T2. unfold run_data_quality.
      destruct (configured (data_quality_cmd (cfg s))); reflexivity.
Qed.

(** A host on which the repository is missing. *)
Definition bare_host : host :=
  {| resolve_dir := fun cwd => cwd;
     dir_exists := fun _ => false;
     spawn := fun _ _ _ => Finished "" "" 0 |}.

Definition linted_session : SessionState :=
  Sessions.create_session "s" "/nowhere" (Some "make check") None
    (Some "flake8 .") None 120 None
    {| max_steps := 5; pass_threshold := 0.9; patience_no_improve := 2;
       min_steps := 1 |} 0.9 None CUMULATIVE.

Lemma recorded_flags_follow_exit_codes_witness :
  exists s' r,
    run_evaluation (runner_on bare_host) linted_session = Returns (s', r)
    /\ ok_data_quality r = Some false /\ ok_lint r = Some false.
Proof.
  destruct (run_evaluation (runner_on bare_host) linted_session)
    as [[s' r] | |] eqn:E; try (vm_compute in E; discriminate).
  exists s', r. split; [reflexivity |].
  destruct (recorded_flags_follow_exit_codes bare_host linted_session s' r E)
    as (D & L & _).
  split; [exact D | exact L].
Defined.

(** ** The availability section of [run_preflight_checks] *)

Lemma chars_of_chars (l : list ascii) : PyStr.chars (PyStr.of_chars l) = l.
Proof.
  unfold PyStr.chars, PyStr.of_chars.
  apply list_ascii_of_string_of_list_ascii.
Qed.

Lemma tokens_have_no_whitespace (s cur : list ascii) (name : string) :
  forallb (fun c => negb (PyStr.is_space c)) cur = true ->
  In name (PyStr.split_ws_aux cur s) ->
  CommandFacts.no_whitespace name.
Proof.
  assert (R : forall cur,
             forallb (fun c => negb (PyStr.is_space c)) cur = true ->
             CommandFacts.no_whitespace (PyStr.of_chars (rev cur))).
  { intros l F. unfold CommandFacts.no_whitespace. rewrite chars_of_chars.
    apply forallb_forall. intros x I. apply in_rev in I.
    rewrite forallb_forall in F. exact (F x I). }
  revert cur. induction s as [| c s IH]; intros cur F I; simpl in I.
  - destruct cur as [| x cur]; [contradiction |].
    destruct I as [<- | []]. apply R. exact F.
  - destruct (PyStr.is_space c) eqn:S.
    + destruct cur as [| x cur].
      * exact (IH [] eq_refl I).
      * destruct I as [<- | I]; [apply R; exact F | exact (IH [] eq_refl I)].
    + apply (IH (c :: cur)); [| exact I].
      simpl. rewrite S. exact F.
Qed.

Lemma no_whitespace_no_space (name : string) :
  CommandFacts.no_whitespace name -> PyStr.contains " " name = false.
Proof.
  unfold CommandFacts.no_whitespace, PyStr.contains.
  generalize (PyStr.chars name) as l.
  induction l as [| c l IH]; intro F.
  - reflexivity.
  - cbn [forallb] in F. apply andb_true_iff in F. destruct F as [Fc Fl].
    change (PyStr.contains_chars (PyStr.chars " ") (c :: l))
      with ((Ascii.eqb " " c && true
             || PyStr.contains_chars (PyStr.chars " ") l)%bool).
    rewrite (IH Fl). rewrite orb_false_r, andb_true_r.
    destruct (Ascii.eqb " " c) eqn:E; [| reflexivity].
    apply Ascii.eqb_eq in E. subst c. discriminate.
Qed.

Lemma availability_first_token (which : which_oracle) (cmd : string) :
  availability which cmd
  = match first_token cmd with
    | Some name => Returns (on_path which name)
    | None => Raises IndexError
    end.
Proof.
  unfold availability, first_token, PyStr.split_ws.
  destruct (PyStr.split_ws_aux [] (PyStr.chars cmd)) as [| name rest] eqn:T;
    [reflexivity |].
  assert (W : CommandFacts.no_whitespace name).
  { apply (tokens_have_no_whitespace (PyStr.chars cmd) []); [reflexivity |].
    rewrite T. left. reflexivity. }
  unfold check_command_available, cmd_name, on_path.
  rewrite (no_whitespace_no_space name W). reflexivity.
Qed.

(** The entry that the availability section writes for one command. *)
Definition availability_entry (which : which_oracle) (key : string)
    (cmd : option string) : list (string * bool) :=
  match configured cmd with
  | Some c =>
      match first_token c with
      | Some name => [(key, on_path which name)]
      | None => []
      end
  | None => []
  end.

(** A command that is set and not empty, but holds whitespace only. *)
Definition blank (cmd : option string) : Prop :=
  exists c, configured cmd = Some c /\ first_token c = None.

Lemma check_one_cases which key cmd found :
  check_one which key cmd found
  = match configured cmd with
    | Some c =>
        match first_token c with
        | Some name => Returns (found ++ [(key, on_path which name)])%list
        | None => Raises IndexError
        end
    | None => Returns found
    end.
Proof.
  unfold check_one. destruct (configured cmd) as [c |]; [| reflexivity].
  rewrite availability_first_token.
  destruct (first_token c); reflexivity.
Qed.

(** One availability block: its three outcomes. *)
Ltac each_check cmd :=
  let c := fresh "c" in
  rewrite check_one_cases;
  destruct (configured cmd) as [c |];
  [destruct (first_token c) eqn:? |];
  cbn [obind].

(** X17.  Where the repository directory exists and the preflight checks
    return, [commandsAvailable] holds, in the order data quality, test,
    lint, one entry for each of these commands that is set and not empty,
    and the entry tells whether the first whitespace-delimited token of
    the command (spaces, tabs and line breaks alike) is found by
    [which].  The performance command is never checked. *)
Theorem preflight_checks_first_tokens
    (repo_is_dir : string -> bool) (which : which_oracle) (run : runner)
    (session : SessionState) (res : results) :
  repo_is_dir (repo_path (cfg session)) = true ->
  run_preflight_checks repo_is_dir which run session = Returns res ->
  commandsAvailable res
  = (availability_entry which "dataQuality" (data_quality_cmd (cfg session))
     ++ availability_entry which "test" (test_cmd (cfg session))
     ++ availability_entry which "lint" (lint_cmd (cfg session)))%list.
Proof.
  intros D. unfold run_preflight_checks. rewrite D. cbn [negb].
  unfold availability_entry.
  each_check (data_quality_cmd (cfg session)); try discriminate;
    (each_check (test_cmd (cfg session)); try discriminate);
    (each_check (lint_cmd (cfg session)); try discriminate);
    try (destruct (Parser.parse_test_output _ _); cbn [obind];
         try discriminate);
    intros [= <-]; reflexivity.
Qed.

(** A machine with [pytest] and nothing else installed. *)
Definition pytest_only : which_oracle :=
  fun name => Completed (if String.eqb name "pytest" then 0 else 1).

Definition quiet : runner :=
  fun _ _ _ _ => {| ok := true; stdout := "3 passed"; stderr := "";
                    exit_code := 0 |}.

(** The test command separates the program from its argument by a tab. *)
Definition tabbed_session : SessionState :=
  Sessions.create_session "s" "repo" None
    (Some ("pytest" ++ String (ascii_of_N 9) "-q")) (Some "flake8 .")
    (Some "bench") 120 None
    {| max_steps := 5; pass_threshold := 0.9; patience_no_improve := 2;
       min_steps := 1 |} 0.9 None CUMULATIVE.

Lemma preflight_checks_first_tokens_witness :
  exists res,
    run_preflight_checks (fun _ => true) pytest_only quiet tabbed_session
    = Returns res
    /\ commandsAvailable res = [("test", true); ("lint", false)].
Proof.
  destruct (run_preflight_checks (fun _ => true) pytest_only quiet
              tabbed_session) as [res | |] eqn:E;
    try (vm_compute in E; discriminate).
  exists res. split; [reflexivity |].
  exact (preflight_checks_first_tokens (fun _ => true) pytest_only quiet
           tabbed_session res eq_refl E).
Defined.

(** X18.  Where the repository directory exists and the data-quality,
    test or lint command is a non-empty string of whitespace only, the
    preflight checks raise [IndexError]: the command passes the
    truthiness test and has no first token. *)
Theorem preflight_blank_command_raises
    (repo_is_dir : string -> bool) (which : which_oracle) (run : runner)
    (session : SessionState) :
  repo_is_dir (repo_path (cfg session)) = true ->
  blank (data_quality_cmd (cfg session))
  \/ blank (test_cmd (cfg session))
  \/ blank (lint_cmd (cfg session)) ->
  run_preflight_checks repo_is_dir which run session = Raises IndexError.
Proof.
  intros D B. unfold run_preflight_checks. rewrite D. cbn [negb].
  unfold blank in B.
  each_check (data_quality_cmd (cfg session)); try reflexivity;
    (each_check (test_cmd (cfg session)); try reflexivity);
    (each_check (lint_cmd (cfg session)); try reflexivity);
    exfalso;
    destruct B as [(x & C & T) | [(x & C & T) | (x & C & T)]];
    try discriminate; injection C as <-; congruence.
Qed.

Definition blank_lint_session : SessionState :=
  Sessions.create_session "s" "repo" None (Some "pytest -q") (Some "  ")
    None 120 None
    {| max_steps := 5; pass_threshold := 0.9; patience_no_improve := 2;
       min_steps := 1 |} 0.9 None CUMULATIVE.

Lemma preflight_blank_command_raises_witness :
  run_preflight_checks (fun _ => true) pytest_only quiet blank_lint_session
  = Raises IndexError.
Proof.
  apply preflight_blank_command_raises; [reflexivity |].
  right. right. exists "  ". split; reflexivity.
Defined.

End PreflightFacts.

(** * The tool handlers *)

Module HandlerFacts.

Import Py Sessions SessionStore Handlers.
Local Open Scope outcome_scope.

(** ** The registry *)

Lemma get_store (sessions : registry) (k k' : string) (s : SessionState) :
  get_session (store sessions k s) k'
  = if String.eqb k' k then Some s else get_session sessions k'.
Proof.
  induction sessions as [| [k0 s0] sessions IH]; simpl.
  - destruct (String.eqb k' k); reflexivity.
  - destruct (String.eqb k k0) eqn:E; simpl.
    + apply String.eqb_eq in E. subst k0.
      destruct (String.eqb k' k); reflexivity.
    + rewrite IH. destruct (String.eqb k' k0) eqn:E2; [| reflexivity].
      apply String.eqb_eq in E2. subst k'.
      rewrite String.eqb_sym, E. reflexivity.
Qed.

Lemma get_store_other (sessions : registry) (k k' : string)
    (s : SessionState) :
  k' <> k -> get_session (store sessions k s) k' = get_session sessions k'.
Proof.
  intro N. rewrite get_store. apply String.eqb_neq in N. rewrite N.
  reflexivity.
Qed.

Lemma get_store_same (sessions : registry) (k : string) (s : SessionState) :
  get_session (store sessions k s) k = Some s.
Proof. rewrite get_store, String.eqb_refl. reflexivity. Qed.

Lemma keys_store (sessions : registry) (k : string) (s s0 : SessionState) :
  get_session sessions k = Some s0 ->
  list_sessions (store sessions k s) = list_sessions sessions.
Proof.
  unfold list_sessions.
  induction sessions as [| [k0 x] sessions IH]; simpl; [discriminate |].
  destruct (String.eqb k k0) eqn:E; simpl; [reflexivity |].
  intro G. rewrite (IH G). reflexivity.
Qed.

Lemma get_filtered (sessions : registry) (k k' : string) :
  get_session
    (filter (fun ks => negb (String.eqb k (fst ks))) sessions) k'
  = if String.eqb k' k then None else get_session sessions k'.
Proof.
  induction sessions as [| [k0 s0] sessions IH]; simpl.
  - destruct (String.eqb k' k); reflexivity.
  - destruct (String.eqb k k0) eqn:E; simpl.
    + apply String.eqb_eq in E. subst k0. rewrite IH.
      destruct (String.eqb k' k); reflexivity.
    + rewrite IH. destruct (String.eqb k' k0) eqn:E2; [| reflexivity].
      apply String.eqb_eq in E2. subst k'.
      rewrite String.eqb_sym, E. reflexivity.
Qed.

Lemma last_of_snoc {A : Type} (l : list A) (x : A) :
  last_of (l ++ [x]) = Some x.
Proof. unfold last_of. rewrite rev_app_distr. reflexivity. Qed.

(** ** [handle_tool_call], tool by tool *)

(** What [handle_tool_call] makes of the outcome of a handler. *)
Definition answered (o : registry * outcome response)
    : outcome (registry * response) :=
  match o with
  | (sessions', Returns r) => Returns (sessions', r)
  | (sessions', Raises e) => Returns (sessions', RError (Exception e))
  | (_, OutOfModel) => OutOfModel
  end.

Lemma call_start w sessions arguments :
  handle_tool_call w sessions "trm.start" arguments
  = (args <- ParamTranslator._translate_start arguments ;;
     answered (handle_start_session w sessions args)).
Proof. reflexivity. Qed.

Lemma call_submit w sessions arguments :
  handle_tool_call w sessions "trm.submit" arguments
  = answered (handle_submit_candidate w sessions
                (ParamTranslator._translate_submit arguments)).
Proof. reflexivity. Qed.

Lemma call_read w sessions arguments :
  handle_tool_call w sessions "trm.read" arguments
  = answered (handle_get_file_content w sessions
                (ParamTranslator._translate_read arguments)).
Proof. reflexivity. Qed.

Lemma call_state w sessions arguments :
  handle_tool_call w sessions "trm.state" arguments
  = answered (handle_get_state sessions
                (ParamTranslator._translate_session_id arguments)).
Proof. reflexivity. Qed.

Lemma call_halt w sessions arguments :
  handle_tool_call w sessions "trm.halt" arguments
  = answered (handle_should_halt sessions
                (ParamTranslator._translate_session_id arguments)).
Proof. reflexivity. Qed.

Lemma call_end w sessions arguments :
  handle_tool_call w sessions "trm.end" arguments
  = answered (handle_end_session sessions
                (ParamTranslator._translate_session_id arguments)).
Proof. reflexivity. Qed.

(** The translated arguments of the tools that name a session always
    hold the key [session_id]. *)
Lemma session_id_submit arguments :
  arg (ParamTranslator._translate_submit arguments) "session_id"
  = Returns (dict_get arguments "sid" PNone).
Proof. reflexivity. Qed.

Lemma session_id_read arguments :
  arg (ParamTranslator._translate_read arguments) "session_id"
  = Returns (dict_get arguments "sid" PNone).
Proof. reflexivity. Qed.

Lemma session_id_only arguments :
  arg (ParamTranslator._translate_session_id arguments) "session_id"
  = Returns (dict_get arguments "sid" PNone).
Proof. reflexivity. Qed.

(** ** Sessions that are not there *)

(** The value given for [sid] names no session of the registry: it is a
    string under which nothing is stored, or a hashable value that is no
    string (an absent [sid] reads as [None]). *)
Definition names_no_session (sessions : registry) (v : pyval) : Prop :=
  match v with
  | PStr sid => get_session sessions sid = None
  | PList _ | PDict _ => False
  | PNone | PBool _ | PInt _ | PFloat _ => True
  end.

Lemma lookup_miss sessions v :
  names_no_session sessions v -> lookup_session sessions v = Returns None.
Proof.
  destruct v; simpl; try reflexivity; try contradiction.
  intro G. unfold lookup_session. simpl. rewrite G. reflexivity.
Qed.

(** X19.  Called with a [sid] that names no session of the registry (a
    string under which nothing is stored, a number, a boolean, a null or
    no [sid] at all), [trm.submit], [trm.read], [trm.state] and
    [trm.halt] answer with the error [Session not found] and [trm.end]
    answers with [ok] false.  Called with a [sid] that is a list or an
    object, each of the five answers with the error of the [TypeError]
    that the unhashable key raises.  None of them changes the
    registry. *)
Theorem unknown_session_is_reported
    (w : world) (sessions : registry) (name : string) (arguments : dict) :
  In name ["trm.submit"; "trm.read"; "trm.state"; "trm.halt"; "trm.end"] ->
  (names_no_session sessions (dict_get arguments "sid" PNone) ->
   handle_tool_call w sessions name arguments
   = Returns (sessions,
              if String.eqb name "trm.end" then REnded false
              else RError SessionNotFound))
  /\ ((exists l, dict_get arguments "sid" PNone = PList l)
      \/ (exists d, dict_get arguments "sid" PNone = PDict d) ->
      handle_tool_call w sessions name arguments
      = Returns (sessions, RError (Exception TypeError))).
Proof.
  intros I. split.
  - intro N. pose proof (lookup_miss _ _ N) as L.
    destruct I as [<- | [<- | [<- | [<- | [<- | []]]]]].
    + rewrite call_submit. unfold handle_submit_candidate.
      rewrite session_id_submit. cbn [obind]. rewrite L. reflexivity.
    + rewrite call_read. unfold handle_get_file_content.
      rewrite session_id_read. cbn [obind]. rewrite L. reflexivity.
    + rewrite call_state. unfold handle_get_state.
      rewrite session_id_only. cbn [obind]. rewrite L. reflexivity.
    + rewrite call_halt. unfold handle_should_halt.
      rewrite session_id_only. cbn [obind]. rewrite L. reflexivity.
    + rewrite call_end. unfold handle_end_session.
      rewrite session_id_only. cbn [obind].
      destruct (dict_get arguments "sid" PNone) as [| | | | sid | |];
        simpl in N |- *; try reflexivity; try contradiction.
      unfold delete_session, validate_session_exists. rewrite N.
      reflexivity.
  - intro U.
    assert (K : session_key (dict_get arguments "sid" PNone)
                = Raises TypeError).
    { destruct U as [[l ->] | [d ->]]; reflexivity. }
    destruct I as [<- | [<- | [<- | [<- | [<- | []]]]]].
    + rewrite call_submit. unfold handle_submit_candidate.
      rewrite session_id_submit. cbn [obind]. unfold lookup_session.
      rewrite K. reflexivity.
    + rewrite call_read. unfold handle_get_file_content.
      rewrite session_id_read. cbn [obind]. unfold lookup_session.
      rewrite K. reflexivity.
    + rewrite call_state. unfold handle_get_state.
      rewrite session_id_only. cbn [obind]. unfold lookup_session.
      rewrite K. reflexivity.
    + rewrite call_halt. unfold handle_should_halt.
      rewrite session_id_only. cbn [obind]. unfold lookup_session.
      rewrite K. reflexivity.
    + rewrite call_end. unfold handle_end_session.
      rewrite session_id_only. cbn [obind]. rewrite K. reflexivity.
Qed.

(** A world in which every command succeeds and prints nothing. *)
Definition still_world : world :=
  {| fresh_id := "id-1";
     run := fun _ _ _ _ => {| ok := true; stdout := ""; stderr := "";
                              exit_code := 0 |};
     which := fun _ => Command.Completed 0;
     fs := fun _ => Some Server.Dir;
     cwd := [] |}.

Lemma unknown_session_is_reported_witness :
  handle_tool_call still_world [] "trm.halt" [("sid", PStr "gone")]
  = Returns ([], RError SessionNotFound).
Proof.
  apply (proj1 (unknown_session_is_reported still_world [] "trm.halt"
                  [("sid", PStr "gone")]
                  (or_intror (or_intror (or_intror (or_introl eq_refl)))))).
  reflexivity.
Defined.

(** ** Submitting *)

(** What a successful [trm.submit] has done. *)
Lemma submit_returns w sessions arguments sessions' r :
  handle_tool_call w sessions "trm.submit" arguments
  = Returns (sessions', RSubmitted r) ->
  exists sid session session' er,
    dict_get arguments "sid" PNone = PStr sid
    /\ get_session sessions sid = Some session
    /\ Evaluation.run_evaluation (run w) session = Returns (session', er)
    /\ sessions' = store sessions sid session'
    /\ r = submit_answer session' er.
Proof.
  rewrite call_submit. unfold handle_submit_candidate.
  rewrite session_id_submit. cbn [obind]. unfold lookup_session.
  destruct (dict_get arguments "sid" PNone) as [| | | | sid | |];
    simpl; try discriminate.
  destruct (get_session sessions sid) as [session |] eqn:G;
    simpl; try discriminate.
  destruct (Evaluation.run_evaluation (run w) session)
    as [[session' er] | |] eqn:E; simpl; try discriminate.
  intros [= <- <-]. exists sid, session, session', er.
  repeat split; assumption.
Qed.

Lemma lookup_stored sessions sid session' v :
  v = PStr sid ->
  lookup_session (store sessions sid session') v
  = Returns (Some (sid, session')).
Proof.
  intros ->. unfold lookup_session. simpl. rewrite get_store_same.
  reflexivity.
Qed.

(** X20.  After a [trm.submit] that returned its evaluation, [trm.halt]
    for the same session returns the halting decision and the reasons of
    that answer, and leaves the registry as the submission left it. *)
Theorem halt_repeats_last_decision
    (w w' : world) (sessions sessions' : registry)
    (arguments arguments' : dict) (r : submit_response) :
  handle_tool_call w sessions "trm.submit" arguments
  = Returns (sessions', RSubmitted r) ->
  dict_get arguments' "sid" PNone = dict_get arguments "sid" PNone ->
  handle_tool_call w' sessions' "trm.halt" arguments'
  = Returns (sessions', RHalt (r_shouldHalt r) (Reasons (r_reasons r))).
Proof.
  intros S A. apply submit_returns in S.
  destruct S as (sid & session & session' & er & V & G & E & -> & ->).
  rewrite call_halt. unfold handle_should_halt.
  rewrite session_id_only, A. cbn [obind].
  rewrite (lookup_stored sessions sid session' _ V). cbn [obind].
  apply EvaluationFacts.run_evaluation_returns in E. destruct E as [g E].
  apply EvaluationFacts.score_and_update_writes in E.
  destruct E as (H & _). rewrite H, last_of_snoc. reflexivity.
Qed.

Definition strict_halt : HaltConfig :=
  {| max_steps := 5; pass_threshold := 0.9; patience_no_improve := 2;
     min_steps := 1 |}.

(** A registry with one session, which runs [pytest], and a world whose
    test run reports three passing tests. *)
Definition one_session : registry :=
  [("s1", create_session "s1" "repo" None (Some "pytest -q") None None 120
            None strict_halt 0.9 None CUMULATIVE)].

Definition passing_world : world :=
  {| fresh_id := "id-2";
     run := fun _ _ _ _ => {| ok := true; stdout := "3 passed in 0.10s";
                              stderr := ""; exit_code := 0 |};
     which := fun _ => Command.Completed 0;
     fs := fun _ => Some Server.Dir;
     cwd := [] |}.

Lemma halt_repeats_last_decision_witness :
  exists sessions' r,
    handle_tool_call passing_world one_session "trm.submit"
      [("sid", PStr "s1")]
    = Returns (sessions', RSubmitted r)
    /\ handle_tool_call still_world sessions' "trm.halt" [("sid", PStr "s1")]
       = Returns (sessions', RHalt (r_shouldHalt r) (Reasons (r_reasons r))).
Proof.
  destruct (handle_tool_call passing_world one_session "trm.submit"
              [("sid", PStr "s1")])
    as [[sessions' [| | r | | | | | | | | |]] | |] eqn:E;
    try (vm_compute in E; discriminate).
  exists sessions', r. split; [reflexivity |].
  exact (halt_repeats_last_decision passing_world still_world one_session
           sessions' [("sid", PStr "s1")] [("sid", PStr "s1")] r E eq_refl).
Defined.

(** X21.  After a [trm.submit] that returned its evaluation, [trm.state]
    for the same session answers with an error whenever the submission
    reported test results: the last evaluation is handed to [json.dumps]
    with its [TestResults] object inside, which the encoder refuses.
    Where [trm.state] does return the state, the submission reported no
    tests, and step, smoothed score, best score and last evaluation of
    the state are those of the submission. *)
Theorem state_after_submit
    (w w' : world) (sessions sessions' : registry)
    (arguments arguments' : dict) (r : submit_response) :
  handle_tool_call w sessions "trm.submit" arguments
  = Returns (sessions', RSubmitted r) ->
  dict_get arguments' "sid" PNone = dict_get arguments "sid" PNone ->
  (r_tests r <> None ->
   handle_tool_call w' sessions' "trm.state" arguments'
   = Returns (sessions', RError (Exception TypeError)))
  /\ (forall st,
        handle_tool_call w' sessions' "trm.state" arguments'
        = Returns (sessions', RState st) ->
        r_tests r = None
        /\ st_step st = r_step r
        /\ st_emaScore st = r_emaScore r
        /\ st_bestScore st = r_bestScore r
        /\ exists last,
             st_last st = Some last
             /\ step last = r_step r /\ score last = r_score r
             /\ tests last = None /\ perf last = None).
Proof.
  intros S A. apply submit_returns in S.
  destruct S as (sid & session & session' & er & V & G & E & -> & ->).
  rewrite call_state. unfold handle_get_state.
  rewrite session_id_only, A. cbn [obind].
  rewrite (lookup_stored sessions sid session' _ V). cbn [obind].
  apply EvaluationFacts.run_evaluation_returns in E. destruct E as [g E].
  pose proof (EvaluationFacts.score_and_update_writes _ _ _ _ E)
    as (H & _ & Em & _).
  apply SessionInvariants.update_fields in E.
  destruct E as (_ & _ & _ & St & _).
  rewrite H, last_of_snoc.
  unfold serializable, submit_answer.
  cbn [r_tests r_step r_emaScore r_bestScore r_score].
  split.
  - intro T. destruct (tests er); [reflexivity | contradiction].
  - intros st. destruct (tests er) eqn:T; cbn [answered]; [discriminate |].
    destruct (perf er) eqn:P; cbn [answered]; [discriminate |].
    intros [= <-]. cbn [st_step st_emaScore st_bestScore st_last].
    repeat split; try assumption.
    exists er. repeat split; assumption.
Qed.

Lemma state_after_submit_witness :
  exists sessions' r,
    handle_tool_call passing_world one_session "trm.submit"
      [("sid", PStr "s1")]
    = Returns (sessions', RSubmitted r)
    /\ handle_tool_call still_world sessions' "trm.state"
         [("sid", PStr "s1")]
       = Returns (sessions', RError (Exception TypeError)).
Proof.
  destruct (handle_tool_call passing_world one_session "trm.submit"
              [("sid", PStr "s1")])
    as [[sessions' [| | r | | | | | | | | |]] | |] eqn:E;
    try (vm_compute in E; discriminate).
  exists sessions', r. split; [reflexivity |].
  apply (state_after_submit passing_world still_world one_session
           sessions' [("sid", PStr "s1")] [("sid", PStr "s1")] r E eq_refl).
  vm_compute in E. injection E as <- <-. discriminate.
Defined.

(** X22.  A [trm.submit] that returned its evaluation was made for a
    session of the registry; afterwards that session is one step further,
    with the configuration it had, the answer reports its new step and
    best score, the registry holds the same identifiers in the same
    order, and every other session is as it was. *)
Theorem submit_updates_its_session_only
    (w : world) (sessions sessions' : registry) (arguments : dict)
    (r : submit_response) :
  handle_tool_call w sessions "trm.submit" arguments
  = Returns (sessions', RSubmitted r) ->
  exists sid s s',
    dict_get arguments "sid" PNone = PStr sid
    /\ get_session sessions sid = Some s
    /\ get_session sessions' sid = Some s'
    /\ s_step s' = (s_step s + 1)%Z
    /\ r_step r = s_step s'
    /\ r_bestScore r = best_score s'
    /\ cfg s' = cfg s
    /\ list_sessions sessions' = list_sessions sessions
    /\ forall k, k <> sid -> get_session sessions' k = get_session sessions k.
Proof.
  intros S. apply submit_returns in S.
  destruct S as (sid & session & session' & er & V & G & E & -> & ->).
  exists sid, session, session'.
  apply EvaluationFacts.run_evaluation_returns in E. destruct E as [g E].
  apply SessionInvariants.update_fields in E.
  destruct E as ((C & _) & _ & St & St' & _).
  repeat split; try assumption.
  - apply get_store_same.
  - rewrite St', St. reflexivity.
  - simpl. symmetry. exact St'.
  - exact (keys_store sessions sid session' session G).
  - intros k N. apply get_store_other. exact N.
Qed.

Lemma submit_updates_its_session_only_witness :
  exists sessions' s',
    get_session sessions' "s1" = Some s' /\ s_step s' = 1%Z
    /\ list_sessions sessions' = ["s1"].
Proof.
  destruct (handle_tool_call passing_world one_session "trm.submit"
              [("sid", PStr "s1")])
    as [[sessions' [| | r | | | | | | | | |]] | |] eqn:E;
    try (vm_compute in E; discriminate).
  destruct (submit_updates_its_session_only passing_world one_session
              sessions' [("sid", PStr "s1")] r E)
    as (sid & s & s' & V & G & G' & St & _ & _ & _ & K & _).
  injection V as <-. injection G as <-.
  exists sessions', s'. repeat split; assumption.
Defined.

(** ** Ending *)

(** X23.  [trm.end] for a session of the registry answers with [ok]
    true and removes that session and no other; a second [trm.end] for
    the same session answers with [ok] false and changes nothing. *)
Theorem ended_session_is_gone
    (w : world) (sessions : registry) (arguments : dict) (sid : string)
    (s : SessionState) :
  dict_get arguments "sid" PNone = PStr sid ->
  get_session sessions sid = Some s ->
  exists sessions',
    handle_tool_call w sessions "trm.end" arguments
    = Returns (sessions', REnded true)
    /\ get_session sessions' sid = None
    /\ (forall k, k <> sid ->
                  get_session sessions' k = get_session sessions k)
    /\ handle_tool_call w sessions' "trm.end" arguments
       = Returns (sessions', REnded false).
Proof.
  intros V G.
  exists (filter (fun ks => negb (String.eqb sid (fst ks))) sessions).
  assert (Gone : get_session
                   (filter (fun ks => negb (String.eqb sid (fst ks)))
                      sessions) sid = None).
  { rewrite get_filtered, String.eqb_refl. reflexivity. }
  repeat split.
  - rewrite call_end. unfold handle_end_session.
    rewrite session_id_only, V. cbn [obind session_key].
    unfold delete_session, validate_session_exists. rewrite G. reflexivity.
  - exact Gone.
  - intros k N. rewrite get_filtered. apply String.eqb_neq in N.
    rewrite N. reflexivity.
  - rewrite call_end. unfold handle_end_session.
    rewrite session_id_only, V. cbn [obind session_key].
    unfold delete_session, validate_session_exists. rewrite Gone.
    reflexivity.
Qed.

Lemma ended_session_is_gone_witness :
  exists sessions',
    handle_tool_call still_world one_session "trm.end" [("sid", PStr "s1")]
    = Returns (sessions', REnded true)
    /\ get_session sessions' "s1" = None.
Proof.
  destruct (ended_session_is_gone still_world one_session
              [("sid", PStr "s1")] "s1"
              (create_session "s1" "repo" None (Some "pytest -q") None None
                 120 None strict_halt 0.9 None CUMULATIVE)
              eq_refl eq_refl)
    as (sessions' & E & G & _).
  exists sessions'. split; assumption.
Defined.

(** ** What leaves the registry alone *)

Lemma dispatch_keeps_registry w sessions name args :
  name <> "trm.start" -> name <> "trm.submit" -> name <> "trm.end" ->
  fst (dispatch w sessions name args) = sessions.
Proof.
  intros N1 N2 N3. unfold dispatch.
  apply String.eqb_neq in N1, N2, N3. rewrite N1, N2, N3.
  repeat match goal with
         | |- context [if ?b then _ else _] => destruct b
         end; reflexivity.
Qed.

(** X24.  Only [trm.start], [trm.submit] and [trm.end] change the
    registry: a call of any other tool, known or unknown, that returns
    an answer returns the registry it was given. *)
Theorem other_tools_keep_the_registry
    (w : world) (sessions sessions' : registry) (name : string)
    (arguments : dict) (r : response) :
  name <> "trm.start" -> name <> "trm.submit" -> name <> "trm.end" ->
  handle_tool_call w sessions name arguments = Returns (sessions', r) ->
  sessions' = sessions.
Proof.
  intros N1 N2 N3. unfold handle_tool_call.
  destruct (ParamTranslator.translate_params name arguments) as [args | |];
    cbn [obind]; try discriminate.
  pose proof (dispatch_keeps_registry w sessions name args N1 N2 N3) as K.
  destruct (dispatch w sessions name args) as [s' [x | e |]];
    simpl in K; subst s'; try discriminate; intros [= <- _]; reflexivity.
Qed.

Lemma other_tools_keep_the_registry_witness :
  exists r,
    handle_tool_call still_world one_session "trm.undo" [("sid", PStr "s1")]
    = Returns (one_session, r).
Proof.
  destruct (handle_tool_call still_world one_session "trm.undo"
              [("sid", PStr "s1")]) as [[sessions' r] | |] eqn:E;
    try (vm_compute in E; discriminate).
  exists r.
  rewrite (other_tools_keep_the_registry still_world one_session sessions'
             "trm.undo" [("sid", PStr "s1")] r); try discriminate.
  - reflexivity.
  - exact E.
Defined.

(** ** Reading files *)

Lemma files_set_key (k p : string) (v : Server.file_entry)
    (d : list (string * Server.file_entry)) :
  In p (map fst (Server.files_set k v d)) <-> p = k \/ In p (map fst d).
Proof.
  induction d as [| [k' v'] d IH]; simpl.
  - split; intros [H | H]; auto.
  - destruct (String.eqb k k') eqn:E; simpl.
    + apply String.eqb_eq in E. subst k'. split; [auto | ].
      intros [-> | H]; auto.
    + rewrite IH. tauto.
Qed.

Lemma files_set_nodup (k : string) (v : Server.file_entry)
    (d : list (string * Server.file_entry)) :
  NoDup (map fst d) -> NoDup (map fst (Server.files_set k v d)).
Proof.
  induction d as [| [k' v'] d IH]; simpl; intro N.
  - constructor; [intros [] | constructor].
  - inversion N as [| ? ? Hin N']; subst.
    destruct (String.eqb k k') eqn:E; simpl.
    + constructor; assumption.
    + constructor; [| exact (IH N')].
      rewrite files_set_key. intros [-> | H]; [| exact (Hin H)].
      rewrite String.eqb_refl in E. discriminate.
Qed.

Lemma files_set_entry (k p : string) (v e : Server.file_entry)
    (d : list (string * Server.file_entry)) :
  In (p, e) (Server.files_set k v d) -> (p = k /\ e = v) \/ In (p, e) d.
Proof.
  induction d as [| [k' v'] d IH]; simpl.
  - intros [[= <- <-] | []]. left. split; reflexivity.
  - destruct (String.eqb k k') eqn:E; simpl.
    + apply String.eqb_eq in E. subst k'.
      intros [[= <- <-] | H]; [left; split; reflexivity | right; right].
      exact H.
    + intros [H | H]; [right; left; exact H |].
      destruct (IH H) as [H' | H']; [left; exact H' | right; right].
      exact H'.
Qed.

(** Reading one entry returns it or raises [OSError]. *)
Lemma read_entry_cases fs cwd repo path_str :
  (exists e, Server.read_entry fs cwd repo path_str = Returns e)
  \/ Server.read_entry fs cwd repo path_str = Raises OSError.
Proof.
  unfold Server.read_entry.
  destruct (Server.encodable _); [| left; eexists; reflexivity].
  destruct (Server.resolve fs cwd _) as [loc | |];
    [| left; eexists; reflexivity | right; reflexivity].
  destruct (fs loc) as [[| [c | e] sz mt | t |] |];
    try (left; eexists; reflexivity).
  right. reflexivity.
Qed.

(** The loop of [handle_get_file_content] over path strings, where
    every existence test returns. *)
Lemma read_loop (w : world) (repo : Server.PurePath) (paths : list string) :
  (forall p, In p paths ->
     exists e, Server.read_entry (fs w) (cwd w) repo p = Returns e) ->
  forall acc : list (string * Server.file_entry),
    NoDup (map fst acc) ->
    (forall p e, In (p, e) acc ->
       Server.read_entry (fs w) (cwd w) repo p = Returns e) ->
    exists files,
      read_paths w repo (map PStr paths) acc = Returns files
      /\ NoDup (map fst files)
      /\ (forall p, In p (map fst files) <-> In p (map fst acc) \/ In p paths)
      /\ (forall p e, In (p, e) files ->
            Server.read_entry (fs w) (cwd w) repo p = Returns e).
Proof.
  induction paths as [| q paths IH]; intros R acc N F.
  - exists acc. repeat split; try assumption; simpl; tauto.
  - destruct (R q (or_introl eq_refl)) as [e E].
    destruct (IH (fun p I => R p (or_intror I))
                 (Server.files_set q e acc)) as (files & L & N' & K & F').
    + apply files_set_nodup. exact N.
    + intros p x I. apply files_set_entry in I.
      destruct I as [[-> ->] | I]; [exact E | exact (F p x I)].
    + exists files. cbn [map read_paths]. rewrite E. cbn [obind].
      repeat split; try assumption.
      * intro I. apply K in I. rewrite files_set_key in I.
        destruct I as [[-> | I] | I]; simpl; auto.
      * intro I. apply K. rewrite files_set_key.
        destruct I as [I | [<- | I]]; auto.
Qed.

(** The loop is left at the first entry whose existence test raises. *)
Lemma read_loop_raises (w : world) (repo : Server.PurePath)
    (paths : list string) :
  (exists p, In p paths
             /\ Server.read_entry (fs w) (cwd w) repo p = Raises OSError) ->
  forall acc, read_paths w repo (map PStr paths) acc = Raises OSError.
Proof.
  induction paths as [| q paths IH]; intros (p & I & E) acc.
  - destruct I.
  - cbn [map read_paths].
    destruct (read_entry_cases (fs w) (cwd w) repo q) as [[e Q] | Q];
      rewrite Q; cbn [obind]; [| reflexivity].
    apply IH. exists p. split; [| exact E].
    destruct I as [<- | I]; [| exact I].
    rewrite Q in E. discriminate E.
Qed.

(** X25.  [trm.read] for a session of the registry and a list of path
    strings leaves the registry unchanged.  Where the existence test of
    every requested path returns, the answer holds one entry for each
    requested path and for no other: a path requested more than once has
    one entry, and the entry of a path is what reading that path under
    the repository of the session gives.  Where the existence test of
    some requested path raises (the operating system refuses the lookup:
    a name too long, a directory that may not be searched), the call is
    answered with that one error and no entry at all. *)
Theorem read_answers_each_path_once
    (w : world) (sessions : registry) (arguments : dict) (sid : string)
    (s : SessionState) (paths : list string) :
  dict_get arguments "sid" PNone = PStr sid ->
  get_session sessions sid = Some s ->
  dict_get arguments "paths" (PList []) = PList (map PStr paths) ->
  let entry :=
    Server.read_entry (fs w) (cwd w) (Server.Path (repo_path (cfg s))) in
  ((forall p, In p paths -> exists e, entry p = Returns e) ->
   exists files,
     handle_tool_call w sessions "trm.read" arguments
     = Returns (sessions, RFiles files)
     /\ NoDup (map fst files)
     /\ (forall p, In p (map fst files) <-> In p paths)
     /\ (forall p e, In (p, e) files -> entry p = Returns e))
  /\ ((exists p, In p paths /\ entry p = Raises OSError) ->
      handle_tool_call w sessions "trm.read" arguments
      = Returns (sessions, RError (Exception OSError))).
Proof.
  intros V G P entry.
  assert (Call : handle_tool_call w sessions "trm.read" arguments
                 = answered
                     (sessions,
                      files <- read_paths w
                                 (Server.Path (repo_path (cfg s)))
                                 (map PStr paths) [] ;;
                      Returns (RFiles files))).
  { rewrite call_read. unfold handle_get_file_content.
    rewrite session_id_read, V. cbn [obind].
    unfold lookup_session. cbn [session_key obind]. rewrite G.
    cbn [obind].
    change (arg (ParamTranslator._translate_read arguments) "paths")
      with (Returns (dict_get arguments "paths" (PList []))).
    rewrite P. reflexivity. }
  rewrite Call. split.
  - intro R.
    destruct (read_loop w (Server.Path (repo_path (cfg s))) paths R [])
      as (files & L & N & K & F); [constructor | intros p e [] |].
    exists files. rewrite L. split; [reflexivity |].
    split; [exact N |]. split; [| exact F].
    intro p. rewrite K. simpl. tauto.
  - intro R.
    rewrite (read_loop_raises w (Server.Path (repo_path (cfg s))) paths R).
    reflexivity.
Qed.

(** A repository with one file. *)
Definition one_file_world : world :=
  {| fresh_id := "id-3";
     run := run still_world;
     which := which still_world;
     fs := fun loc =>
             match loc with
             | [] => Some Server.Dir
             | ["repo"] => Some Server.Dir
             | ["repo"; "a.py"] =>
                 Some (Server.File (inl "x = 1") 5 0)
             | _ => None
             end;
     cwd := [] |}.

Lemma read_answers_each_path_once_witness :
  exists files,
    handle_tool_call one_file_world one_session "trm.read"
      [("sid", PStr "s1");
       ("paths", PList [PStr "a.py"; PStr "b.py"; PStr "a.py"])]
    = Returns (one_session, RFiles files)
    /\ NoDup (map fst files)
    /\ forall p, In p (map fst files) <-> In p ["a.py"; "b.py"; "a.py"].
Proof.
  destruct (read_answers_each_path_once one_file_world one_session
              [("sid", PStr "s1");
               ("paths", PList [PStr "a.py"; PStr "b.py"; PStr "a.py"])]
              "s1"
              (create_session "s1" "repo" None (Some "pytest -q") None None
                 120 None strict_halt 0.9 None CUMULATIVE)
              ["a.py"; "b.py"; "a.py"] eq_refl eq_refl eq_refl)
    as [Every _].
  destruct Every as (files & E & N & K & _).
  - intros p [<- | [<- | [<- | []]]]; eexists; vm_compute; reflexivity.
  - exists files. repeat split; try assumption; apply K.
Defined.

(** ** Starting *)

Import ParamTranslator TranslatorFacts.

Lemma lookup_translated (arguments t : dict) (k : string) :
  _translate_start arguments = Returns t ->
  dict_lookup k t
  = match dict_lookup k (before_filter arguments) with
    | Some PNone => None
    | other => other
    end.
Proof.
  intro T. apply translate_start_returns in T. destruct T as (_ & _ & ->).
  apply lookup_drop_none. apply before_filter_long_keys.
Qed.

Lemma before_filter_weights (a : dict) :
  dict_lookup "weights" (before_filter a)
  = match dict_lookup "weights" a with
    | Some (PDict w) => Some (long_weights w)
    | _ => None
    end.
Proof.
  unfold before_filter.
  destruct (dict_lookup "weights" a) as [[] |];
    destruct (dict_lookup "halt" a) as [[] |]; reflexivity.
Qed.

Lemma before_filter_halt (a : dict) :
  dict_lookup "halt" (before_filter a)
  = match dict_lookup "halt" a with
    | Some (PDict h) => Some (long_halt h)
    | _ => None
    end.
Proof.
  unfold before_filter.
  destruct (dict_lookup "weights" a) as [[] |];
    destruct (dict_lookup "halt" a) as [[] |]; reflexivity.
Qed.

Lemma before_filter_repo (a : dict) :
  dict_lookup "repo_path" (before_filter a)
  = Some (dict_get a "repo" PNone).
Proof. reflexivity. Qed.

Lemma before_filter_preflight (a : dict) :
  dict_lookup "preflight" (before_filter a) = None.
Proof.
  unfold before_filter.
  destruct (dict_lookup "weights" a) as [[] |];
    destruct (dict_lookup "halt" a) as [[] |]; reflexivity.
Qed.

(** The translated arguments never hold the key [preflight]. *)
Lemma preflight_is_dropped (arguments t : dict) :
  _translate_start arguments = Returns t ->
  truthy (dict_get t "preflight" PNone) = false.
Proof.
  intro T. unfold dict_get.
  rewrite (lookup_translated arguments t "preflight" T).
  rewrite before_filter_preflight. reflexivity.
Qed.

Lemma start_session_world (w w' : world) sessions args :
  fresh_id w = fresh_id w' ->
  start_session w sessions args = start_session w' sessions args.
Proof. intro I. unfold start_session. rewrite I. reflexivity. Qed.

(** What [trm.start] answers once the translation has returned. *)
Lemma start_call (w : world) sessions arguments t :
  _translate_start arguments = Returns t ->
  handle_tool_call w sessions "trm.start" arguments
  = match start_session w sessions t with
    | Returns (sessions', session) =>
        Returns (sessions',
                 RStarted (id session) (repo_path (cfg session))
                   (max_steps (halt (cfg session)))
                   (pass_threshold (halt (cfg session))) None)
    | Raises e => Returns (sessions, RError (Exception e))
    | OutOfModel => OutOfModel
    end.
Proof.
  intro T. rewrite call_start, T. cbn [obind].
  unfold handle_start_session. rewrite (preflight_is_dropped _ _ T).
  destruct (start_session w sessions t) as [[s1 session] | |]; reflexivity.
Qed.

(** X26.  Through [handle_tool_call], [trm.start] never runs the
    preflight checks: the translation of the arguments does not carry the
    key [preflight], so the answer has no preflight part whatever the
    caller asked for, and neither the answer nor the registry depends on
    the commands, the file system or [which]; only the fresh identifier
    is taken from outside. *)
Theorem start_never_runs_preflight
    (w w' : world) (sessions : registry) (arguments : dict) :
  fresh_id w = fresh_id w' ->
  handle_tool_call w sessions "trm.start" arguments
  = handle_tool_call w' sessions "trm.start" arguments
  /\ forall sessions' sid repo mx th pre,
       handle_tool_call w sessions "trm.start" arguments
       = Returns (sessions', RStarted sid repo mx th pre) ->
       pre = None.
Proof.
  intro I.
  destruct (_translate_start arguments) as [t | e |] eqn:T.
  - rewrite !(start_call _ sessions arguments t T).
    rewrite (start_session_world w w' sessions t I). split; [reflexivity |].
    intros sessions' sid repo mx th pre.
    destruct (start_session w' sessions t) as [[s1 session] | |];
      try discriminate.
    intros [= _ _ _ _ _ <-]. reflexivity.
  - rewrite !call_start, T. split; [reflexivity | discriminate].
  - rewrite !call_start, T. split; [reflexivity | discriminate].
Qed.

(** A world in which no command works and nothing exists. *)
Definition broken_world : world :=
  {| fresh_id := "id-1";
     run := fun _ _ _ _ => {| ok := false; stdout := ""; stderr := "boom";
                              exit_code := 2 |};
     which := fun _ => Command.Completed 1;
     fs := fun _ => None;
     cwd := [] |}.

Definition start_arguments : dict :=
  [("repo", PStr "/no/such/dir");
   ("test", PStr "pytest -q");
   ("halt", PDict [("max", PInt 5); ("threshold", PFloat 0.9);
                   ("patience", PInt 2)]);
   ("preflight", PBool true)].

Lemma start_never_runs_preflight_witness :
  handle_tool_call still_world [] "trm.start" start_arguments
  = handle_tool_call broken_world [] "trm.start" start_arguments
  /\ exists sessions',
       handle_tool_call broken_world [] "trm.start" start_arguments
       = Returns (sessions', RStarted "id-1" "/no/such/dir" 5 0.9 None).
Proof.
  split.
  - apply (start_never_runs_preflight still_world broken_world []
             start_arguments eq_refl).
  - eexists. vm_compute. reflexivity.
Defined.

Ltac bind_in H :=
  match type of H with
  | obind ?c _ = Returns _ =>
      let E := fresh "E" in
      destruct c eqn:E; cbn [obind] in H;
      [| discriminate H | discriminate H]
  end.

(** A start that returns has built its session with [create_session]
    and put it in the registry under the fresh identifier. *)
Lemma start_session_returns (w : world) sessions args sessions' session :
  start_session w sessions args = Returns (sessions', session) ->
  exists repo dq t l p timeout weights hc alpha notes,
    dict_lookup "repo_path" args = Some (PStr repo)
    /\ session = create_session (fresh_id w) repo dq t l p timeout weights
                   hc alpha notes CUMULATIVE
    /\ sessions' = store sessions (fresh_id w) session.
Proof.
  unfold start_session. intro H.
  repeat bind_in H.
  unfold create_and_store in H. injection H as <- <-.
  match goal with
  | R : arg args "repo_path" = Returns ?v, S : as_str ?v = Returns ?r |- _ =>
      unfold arg, getitem in R;
      destruct (dict_lookup "repo_path" args) as [x |] eqn:L;
      [injection R as ->; destruct v; try discriminate S;
       injection S as -> | discriminate R]
  end.
  do 10 eexists. repeat split.
Qed.

(** X27.  A [trm.start] that answers with a session identifier has put
    a new session in the registry under that identifier, which is the
    fresh one: the session is at step 0 with an empty history, zero
    scores and no best performance, and it holds the repository path
    given as [repo] and the halting limits that the answer repeats.  Any
    session stored under another identifier is as it was. *)
Theorem started_session_is_registered
    (w : world) (sessions sessions' : registry) (arguments : dict)
    (sid repo : string) (mx : Z) (th : Q)
    (pre : option Preflight.results) :
  handle_tool_call w sessions "trm.start" arguments
  = Returns (sessions', RStarted sid repo mx th pre) ->
  sid = fresh_id w
  /\ dict_get arguments "repo" PNone = PStr repo
  /\ (exists s,
        get_session sessions' sid = Some s
        /\ id s = sid
        /\ repo_path (cfg s) = repo
        /\ max_steps (halt (cfg s)) = mx
        /\ pass_threshold (halt (cfg s)) = th
        /\ s_step s = 0%Z /\ history s = []
        /\ best_score s = 0%Q /\ s_ema_score s = 0%Q
        /\ no_improve_streak s = 0%Z /\ best_perf s = None)
  /\ forall k, k <> sid -> get_session sessions' k = get_session sessions k.
Proof.
  intro H.
  destruct (_translate_start arguments) as [t | e |] eqn:T;
    [| rewrite call_start, T in H; discriminate H
     | rewrite call_start, T in H; discriminate H].
  rewrite (start_call w sessions arguments t T) in H.
  destruct (start_session w sessions t) as [[s1 session] | |] eqn:S;
    try discriminate H.
  injection H as -> <- <- <- <- <-.
  apply start_session_returns in S.
  destruct S as (r & dq & tc & l & p & timeout & weights & hc & alpha
                 & notes & L & -> & ->).
  rewrite (lookup_translated arguments t "repo_path" T) in L.
  rewrite before_filter_repo in L.
  cbn [id create_session cfg repo_path].
  repeat split.
  - destruct (dict_get arguments "repo" PNone); try discriminate L.
    exact (f_equal (fun o => match o with Some v => v | None => PNone end)
             L).
  - eexists. split; [apply get_store_same |]. repeat split.
  - intros k N. apply get_store_other. exact N.
Qed.

Lemma started_session_is_registered_witness :
  exists sessions' s,
    handle_tool_call broken_world one_session "trm.start" start_arguments
    = Returns (sessions', RStarted "id-1" "/no/such/dir" 5 0.9 None)
    /\ get_session sessions' "id-1" = Some s
    /\ s_step s = 0%Z
    /\ get_session sessions' "s1" = get_session one_session "s1".
Proof.
  destruct (handle_tool_call broken_world one_session "trm.start"
              start_arguments) as [[sessions' r] | |] eqn:E;
    try (vm_compute in E; discriminate).
  assert (R : r = RStarted "id-1" "/no/such/dir" 5 0.9 None).
  { vm_compute in E. injection E as _ <-. reflexivity. }
  subst r.
  destruct (started_session_is_registered broken_world one_session sessions'
              start_arguments _ _ _ _ _ E)
    as (_ & _ & (s & G & _ & _ & _ & _ & St & _) & K).
  exists sessions', s. repeat split; try assumption.
  apply K. discriminate.
Defined.

(** X28.  A [trm.start] whose arguments lack [halt], or lack [repo] or
    give it as null, is answered with the error of a missing key and
    leaves the registry as it was: no session is created.  (The values
    of [weights] and [halt], where given, are objects.) *)
Theorem start_without_repo_or_halt_is_refused
    (w : world) (sessions : registry) (arguments : dict) :
  object_or_absent arguments "weights" ->
  object_or_absent arguments "halt" ->
  dict_mem "halt" arguments = false
  \/ dict_get arguments "repo" PNone = PNone ->
  handle_tool_call w sessions "trm.start" arguments
  = Returns (sessions, RError (Exception KeyError)).
Proof.
  intros OW OH M.
  pose proof (translate_start_total arguments OW OH) as T.
  rewrite (start_call w sessions arguments _ T).
  pose proof (lookup_translated arguments _ "weights" T) as LW.
  pose proof (lookup_translated arguments _ "halt" T) as LH.
  pose proof (lookup_translated arguments _ "repo_path" T) as LR.
  rewrite before_filter_weights in LW. rewrite before_filter_halt in LH.
  rewrite before_filter_repo in LR.
  generalize dependent (drop_none (before_filter arguments)).
  intros t _ LW LH LR.
  assert (S : start_session w sessions t = Raises KeyError);
    [| rewrite S; reflexivity].
  unfold start_session, arg, getitem. rewrite LW, LH, LR.
  unfold object_or_absent, dict_mem in *.
  destruct (dict_lookup "weights" arguments) as [[| | | | | | wd] |];
    try contradiction;
    (destruct (dict_lookup "halt" arguments) as [[| | | | | | h] |];
     try contradiction; try reflexivity);
    (destruct M as [M | M]; [discriminate M |]);
    rewrite M; reflexivity.
Qed.

Lemma start_without_repo_or_halt_is_refused_witness :
  handle_tool_call still_world one_session "trm.start"
    [("repo", PStr "repo"); ("test", PStr "pytest")]
  = Returns (one_session, RError (Exception KeyError)).
Proof.
  apply start_without_repo_or_halt_is_refused.
  - exact I.
  - exact I.
  - left. reflexivity.
Defined.

(** X29.  Where [weights] or [halt] is given to [trm.start] and is not
    an object (a null, a number, a string, a list), the translation of the
    arguments raises [AttributeError]; it runs before the [try] block of
    [handle_tool_call], so the exception leaves [handle_tool_call] and no
    error answer is produced. *)
Theorem malformed_weights_or_halt_escape
    (w : world) (sessions : registry) (arguments : dict) :
  ~ object_or_absent arguments "weights"
  \/ ~ object_or_absent arguments "halt" ->
  handle_tool_call w sessions "trm.start" arguments = Raises AttributeError.
Proof.
  intro N. rewrite call_start.
  assert (T : _translate_start arguments = Raises AttributeError);
    [| rewrite T; reflexivity].
  unfold _translate_start, translate_weights, translate_halt, get.
  unfold object_or_absent in N.
  destruct (dict_lookup "weights" arguments) as [[| | | | | | wd] |];
    try reflexivity;
    destruct (dict_lookup "halt" arguments) as [[| | | | | | h] |];
    try reflexivity;
    exfalso; destruct N as [N | N]; apply N; exact I.
Qed.

Lemma malformed_weights_or_halt_escape_witness :
  handle_tool_call still_world one_session "trm.start"
    [("repo", PStr "repo"); ("halt", PNone)]
  = Raises AttributeError.
Proof.
  apply malformed_weights_or_halt_escape.
  right. intro H. exact H.
Defined.

End HandlerFacts.
